(** * Coordinator of the DOU agents: orchestration and monitoring

    A shallow embedding of [src/coordenador/orquestrador.py],
    [src/coordenador/monitor.py] and [src/coordenador/main.py].

    Python objects become Rocq data, the operating system (file system,
    child processes, clock, log) becomes an explicit world that every
    function threads through, and exceptions become a result type. *)

From Stdlib Require Import ZArith List String Ascii Bool Lia.
From Stdlib Require Import Permutation Sorted DecimalString.
Import ListNotations.

Local Open Scope string_scope.
Local Open Scope Z_scope.

Set Implicit Arguments.

(* ===================================================================== *)
(** ** Strings and paths *)
(* ===================================================================== *)

Module Texto.

Definition barra : ascii := "/"%char.
Definition ponto : ascii := "."%char.
Definition nova_linha : ascii := ascii_of_nat 10.

  (** [str(n)] for a Python [int]. *)
Definition str_Z (n : Z) : string := NilZero.string_of_int (Z.to_int n).

  (** [sep.join(partes)]. *)
Fixpoint join (sep : string) (partes : list string) : string :=
    match partes with
    | [] => ""
    | [p] => p
    | p :: resto => p ++ sep ++ join sep resto
    end.

  (** [s.startswith(p)]. *)
Fixpoint startswith (p s : string) : bool :=
    match p with
    | EmptyString => true
    | String a p' =>
        match s with
        | EmptyString => false
        | String b s' => Ascii.eqb a b && startswith p' s'
        end
    end.

  (** [s.replace(velho, "")]: every non-overlapping occurrence of [velho],
      scanning from the left, is dropped.  [combustivel] bounds the scan by
      the length of the text. *)
Fixpoint remover_ocorrencias (combustivel : nat) (velho s : string) : string :=
    match combustivel with
    | O => s
    | S c =>
        match s with
        | EmptyString => EmptyString
        | String a r =>
            if startswith velho s
            then remover_ocorrencias c velho
                   (String.substring (String.length velho)
                      (String.length s - String.length velho) s)
            else String a (remover_ocorrencias c velho r)
        end
    end.

Definition replace_vazio (velho s : string) : string :=
    match velho with
    | EmptyString => s
    | _ => remover_ocorrencias (S (String.length s)) velho s
    end.

  (** [s] contains [p] as a contiguous substring. *)
Definition contem (p s : string) : Prop :=
    exists antes depois, s = antes ++ p ++ depois.

  (** Splitting at the last ["/"]: the head keeps its final slash. *)
Fixpoint cortar_na_ultima_barra (p : string) : string * string :=
    match p with
    | EmptyString => (EmptyString, EmptyString)
    | String c r =>
        let (cabeca, cauda) := cortar_na_ultima_barra r in
        if Ascii.eqb c barra then (String c cabeca, cauda)
        else match cabeca with
             | EmptyString => (EmptyString, String c cauda)
             | _ => (String c cabeca, cauda)
             end
    end.

Fixpoint so_barras (s : string) : bool :=
    match s with
    | EmptyString => true
    | String c r => Ascii.eqb c barra && so_barras r
    end.

  (** [s.rstrip("/")]. *)
Fixpoint rstrip_barras (s : string) : string :=
    match s with
    | EmptyString => EmptyString
    | String c r => if so_barras s then EmptyString else String c (rstrip_barras r)
    end.

  (** [os.path.split] (posixpath). *)
Definition os_path_split (p : string) : string * string :=
    let (cabeca, cauda) := cortar_na_ultima_barra p in
    if so_barras cabeca then (cabeca, cauda) else (rstrip_barras cabeca, cauda).

Definition os_path_basename (p : string) : string := snd (cortar_na_ultima_barra p).

Fixpoint termina_em_barra (s : string) : bool :=
    match s with
    | EmptyString => false
    | String c EmptyString => Ascii.eqb c barra
    | String _ r => termina_em_barra r
    end.

  (** [os.path.join(a, b)] (posixpath, two components). *)
Definition os_path_join (a b : string) : string :=
    if startswith "/" b then b
    else match a with
         | EmptyString => b
         | _ => if termina_em_barra a then a ++ b else a ++ "/" ++ b
         end.

  (** [raiz_ext visto s]: [s] is the rest of a base name, [visto] tells
      whether a character other than ["."] was already passed.  The result
      is the part of [s] before its last extension dot, which as in
      [genericpath._splitext] is not one of the leading dots. *)
Fixpoint raiz_ext (visto : bool) (s : string) : string * bool :=
    match s with
    | EmptyString => (EmptyString, false)
    | String c r =>
        let (raiz, cortou) := raiz_ext (visto || negb (Ascii.eqb c ponto)) r in
        if cortou then (String c raiz, true)
        else if Ascii.eqb c ponto && visto then (EmptyString, true)
        else (String c raiz, false)
    end.

  (** [os.path.splitext(p)[0]] for a path without directory part. *)
Definition splitext_raiz (p : string) : string := fst (raiz_ext false p).

Definition apostrofo : ascii := "'"%char.
Definition aspas : ascii := ascii_of_nat 34.
Definition contrabarra : ascii := ascii_of_nat 92.

Fixpoint ocorre (c : ascii) (s : string) : bool :=
    match s with
    | EmptyString => false
    | String a r => Ascii.eqb a c || ocorre c r
    end.

Definition hex_digito (n : nat) : ascii :=
    nth n ["0"; "1"; "2"; "3"; "4"; "5"; "6"; "7"; "8"; "9";
           "a"; "b"; "c"; "d"; "e"; "f"]%char "0"%char.

  (** One character of [repr(s)] inside the quote [q]. *)
Definition repr_caractere (q c : ascii) : string :=
    let n := nat_of_ascii c in
    if Ascii.eqb c q || Ascii.eqb c contrabarra
    then String contrabarra (String c EmptyString)
    else if Nat.eqb n 9 then String contrabarra "t"
    else if Nat.eqb n 10 then String contrabarra "n"
    else if Nat.eqb n 13 then String contrabarra "r"
    else if Nat.ltb n 32 || Nat.eqb n 127
    then String contrabarra
           (String "x" (String (hex_digito (n / 16))
                          (String (hex_digito (n mod 16)) EmptyString)))
    else String c EmptyString.

Fixpoint repr_corpo (q : ascii) (s : string) : string :=
    match s with
    | EmptyString => EmptyString
    | String c r => repr_caractere q c ++ repr_corpo q r
    end.

  (** [repr(s)] of a [str]: single quotes unless the text holds one and no
      double quote; the quote, the backslash and the control characters
      are escaped.  Characters outside ASCII are taken to be printable. *)
Definition repr_str (s : string) : string :=
    let q := if ocorre apostrofo s && negb (ocorre aspas s) then aspas else apostrofo in
    String q (repr_corpo q s ++ String q EmptyString).

End Texto.

Import Texto.

(* ===================================================================== *)
(** ** Dates: the part of Python's [datetime] the coordinator uses *)
(* ===================================================================== *)

Module Calendario.

Record DateTime := {
    ano : Z; mes : Z; dia : Z;
    hora : Z; minuto : Z; segundo : Z
  }.

Definition _is_leap (year : Z) : bool :=
    (year mod 4 =? 0) && (negb (year mod 100 =? 0) || (year mod 400 =? 0)).

Definition _days_before_year (year : Z) : Z :=
    let y := year - 1 in y * 365 + y / 4 - y / 100 + y / 400.

  (** [_DAYS_IN_MONTH] and [_DAYS_BEFORE_MONTH], indexed from 1. *)
Definition _DAYS_IN_MONTH (month : Z) : Z :=
    nth (Z.to_nat month) [0; 31; 28; 31; 30; 31; 30; 31; 31; 30; 31; 30; 31] 0.

Definition _DAYS_BEFORE_MONTH (month : Z) : Z :=
    nth (Z.to_nat month) [0; 0; 31; 59; 90; 120; 151; 181; 212; 243; 273; 304; 334] 0.

Definition _days_in_month (year month : Z) : Z :=
    if (month =? 2) && _is_leap year then 29 else _DAYS_IN_MONTH month.

Definition _days_before_month (year month : Z) : Z :=
    _DAYS_BEFORE_MONTH month + (if (2 <? month) && _is_leap year then 1 else 0).

Definition _ymd2ord (year month day : Z) : Z :=
    _days_before_year year + _days_before_month year month + day.

Definition _ord2ymd (n0 : Z) : Z * Z * Z :=
    let n := n0 - 1 in
    let n400 := n / 146097 in
    let n := n mod 146097 in
    let year := n400 * 400 + 1 in
    let n100 := n / 36524 in
    let n := n mod 36524 in
    let n4 := n / 1461 in
    let n := n mod 1461 in
    let n1 := n / 365 in
    let n := n mod 365 in
    let year := year + n100 * 100 + n4 * 4 + n1 in
    if (n1 =? 4) || (n100 =? 4) then (year - 1, 12, 31)
    else
      let leapyear := (n1 =? 3) && (negb (n4 =? 24) || (n100 =? 3)) in
      let month := Z.shiftr (n + 50) 5 in
      let preceding :=
        _DAYS_BEFORE_MONTH month + (if (2 <? month) && leapyear then 1 else 0) in
      if n <? preceding then
        let month := month - 1 in
        let preceding :=
          preceding - (_DAYS_IN_MONTH month + (if (month =? 2) && leapyear then 1 else 0)) in
        (year, month, n - preceding + 1)
      else (year, month, n - preceding + 1).

Definition toordinal (d : DateTime) : Z := _ymd2ord (ano d) (mes d) (dia d).

  (** [d - timedelta(days=n)] while the result stays within the years 1 to
      9999 (outside them Python raises [OverflowError]): the date moves
      through its ordinal, the time of day is kept. *)
Definition menos_dias (d : DateTime) (n : Z) : DateTime :=
    let '(y, m, dd) := _ord2ymd (toordinal d - n) in
    {| ano := y; mes := m; dia := dd;
       hora := hora d; minuto := minuto d; segundo := segundo d |}.

  (** [datetime.fromtimestamp(t)] for whole seconds, in UTC. *)
Definition fromtimestamp (t : Z) : DateTime :=
    let '(y, m, dd) := _ord2ymd (719163 + t / 86400) in
    let s := t mod 86400 in
    {| ano := y; mes := m; dia := dd;
       hora := s / 3600; minuto := (s mod 3600) / 60; segundo := s mod 60 |}.

Definition digito (n : Z) : ascii := ascii_of_nat (48 + Z.to_nat (n mod 10)).

Definition dois_digitos (n : Z) : string :=
    String (digito (n / 10)) (String (digito n) EmptyString).

Definition quatro_digitos (n : Z) : string :=
    String (digito (n / 1000)) (String (digito (n / 100)) (dois_digitos n)).

  (** [d.strftime('%d-%m-%Y')], [d.strftime('%Y-%m-%d')] and
      [d.strftime('%Y%m%d_%H%M%S')], for years of four digits. *)
Definition strftime_dmY (d : DateTime) : string :=
    dois_digitos (dia d) ++ "-" ++ dois_digitos (mes d) ++ "-" ++ quatro_digitos (ano d).

Definition strftime_Ymd (d : DateTime) : string :=
    quatro_digitos (ano d) ++ "-" ++ dois_digitos (mes d) ++ "-" ++ dois_digitos (dia d).

Definition strftime_compacto (d : DateTime) : string :=
    quatro_digitos (ano d) ++ dois_digitos (mes d) ++ dois_digitos (dia d) ++ "_"
    ++ dois_digitos (hora d) ++ dois_digitos (minuto d) ++ dois_digitos (segundo d).

Definition valor_digito (c : ascii) : option Z :=
    let n := Z.of_nat (nat_of_ascii c) in
    if (48 <=? n) && (n <=? 57) then Some (n - 48) else None.

  (** A run of decimal digits, read as a number. *)
Fixpoint ler_digitos (acc : Z) (s : string) : option Z :=
    match s with
    | EmptyString => Some acc
    | String c r =>
        match valor_digito c with
        | Some v => ler_digitos (acc * 10 + v) r
        | None => None
        end
    end.

  (** The text before the first ["-"] and the text after it. *)
Fixpoint cortar_hifen (s : string) : option (string * string) :=
    match s with
    | EmptyString => None
    | String c r =>
        if Ascii.eqb c "-"%char then Some (EmptyString, r)
        else match cortar_hifen r with
             | Some (a, b) => Some (String c a, b)
             | None => None
             end
    end.

Definition campo (min_len max_len : nat) (s : string) : option Z :=
    if (Nat.leb min_len (String.length s)) && (Nat.leb (String.length s) max_len)
    then ler_digitos 0 s else None.

  (** The field [%d]: besides one or two digits it takes a space before a
      digit other than zero. *)
Definition campo_dia (s : string) : option Z :=
    match s with
    | String c (String d EmptyString) =>
        if Ascii.eqb c " "%char
        then match valor_digito d with
             | Some v => if v =? 0 then None else Some v
             | None => None
             end
        else campo 1 2 s
    | _ => campo 1 2 s
    end.

  (** [datetime.strptime(s, '%d-%m-%Y')] for a text of ASCII characters:
      day and month of one or two digits, a year of four digits, and a
      date that exists.  [None] stands for [ValueError]. *)
Definition strptime_dmY (s : string) : option DateTime :=
    match cortar_hifen s with
    | None => None
    | Some (sd, r) =>
        match cortar_hifen r with
        | None => None
        | Some (sm, sy) =>
            match campo_dia sd, campo 1 2 sm, campo 4 4 sy with
            | Some d, Some m, Some y =>
                if (1 <=? y) && (1 <=? m) && (m <=? 12) && (1 <=? d)
                   && (d <=? _days_in_month y m)
                then Some {| ano := y; mes := m; dia := d;
                             hora := 0; minuto := 0; segundo := 0 |}
                else None
            | _, _, _ => None
            end
        end
    end.

End Calendario.

Import Calendario.

(* ===================================================================== *)
(** ** JSON values, run report and status snapshot *)
(* ===================================================================== *)

Module Dados.

  (** What [json.loads] returns and what the index result carries. *)
  #[local] Unset Elimination Schemes.
Inductive Json :=
  | JNull
  | JBool (b : bool)
  | JNum (n : Z)
  | JStr (s : string)
  | JList (itens : list Json)
  | JObj (campos : list (string * Json)).
  #[local] Set Elimination Schemes.

  (** Truth value of a Python object. *)
Definition verdadeiro (v : Json) : bool :=
    match v with
    | JNull => false
    | JBool b => b
    | JNum n => negb (n =? 0)
    | JStr s => negb (String.eqb s "")
    | JList l => match l with [] => false | _ => true end
    | JObj c => match c with [] => false | _ => true end
    end.

Fixpoint procurar_chave (chave : string) (campos : list (string * Json)) : option Json :=
    match campos with
    | [] => None
    | (k, v) :: r => if String.eqb k chave then Some v else procurar_chave chave r
    end.

  (** [d.get(chave, padrao)]; [None] when [d] is not a dict, where Python
      raises [AttributeError]. *)
Definition dict_get (d : Json) (chave : string) (padrao : Json) : option Json :=
    match d with
    | JObj campos =>
        Some (match procurar_chave chave campos with Some v => v | None => padrao end)
    | _ => None
    end.

Record EtapaArquivo := { arquivo : string; status : string }.
Record EtapaIndexacao := { resultado : Json; status_indexacao : string }.

  (** The [relatorio] dict built by [main] after a complete run. *)
Record Relatorio := {
    rel_data : string;
    rel_secao : Z;
    rel_timestamp : DateTime;
    etapa_coleta : EtapaArquivo;
    etapa_processamento : EtapaArquivo;
    etapa_organizacao : EtapaArquivo;
    etapa_indexacao : EtapaIndexacao
  }.

  (** The [status] dict written by [Monitor._salvar_status]. *)
Record StatusSnapshot := {
    st_timestamp : DateTime;
    st_agentes : list (string * string);
    st_memoria_disponivel : string;
    st_espaco_disco : string
  }.

  (** What a file holds: the two documents the coordinator writes itself,
      or anything else. *)
Inductive Conteudo :=
  | Opaco (dados : string)
  | DocRelatorio (r : Relatorio)
  | DocStatus (s : StatusSnapshot).

  (** The keys of [Config] the coordinator reads.  [None] is a key that is
      absent (or null); the values have the types of [DEFAULT_CONFIG]. *)
Record Config := {
    dados_dir : option string;
    max_paginas : option Z;
    modelo_spacy : option string;
    tamanho_maximo_resumo : option Z;
    formato_saida : option string;
    separador_csv : option string;
    encoding_csv : option string;
    elasticsearch_index : option string;
    intervalo_monitoramento : option Z;
    usar_mensageria : bool
  }.

  (** [config.get(chave, padrao)]. *)
Definition get {A} (valor : option A) (padrao : A) : A :=
    match valor with Some v => v | None => padrao end.

  (** [if valor:] for an optional text and an optional number. *)
Definition texto_presente (valor : option string) : option string :=
    match valor with
    | Some s => if String.eqb s "" then None else Some s
    | None => None
    end.

Definition numero_presente (valor : option Z) : option Z :=
    match valor with
    | Some n => if n =? 0 then None else Some n
    | None => None
    end.

End Dados.

Import Dados.

(* ===================================================================== *)
(** ** The world: file system, log, child processes, clock *)
(* ===================================================================== *)

Module SO.

  (** One entry of a directory listing: a regular file or a sub-directory
      whose modification time can be read (a symbolic link that points
      nowhere, on which [os.path.getmtime] raises, is not modelled). *)
Record Entrada := {
    nome : string;
    eh_arquivo : bool;          (* [os.path.isfile]; [false] is a sub-directory *)
    mtime : Z;                  (* [os.path.getmtime] *)
    conteudo : Conteudo
  }.

  (** A directory path is mapped to its listing, in the order [os.listdir]
      yields it; [None] is a directory that does not exist.  Names are
      unique within a listing and directories are identified by the text of
      their path. *)
Definition SistemaArquivos := string -> option (list Entrada).

Inductive Nivel := DEBUG | INFO | WARNING | ERROR.

  (** What [subprocess.run(..., capture_output=True)] hands back. *)
Record CompletedProcess := {
    returncode : Z;
    stdout : string;
    stderr : string
  }.

Record Mundo := {
    arquivos : SistemaArquivos;
    registro : list (Nivel * string);     (* log records, oldest first *)
    processos : list (list string * CompletedProcess);
                                          (* children run, each command with
                                             what it returned, oldest first *)
    dormidas : list Z;                    (* arguments of [time.sleep], oldest first *)
    gravados : list string;               (* paths the coordinator opened for
                                             writing, oldest first *)
    removidos : list string;              (* paths it removed, oldest first *)
    relogio : Z                           (* [time.time()], whole seconds *)
  }.

Inductive Excecao :=
  | CalledProcessError (cmd : list string) (p : CompletedProcess)
  | RuntimeError (msg : string)
  | FileNotFoundError (msg : string)
  | AttributeError (msg : string)
  | OutraExcecao (msg : string).

Inductive Resultado (A : Type) :=
  | Ok (a : A)
  | Levantou (e : Excecao).
Arguments Ok {A} a.
Arguments Levantou {A} e.

  (** Behaviour the coordinator takes from its platform: the worker
      programs and the Python library functions whose result is not
      computed here. *)
Class Plataforma := {
    (** [sys.executable] *)
    python_exec : string;
    (** a child process run to completion: what it returns and the file
        system it leaves *)
    filho : list string -> Mundo -> CompletedProcess * SistemaArquivos;
    (** [json.loads]; [None] stands for the exception it raises *)
    json_loads : string -> option Json;
    (** [str(e)] of a [CalledProcessError]: command and return code *)
    str_CalledProcessError : list string -> Z -> string;
    (** [str(d)] of a dict *)
    str_json : Json -> string;
    str_status : list (string * string) -> string;
    (** [psutil] readings, [None] when unavailable *)
    psutil_memoria : Mundo -> option string;
    psutil_disco : Mundo -> option string;
    (** [consumir_mensagem_unica(topico, timeout=1, ...)]: the text of the
        message received, if any *)
    consumir_mensagem_unica : string -> Mundo -> option string
  }.

  (** Computations over the world that may raise. *)
Definition M (A : Type) := Mundo -> Resultado A * Mundo.

Definition ret {A} (a : A) : M A := fun w => (Ok a, w).

Definition bind {A B} (m : M A) (k : A -> M B) : M B :=
    fun w => match m w with
             | (Ok a, w') => k a w'
             | (Levantou e, w') => (Levantou e, w')
             end.

Definition levantar {A} (e : Excecao) : M A := fun w => (Levantou e, w).

  (** [try: m except <filtro> as e: ...]: the handler runs for the
      exceptions the filter accepts, the others pass. *)
Definition tentar {A} (m : M A) (tratador : Excecao -> option (M A)) : M A :=
    fun w => match m w with
             | (Ok a, w') => (Ok a, w')
             | (Levantou e, w') =>
                 match tratador e with
                 | Some h => h w'
                 | None => (Levantou e, w')
                 end
             end.

Definition ler_mundo : M Mundo := fun w => (Ok w, w).

Definition logger (n : Nivel) (msg : string) : M unit :=
    fun w => (Ok tt, {| arquivos := arquivos w;
                        registro := registro w ++ [(n, msg)];
                        processos := processos w;
                        dormidas := dormidas w;
                        gravados := gravados w;
                        removidos := removidos w;
                        relogio := relogio w |}).

Definition com_arquivos (fs : SistemaArquivos) (w : Mundo) : Mundo :=
    {| arquivos := fs; registro := registro w; processos := processos w;
       dormidas := dormidas w; gravados := gravados w; removidos := removidos w;
       relogio := relogio w |}.

  (** [time.sleep(n)]. *)
Definition time_sleep (n : Z) : M unit :=
    fun w => (Ok tt, {| arquivos := arquivos w; registro := registro w;
                        processos := processos w;
                        dormidas := dormidas w ++ [n];
                        gravados := gravados w;
                        removidos := removidos w;
                        relogio := relogio w + n |}).

Definition datetime_now : M DateTime := fun w => (Ok (fromtimestamp (relogio w)), w).

Definition listar (fs : SistemaArquivos) (d : string) : list Entrada :=
    match fs d with Some l => l | None => [] end.

Definition atualizar (fs : SistemaArquivos) (d : string) (l : list Entrada)
    : SistemaArquivos :=
    fun d' => if String.eqb d' d then Some l else fs d'.

Definition tem_nome (n : string) (l : list Entrada) : bool :=
    existsb (fun e => String.eqb (nome e) n) l.

  (** [os.path.exists(p)]: a directory, or an entry of its parent; the
      empty path never exists. *)
Definition existe (fs : SistemaArquivos) (p : string) : bool :=
    match p with
    | EmptyString => false
    | _ => match fs p with
           | Some _ => true
           | None => let (d, n) := os_path_split p in tem_nome n (listar fs d)
           end
    end.

Definition os_path_exists (p : string) : M bool :=
    fun w => (Ok (existe (arquivos w) p), w).

  (** [str(e)] of the [FileNotFoundError] the operating system raises for
      a path. *)
Definition erro_enoent (caminho : string) : string :=
    "[Errno 2] No such file or directory: " ++ repr_str caminho.

  (** [os.makedirs(d, exist_ok=True)] where no component of [d] is a
      regular file (there Python raises [FileExistsError] or
      [NotADirectoryError]); the empty path raises. *)
Definition os_makedirs (d : string) : M unit :=
    fun w =>
      match d with
      | EmptyString => (Levantou (FileNotFoundError (erro_enoent d)), w)
      | _ => match arquivos w d with
             | Some _ => (Ok tt, w)
             | None => (Ok tt, com_arquivos (atualizar (arquivos w) d []) w)
             end
      end.

  (** Writing [c] under the name [n]: an existing entry is replaced where
      it stands, a new one goes to the end of the listing. *)
Fixpoint gravar_entrada (n : string) (t : Z) (c : Conteudo) (l : list Entrada)
    : list Entrada :=
    match l with
    | [] => [{| nome := n; eh_arquivo := true; mtime := t; conteudo := c |}]
    | e :: r =>
        if String.eqb (nome e) n
        then {| nome := n; eh_arquivo := true; mtime := t; conteudo := c |} :: r
        else e :: gravar_entrada n t c r
    end.

  (** [with open(os.path.join(d, n), 'w') as f: json.dump(c, f)]: raises
      when the directory is missing.  An entry of the name [n] is taken to
      be a file (on a sub-directory Python raises [IsADirectoryError]). *)
Definition gravar_arquivo (d n : string) (c : Conteudo) : M unit :=
    fun w =>
      match arquivos w d with
      | None => (Levantou (FileNotFoundError (erro_enoent (os_path_join d n))), w)
      | Some l =>
          (Ok tt, {| arquivos := atualizar (arquivos w) d
                                   (gravar_entrada n (relogio w) c l);
                     registro := registro w; processos := processos w;
                     dormidas := dormidas w;
                     gravados := gravados w ++ [os_path_join d n];
                     removidos := removidos w;
                     relogio := relogio w |})
      end.

  (** [os.remove(os.path.join(d, n))]: raises when there is no such file. *)
Definition os_remove (d n : string) : M unit :=
    fun w =>
      if tem_nome n (listar (arquivos w) d)
      then (Ok tt, {| arquivos := atualizar (arquivos w) d
                                    (filter (fun e => negb (String.eqb (nome e) n))
                                       (listar (arquivos w) d));
                      registro := registro w; processos := processos w;
                      dormidas := dormidas w;
                      gravados := gravados w;
                      removidos := removidos w ++ [os_path_join d n];
                      relogio := relogio w |})
      else (Levantou (FileNotFoundError (erro_enoent (os_path_join d n))), w).

  (** [subprocess.run(cmd, check=True, capture_output=True, text=True)]
      for a child that can be started and whose output decodes (otherwise
      Python raises [ValueError], [OSError] or [UnicodeDecodeError]): the
      child runs to its end and is recorded with what it returned; a
      return code other than zero raises [CalledProcessError]. *)
Definition subprocess_run `{Plataforma} (cmd : list string) : M CompletedProcess :=
    fun w =>
      let (p, fs) := filho cmd w in
      let w' := {| arquivos := fs; registro := registro w;
                   processos := processos w ++ [(cmd, p)];
                   dormidas := dormidas w; gravados := gravados w;
                   removidos := removidos w; relogio := relogio w |} in
      if returncode p =? 0 then (Ok p, w')
      else (Levantou (CalledProcessError cmd p), w').

  (** [str(e)]. *)
Definition str_exc `{Plataforma} (e : Excecao) : string :=
    match e with
    | CalledProcessError cmd p => str_CalledProcessError cmd (returncode p)
    | RuntimeError msg => msg
    | FileNotFoundError msg => msg
    | AttributeError msg => msg
    | OutraExcecao msg => msg
    end.

End SO.

Import SO.

Declare Scope mon_scope.
Delimit Scope mon_scope with mon.
Notation "x <- m ;; k" := (bind m (fun x => k))
  (at level 61, m at next level, right associativity) : mon_scope.
Notation "m ;; k" := (bind m (fun _ => k))
  (at level 61, right associativity) : mon_scope.
Local Open Scope mon_scope.

(* ===================================================================== *)
(** ** [glob] and [re.search] as the orchestrator calls them *)
(* ===================================================================== *)

Module Padroes.

  (** A shell pattern after [fnmatch.translate].  Character classes
      ([[...]]) are not interpreted: a ["["] stands for itself, so the
      matcher is Python's for patterns without ["["]. *)
Inductive Token := TEstrela | TInterrogacao | TLiteral (c : ascii).

Fixpoint traduzir (pat : string) : list Token :=
    match pat with
    | EmptyString => []
    | String c r =>
        (if Ascii.eqb c "*"%char then TEstrela
         else if Ascii.eqb c "?"%char then TInterrogacao
         else TLiteral c) :: traduzir r
    end.

Fixpoint casa (p : list Token) (s : string) {struct p} : bool :=
    match p with
    | [] => match s with EmptyString => true | _ => false end
    | TLiteral c :: p' =>
        match s with
        | String d s' => Ascii.eqb c d && casa p' s'
        | EmptyString => false
        end
    | TInterrogacao :: p' =>
        match s with
        | String _ s' => casa p' s'
        | EmptyString => false
        end
    | TEstrela :: p' =>
        (fix estrela (t : string) : bool :=
           casa p' t || match t with
                        | String _ t' => estrela t'
                        | EmptyString => false
                        end) s
    end.

  (** [fnmatch.fnmatch(name, pat)] on POSIX. *)
Definition fnmatch (name pat : string) : bool := casa (traduzir pat) name.

  (** [glob._ishidden]. *)
Definition _ishidden (name : string) : bool := startswith "." name.

  (** [glob.has_magic(s)]: [s] holds ["*"], ["?"] or ["["]. *)
Fixpoint has_magic (s : string) : bool :=
    match s with
    | EmptyString => false
    | String c r =>
        Ascii.eqb c "*"%char || Ascii.eqb c "?"%char || Ascii.eqb c "["%char
        || has_magic r
    end.

  (** [glob.glob(pathname)] for a path whose last component holds the
      wildcards and whose directory part holds none ([has_magic] is false
      of it, so that [glob] reads it as it is written): the entries of the
      directory part that are not hidden and match, each with its joined
      path, in listing order. *)
Definition glob_glob (fs : SistemaArquivos) (pathname : string)
    : list (string * Entrada) :=
    let (dirname, basename) := os_path_split pathname in
    map (fun e => (os_path_join dirname (nome e), e))
      (filter (fun e => negb (_ishidden (nome e)) && fnmatch (nome e) basename)
         (listar fs dirname)).

  (** [max(itens, key=chave)]: the first item whose key no later one
      exceeds. *)
Definition max_por {A} (chave : A -> Z) (primeiro : A) (resto : list A) : A :=
    fold_left (fun melhor x => if chave melhor <? chave x then x else melhor)
      resto primeiro.

  (** [s] from its start to the last ["}"] of its first line, when there is
      one: what [.*}] takes after an opening brace. *)
Fixpoint ate_ultima_chave (s : string) : option string :=
    match s with
    | EmptyString => None
    | String c r =>
        if Ascii.eqb c nova_linha then None
        else match ate_ultima_chave r with
             | Some t => Some (String c t)
             | None => if Ascii.eqb c "}"%char then Some (String c EmptyString) else None
             end
    end.

  (** [re.search(r'({.*})', s)]: group 1 of the leftmost match. *)
Fixpoint re_search_chaves (s : string) : option string :=
    match s with
    | EmptyString => None
    | String c r =>
        if Ascii.eqb c "{"%char
        then match ate_ultima_chave r with
             | Some t => Some (String c t)
             | None => re_search_chaves r
             end
        else re_search_chaves r
    end.

End Padroes.

Import Padroes.

(* ===================================================================== *)
(** ** [Orquestrador] (orquestrador.py) *)
(* ===================================================================== *)

Module Orquestrador.
Section ComPlataforma.

Context `{Plataforma}.
Variable config : Config.

  (** The handler of [except subprocess.CalledProcessError as e] shared by
      the three file-producing stages: two error records, then a
      [RuntimeError] built from [str(e)]. *)
Definition falha_do_agente {A : Type} (agente : string) (e : Excecao) : option (M A) :=
    match e with
    | CalledProcessError _ p =>
        Some (logger ERROR ("Erro ao executar " ++ agente ++ ": " ++ str_exc e) ;;
              logger ERROR ("Saída de erro: " ++ stderr p) ;;
              levantar (RuntimeError
                          ("Falha na execução do " ++ agente ++ ": " ++ str_exc e)))
    | _ => None
    end.

Definition encontrar_arquivo_mais_recente (diretorio padrao : string)
    : M (option string) :=
    existe_dir <- os_path_exists diretorio ;;
    if negb existe_dir then
      logger WARNING ("Diretório não encontrado: " ++ diretorio) ;;
      ret None
    else
      w <- ler_mundo ;;
      match glob_glob (arquivos w) (os_path_join diretorio ("*" ++ padrao ++ "*")) with
      | [] =>
          logger WARNING ("Nenhum arquivo encontrado para o padrão: " ++ padrao) ;;
          ret None
      | a :: resto =>
          ret (Some (fst (max_por (fun c => mtime (snd c)) a resto)))
      end.

  (** The tail common to the three file-producing stages: take the expected
      path if it exists, else the most recent file matching [padrao], else
      raise [FileNotFoundError]. *)
Definition conferir_saida (arquivo_saida diretorio padrao msg : string) : M string :=
    existe_saida <- os_path_exists arquivo_saida ;;
    if existe_saida then ret arquivo_saida
    else
      logger WARNING ("Arquivo de saída não encontrado: " ++ arquivo_saida) ;;
      achado <- encontrar_arquivo_mais_recente diretorio padrao ;;
      match achado with
      | Some a => ret a
      | None => levantar (FileNotFoundError msg)
      end.

Definition cmd_coleta (data : DateTime) (secao : Z) (brutos_dir : string)
    : list string :=
    [python_exec; "-m"; "coletor.main";
     "--data"; strftime_dmY data;
     "--secao"; str_Z secao;
     "--output"; brutos_dir]
    ++ match numero_presente (max_paginas config) with
       | Some n => ["--max-paginas"; str_Z n]
       | None => []
       end.

Definition executar_coleta (data : DateTime) (secao : Z) (output_dir : string)
    : M string :=
    logger INFO ("Executando Agente Coletor para " ++ strftime_dmY data
                 ++ ", Seção " ++ str_Z secao) ;;
    let brutos_dir := os_path_join output_dir "brutos" in
    os_makedirs brutos_dir ;;
    let cmd := cmd_coleta data secao brutos_dir in
    logger DEBUG ("Executando comando: " ++ join " " cmd) ;;
    tentar
      (resultado <- subprocess_run cmd ;;
       logger DEBUG ("Saída do Agente Coletor: " ++ stdout resultado) ;;
       let padrao := strftime_Ymd data ++ "_secao" ++ str_Z secao in
       arquivo_saida <- conferir_saida
                          (os_path_join brutos_dir (padrao ++ ".json"))
                          brutos_dir padrao
                          ("Nenhum arquivo de saída encontrado para "
                           ++ strftime_Ymd data ++ ", Seção " ++ str_Z secao) ;;
       logger INFO ("Coleta concluída. Arquivo gerado: " ++ arquivo_saida) ;;
       ret arquivo_saida)
      (falha_do_agente "Agente Coletor").

Definition cmd_processamento (arquivo_entrada arquivo_saida : string) : list string :=
    [python_exec; "-m"; "processador.main";
     "--input"; arquivo_entrada;
     "--output"; arquivo_saida]
    ++ match texto_presente (modelo_spacy config) with
       | Some m => ["--modelo"; m]
       | None => []
       end
    ++ match numero_presente (tamanho_maximo_resumo config) with
       | Some n => ["--tamanho-resumo"; str_Z n]
       | None => []
       end.

Definition executar_processamento (arquivo_entrada output_dir : string) : M string :=
    logger INFO ("Executando Agente Processador para " ++ arquivo_entrada) ;;
    let processados_dir := os_path_join output_dir "processados" in
    os_makedirs processados_dir ;;
    let nome_base := os_path_basename arquivo_entrada in
    let arquivo_saida := os_path_join processados_dir ("processado_" ++ nome_base) in
    let cmd := cmd_processamento arquivo_entrada arquivo_saida in
    logger DEBUG ("Executando comando: " ++ join " " cmd) ;;
    tentar
      (resultado <- subprocess_run cmd ;;
       logger DEBUG ("Saída do Agente Processador: " ++ stdout resultado) ;;
       arquivo_saida <- conferir_saida arquivo_saida processados_dir
                          ("processado_" ++ nome_base)
                          ("Nenhum arquivo de saída encontrado para "
                           ++ arquivo_entrada) ;;
       logger INFO ("Processamento concluído. Arquivo gerado: " ++ arquivo_saida) ;;
       ret arquivo_saida)
      (falha_do_agente "Agente Processador").

  (** The name the organizer is asked to write for an input file. *)
Definition nome_organizado (arquivo_entrada : string) : string :=
    splitext_raiz (replace_vazio "processado_" (os_path_basename arquivo_entrada)).

Definition cmd_organizacao (arquivo_entrada arquivo_saida formato : string)
    : list string :=
    [python_exec; "-m"; "organizador.main";
     "--input"; arquivo_entrada;
     "--output"; arquivo_saida;
     "--formato"; formato]
    ++ match texto_presente (separador_csv config) with
       | Some s => ["--separador"; s]
       | None => []
       end
    ++ match texto_presente (encoding_csv config) with
       | Some s => ["--encoding"; s]
       | None => []
       end.

Definition executar_organizacao (arquivo_entrada output_dir : string) : M string :=
    logger INFO ("Executando Agente Organizador para " ++ arquivo_entrada) ;;
    let formato := get (formato_saida config) "csv" in
    let organizados_dir := os_path_join output_dir formato in
    os_makedirs organizados_dir ;;
    let nome_base := nome_organizado arquivo_entrada in
    let arquivo_saida := os_path_join organizados_dir (nome_base ++ "." ++ formato) in
    let cmd := cmd_organizacao arquivo_entrada arquivo_saida formato in
    logger DEBUG ("Executando comando: " ++ join " " cmd) ;;
    tentar
      (resultado <- subprocess_run cmd ;;
       logger DEBUG ("Saída do Agente Organizador: " ++ stdout resultado) ;;
       arquivo_saida <- conferir_saida arquivo_saida organizados_dir nome_base
                          ("Nenhum arquivo de saída encontrado para "
                           ++ arquivo_entrada) ;;
       logger INFO ("Organização concluída. Arquivo gerado: " ++ arquivo_saida) ;;
       ret arquivo_saida)
      (falha_do_agente "Agente Organizador").

Definition cmd_indexacao (arquivo_entrada : string) : list string :=
    [python_exec; "-m"; "busca.main";
     "--input"; arquivo_entrada;
     "--index"; get (elasticsearch_index config) "dou";
     "--modo"; "indexar"].

  (** The result assumed when the worker's output yields no JSON. *)
Definition indexacao_presumida : Json :=
    JObj [("success", JBool true);
          ("message", JStr "Indexação concluída");
          ("total", JStr "desconhecido")].

Definition indexacao_falhou (erro : string) : Json :=
    JObj [("success", JBool false); ("error", JStr erro); ("total", JNum 0)].

  (** The inner [try] of [executar_indexacao]: the text between the first
      ["{"] and the last ["}"] of a line goes to [json.loads]; no match, or
      any exception, gives the presumed result. *)
Definition extrair_resultado (saida : string) : Json :=
    match re_search_chaves saida with
    | Some grupo =>
        match json_loads grupo with
        | Some v => v
        | None => indexacao_presumida
        end
    | None => indexacao_presumida
    end.

Definition executar_indexacao (arquivo_entrada : string) : M Json :=
    logger INFO ("Executando Agente de Busca para indexar " ++ arquivo_entrada) ;;
    let cmd := cmd_indexacao arquivo_entrada in
    logger DEBUG ("Executando comando: " ++ join " " cmd) ;;
    tentar
      (resultado <- subprocess_run cmd ;;
       logger DEBUG ("Saída do Agente de Busca: " ++ stdout resultado) ;;
       let resultado_indexacao := extrair_resultado (stdout resultado) in
       logger INFO ("Indexação concluída: " ++ str_json resultado_indexacao) ;;
       ret resultado_indexacao)
      (fun e =>
         match e with
         | CalledProcessError _ p =>
             Some (logger ERROR ("Erro ao executar Agente de Busca: " ++ str_exc e) ;;
                   logger ERROR ("Saída de erro: " ++ stderr p) ;;
                   ret (indexacao_falhou (str_exc e)))
         | _ => None
         end).

  (** One probe of [verificar_status_agentes]: the module is run with
      [--help]; any exception means unavailable. *)
Definition sondar (modulo : string) : M string :=
    tentar
      (subprocess_run [python_exec; "-m"; modulo; "--help"] ;;
       ret "disponível")
      (fun _ => Some (ret "indisponível")).

Definition verificar_status_agentes : M (list (string * string)) :=
    coletor <- sondar "coletor.main" ;;
    processador <- sondar "processador.main" ;;
    organizador <- sondar "organizador.main" ;;
    busca <- sondar "busca.main" ;;
    ret [("coletor", coletor); ("processador", processador);
         ("organizador", organizador); ("busca", busca)].

End ComPlataforma.
End Orquestrador.

Import Orquestrador.

(* ===================================================================== *)
(** ** [Monitor] (monitor.py) *)
(* ===================================================================== *)

Module Monitor.

  (** The loop thread's view: the world and the flag [self.executando]. *)
Record Estado := {
    mundo : Mundo;
    executando : bool
  }.

  (** What one pass of the loop meets from outside itself.

      [falha = Some (k, e)]: exception [e] is raised inside the [try], just
      before step [k] of the body (0 probing, 1 messages, 2 recent files,
      3 snapshot, 4 waiting).

      [parada = Some k]: another thread runs [self.executando = False]
      (the assignment of [parar]) just before the [k]-th reading of the flag
      in this pass; reading 0 is the [while] test, readings 1, 2, ... are
      those of the waiting loop.  A request later than the last reading of
      the pass is seen by the next [while] test. *)
Record Iteracao := {
    falha : option (nat * Excecao);
    parada : option nat
  }.

Inductive Desfecho :=
  | Terminou (st : Estado)      (* the [while] test read [False] *)
  | Rodando (st : Estado).      (* still looping when the script ends *)

  (** [arquivos.sort(key=os.path.getmtime)]: a stable sort, oldest first. *)
Fixpoint inserir (x : Entrada) (l : list Entrada) : list Entrada :=
    match l with
    | [] => [x]
    | y :: r => if mtime x <=? mtime y then x :: l else y :: inserir x r
    end.

Fixpoint ordenar_por_mtime (l : list Entrada) : list Entrada :=
    match l with
    | [] => []
    | x :: r => inserir x (ordenar_por_mtime r)
    end.

  (** [l[:-k]]. *)
Definition fatia_sem_ultimos {A} (k : Z) (l : list A) : list A :=
    if 0 <? k then firstn (List.length l - Z.to_nat k) l
    else if k =? 0 then []
    else firstn (Z.to_nat (- k)) l.

  (** [os.listdir(d)] raises when [d] is not a directory. *)
Definition os_listdir (d : string) : M (list Entrada) :=
    fun w => match arquivos w d with
             | Some l => (Ok l, w)
             | None => (Levantou (FileNotFoundError (erro_enoent d)), w)
             end.

Fixpoint para_cada {A} (f : A -> M unit) (l : list A) : M unit :=
    match l with
    | [] => ret tt
    | x :: r => f x ;; para_cada f r
    end.

Section ComPlataforma.

Context `{Plataforma}.
Variable config : Config.

Definition status_dir : string :=
    os_path_join (get (dados_dir config) "../dados") "status".

  (** [Monitor.__init__]. *)
Definition init : M unit := os_makedirs status_dir.

Definition _verificar_mensagens : M unit :=
    if negb (usar_mensageria config) then ret tt
    else
      w <- ler_mundo ;;
      match consumir_mensagem_unica "coleta_concluida" w with
      | Some m => logger INFO ("Mensagem de coleta concluída recebida: " ++ m)
      | None => ret tt
      end ;;
      w <- ler_mundo ;;
      match consumir_mensagem_unica "processamento_concluido" w with
      | Some m => logger INFO ("Mensagem de processamento concluído recebida: " ++ m)
      | None => ret tt
      end ;;
      w <- ler_mundo ;;
      match consumir_mensagem_unica "organizacao_concluida" w with
      | Some m => logger INFO ("Mensagem de organização concluída recebida: " ++ m)
      | None => ret tt
      end.

Definition _listar_arquivos_recentes (diretorio : string) (horas : Z)
    : M (list Entrada) :=
    w <- ler_mundo ;;
    let limite_tempo := relogio w - horas * 3600 in
    entradas <- os_listdir diretorio ;;
    ret (filter (fun e => eh_arquivo e && (limite_tempo <? mtime e)) entradas).

Definition verificar_recentes (diretorio rotulo : string) : M unit :=
    existe_dir <- os_path_exists diretorio ;;
    if existe_dir then
      recentes <- _listar_arquivos_recentes diretorio 24 ;;
      match recentes with
      | [] => ret tt
      | _ => logger INFO (rotulo ++ str_Z (Z.of_nat (List.length recentes)))
      end
    else ret tt.

Definition _verificar_arquivos_recentes : M unit :=
    tentar
      (let dados := get (dados_dir config) "../dados" in
       verificar_recentes (os_path_join dados "brutos") "Arquivos brutos recentes: " ;;
       verificar_recentes (os_path_join dados "processados")
         "Arquivos processados recentes: " ;;
       verificar_recentes (os_path_join dados "csv") "Arquivos CSV recentes: ")
      (fun e => Some (logger ERROR ("Erro ao verificar arquivos recentes: " ++ str_exc e))).

  (** The files [arquivos[:-max_arquivos]] of a listing: those the cleanup
      removes, oldest first. *)
Definition excedentes (max_arquivos : Z) (entradas : list Entrada) : list Entrada :=
    let arqs := filter eh_arquivo entradas in
    if Z.of_nat (List.length arqs) <=? max_arquivos then []
    else fatia_sem_ultimos max_arquivos (ordenar_por_mtime arqs).

Definition _limpar_arquivos_antigos (diretorio : string) (max_arquivos : Z) : M unit :=
    tentar
      (entradas <- os_listdir diretorio ;;
       para_cada
         (fun e => tentar (os_remove diretorio (nome e)) (fun _ => Some (ret tt)))
         (excedentes max_arquivos entradas))
      (fun e => Some (logger ERROR ("Erro ao limpar arquivos antigos: " ++ str_exc e))).

Definition _salvar_status (status_agentes : list (string * string)) : M unit :=
    tentar
      (agora <- datetime_now ;;
       w <- ler_mundo ;;
       let status :=
         {| st_timestamp := agora;
            st_agentes := status_agentes;
            st_memoria_disponivel := get (psutil_memoria w) "desconhecido";
            st_espaco_disco := get (psutil_disco w) "desconhecido" |} in
       agora <- datetime_now ;;
       gravar_arquivo status_dir
         ("status_" ++ strftime_compacto agora ++ ".json") (DocStatus status) ;;
       _limpar_arquivos_antigos status_dir 10)
      (fun e => Some (logger ERROR ("Erro ao salvar status: " ++ str_exc e))).

Definition ponto_de_falha (it : Iteracao) (k : nat) : M unit :=
    match falha it with
    | Some (k', e) => if Nat.eqb k' k then levantar e else ret tt
    | None => ret tt
    end.

  (** The body of the [try] up to the waiting loop. *)
Definition passos (it : Iteracao) : M unit :=
    ponto_de_falha it 0 ;;
    status_agentes <- verificar_status_agentes ;;
    logger INFO ("Status dos agentes: " ++ str_status status_agentes) ;;
    ponto_de_falha it 1 ;;
    _verificar_mensagens ;;
    ponto_de_falha it 2 ;;
    _verificar_arquivos_recentes ;;
    ponto_de_falha it 3 ;;
    _salvar_status status_agentes ;;
    ponto_de_falha it 4.

  (** The flag as the [k]-th reading of a pass finds it. *)
Definition ler_flag (it : Iteracao) (k : nat) (flag : bool) : bool :=
    match parada it with
    | Some k' => if Nat.leb k' k then false else flag
    | None => flag
    end.

  (** [for _ in range(intervalo): if not self.executando: break;
      time.sleep(1)], from reading number [k] on. *)
Fixpoint aguardar (it : Iteracao) (k : nat) (restantes : nat) (st : Estado) : Estado :=
    match restantes with
    | O => st
    | S r =>
        if ler_flag it k (executando st)
        then aguardar it (S k) r
               {| mundo := snd (time_sleep 1 (mundo st)); executando := true |}
        else {| mundo := mundo st; executando := false |}
    end.

  (** One pass of the [while] body: the [try] and its [except Exception]. *)
Definition iteracao (it : Iteracao) (intervalo : Z) (st : Estado) : Estado :=
    match passos it (mundo st) with
    | (Ok _, w) =>
        aguardar it 1 (Z.to_nat intervalo) {| mundo := w; executando := executando st |}
    | (Levantou e, w) =>
        {| mundo := snd ((logger ERROR ("Erro durante o monitoramento: " ++ str_exc e) ;;
                          time_sleep 10) w);
           executando := executando st |}
    end.

  (** The flag at the end of a pass: a request made during the pass has
      landed. *)
Definition fim_da_iteracao (it : Iteracao) (st : Estado) : Estado :=
    {| mundo := mundo st;
       executando := match parada it with Some _ => false | None => executando st end |}.

Fixpoint _loop_monitoramento (roteiro : list Iteracao) (intervalo : Z) (st : Estado)
    : Desfecho :=
    match roteiro with
    | [] => if executando st then Rodando st else Terminou st
    | it :: resto =>
        if ler_flag it 0 (executando st)
        then _loop_monitoramento resto intervalo
               (fim_da_iteracao it
                  (iteracao it intervalo {| mundo := mundo st; executando := true |}))
        else Terminou {| mundo := mundo st; executando := false |}
    end.

  (** [parar], in the thread that calls it; the join of the loop thread
      leaves no trace in the state. *)
Definition parar (st : Estado) : Estado :=
    if negb (executando st)
    then {| mundo := snd (logger WARNING "Monitoramento não está em execução" (mundo st));
            executando := false |}
    else {| mundo := snd (logger INFO "Monitoramento parado" (mundo st));
            executando := false |}.

  (** [iniciar]: the loop thread is started and the caller waits for the
      flag to fall.  The records of the two threads are kept in the order
      start record, loop records, stop record. *)
Definition iniciar (roteiro : list Iteracao) (intervalo : Z) (st : Estado) : Desfecho :=
    if executando st
    then Terminou {| mundo := snd (logger WARNING "Monitoramento já está em execução"
                                     (mundo st));
                     executando := true |}
    else
      match _loop_monitoramento roteiro intervalo
              {| mundo := snd (logger INFO ("Monitoramento iniciado com intervalo de "
                                            ++ str_Z intervalo ++ " segundos") (mundo st));
                 executando := true |} with
      | Terminou st' =>
          Terminou {| mundo := snd (logger INFO "Monitoramento parado" (mundo st'));
                      executando := false |}
      | Rodando st' => Rodando st'
      end.

End ComPlataforma.
End Monitor.

Import Monitor.

(* ===================================================================== *)
(** ** The entry point (main.py) *)
(* ===================================================================== *)

Module Principal.

  (** [--secao], restricted by [choices=[1, 2, 3]]. *)
Inductive Secao := Secao1 | Secao2 | Secao3.

Definition numero_secao (s : Secao) : Z :=
    match s with Secao1 => 1 | Secao2 => 2 | Secao3 => 3 end.

  (** [--modo]. *)
Inductive Modo :=
  | Completo | Coleta | Processamento | Organizacao | Busca | ModoMonitor.

  (** The namespace [parse_arguments] returns; [--config] is consumed by
      [Config] before [main] goes on. *)
Record Args := {
    arg_data : option string;
    arg_secao : option Secao;
    arg_modo : Modo;
    arg_monitor : bool;
    arg_intervalo : Z;
    arg_output_dir : option string
  }.

  (** How a call of [main] ends. *)
Inductive Saida :=
  | Retornou (codigo : Z)
  | Abortou (e : Excecao)       (* an exception left [main] *)
  | Bloqueado.                  (* the monitor is still running *)

Section ComPlataforma.

Context `{Plataforma}.
Variable config : Config.

Definition status_da_indexacao (resultado_indexacao : Json) : M string :=
    match dict_get resultado_indexacao "success" (JBool false) with
    | Some v => ret (if verdadeiro v then "concluido" else "falha")
    | None => levantar (AttributeError "get")
    end.

  (** The final report of a complete run: built, written under
      [output_dir], announced. *)
Definition gerar_relatorio (data : DateTime) (secao : Z) (output_dir : string)
      (arquivo_bruto arquivo_processado arquivo_organizado : string)
      (resultado_indexacao : Json) : M unit :=
    agora <- datetime_now ;;
    status_idx <- status_da_indexacao resultado_indexacao ;;
    let relatorio :=
      {| rel_data := strftime_Ymd data;
         rel_secao := secao;
         rel_timestamp := agora;
         etapa_coleta := {| arquivo := arquivo_bruto; status := "concluido" |};
         etapa_processamento :=
           {| arquivo := arquivo_processado; status := "concluido" |};
         etapa_organizacao :=
           {| arquivo := arquivo_organizado; status := "concluido" |};
         etapa_indexacao :=
           {| resultado := resultado_indexacao; status_indexacao := status_idx |} |} in
    let nome_relatorio :=
      "relatorio_" ++ strftime_Ymd data ++ "_secao" ++ str_Z secao ++ ".json" in
    gravar_arquivo output_dir nome_relatorio (DocRelatorio relatorio) ;;
    logger INFO ("Relatório final salvo em " ++ os_path_join output_dir nome_relatorio).

  (** The branch [modo == 'completo']. *)
Definition fluxo_completo (data : DateTime) (secao : Z) (output_dir : string) : M unit :=
    logger INFO "Iniciando fluxo de trabalho completo" ;;
    logger INFO "Etapa 1: Coleta de dados do DOU" ;;
    arquivo_bruto <- executar_coleta config data secao output_dir ;;
    logger INFO "Etapa 2: Processamento dos dados coletados" ;;
    arquivo_processado <- executar_processamento config arquivo_bruto output_dir ;;
    logger INFO "Etapa 3: Organização dos dados processados" ;;
    arquivo_organizado <- executar_organizacao config arquivo_processado output_dir ;;
    logger INFO "Etapa 4: Indexação dos dados para busca" ;;
    resultado_indexacao <- executar_indexacao config arquivo_organizado ;;
    logger INFO "Fluxo de trabalho completo executado com sucesso" ;;
    gerar_relatorio data secao output_dir arquivo_bruto arquivo_processado
      arquivo_organizado resultado_indexacao.

  (** The three branches that resume from one stage share their shape:
      look for the input, give up with code 1 when there is none, else run
      the stage. *)
Definition retomar {A} (diretorio padrao nao_encontrado : string)
      (etapa : string -> M A) (concluido : A -> string) : M (option Z) :=
    achado <- encontrar_arquivo_mais_recente diretorio padrao ;;
    match achado with
    | None => logger ERROR nao_encontrado ;; ret (Some 1)
    | Some entrada =>
        saida <- etapa entrada ;;
        logger INFO (concluido saida) ;;
        ret None
    end.

  (** The [if]/[elif] chain on [modo]; [Some c] is an early [return c]. *)
Definition executar_modo (modo : Modo) (data : DateTime) (secao : Z)
      (output_dir : string) : M (option Z) :=
    let alvo := strftime_Ymd data ++ ", Seção " ++ str_Z secao in
    match modo with
    | Completo => fluxo_completo data secao output_dir ;; ret None
    | Coleta =>
        logger INFO "Executando apenas a etapa de coleta" ;;
        arquivo_bruto <- executar_coleta config data secao output_dir ;;
        logger INFO ("Coleta concluída. Arquivo gerado: " ++ arquivo_bruto) ;;
        ret None
    | Processamento =>
        logger INFO "Executando apenas a etapa de processamento" ;;
        retomar (os_path_join output_dir "brutos")
          (strftime_Ymd data ++ "_secao" ++ str_Z secao)
          ("Nenhum arquivo bruto encontrado para " ++ alvo)
          (fun arquivo_bruto => executar_processamento config arquivo_bruto output_dir)
          (fun saida => "Processamento concluído. Arquivo gerado: " ++ saida)
    | Organizacao =>
        logger INFO "Executando apenas a etapa de organização" ;;
        retomar (os_path_join output_dir "processados")
          ("processado_" ++ strftime_Ymd data ++ "_secao" ++ str_Z secao)
          ("Nenhum arquivo processado encontrado para " ++ alvo)
          (fun arquivo_processado =>
             executar_organizacao config arquivo_processado output_dir)
          (fun saida => "Organização concluída. Arquivo gerado: " ++ saida)
    | Busca =>
        logger INFO "Executando apenas a etapa de indexação para busca" ;;
        retomar (os_path_join output_dir "csv")
          ("processado_" ++ strftime_Ymd data ++ "_secao" ++ str_Z secao)
          ("Nenhum arquivo organizado encontrado para " ++ alvo)
          (fun arquivo_organizado => executar_indexacao config arquivo_organizado)
          (fun resultado_indexacao =>
             "Indexação concluída: " ++ str_json resultado_indexacao)
    | ModoMonitor => ret None
    end.

  (** The [try] around the mode dispatch with its [except Exception]. *)
Definition despachar (modo : Modo) (data : DateTime) (secao : Z)
      (output_dir : string) : M Z :=
    tentar
      (cedo <- executar_modo modo data secao output_dir ;;
       match cedo with
       | Some codigo => ret codigo
       | None => logger INFO "Operação concluída com sucesso" ;; ret 0
       end)
      (fun e => Some (logger ERROR ("Erro durante a execução: " ++ str_exc e) ;; ret 1)).

  (** The date the run is for: [--data] parsed, or yesterday.  [None] is
      the [ValueError] of [strptime]. *)
Definition resolver_data (args : Args) : M (option DateTime) :=
    match texto_presente (arg_data args) with
    | Some texto =>
        match strptime_dmY texto with
        | Some data => ret (Some data)
        | None =>
            logger ERROR ("Formato de data inválido: " ++ texto
                          ++ ". Use o formato DD-MM-AAAA.") ;;
            ret None
        end
    | None =>
        agora <- datetime_now ;;
        let data := menos_dias agora 1 in
        logger INFO ("Nenhuma data especificada. Usando data anterior: "
                     ++ strftime_dmY data) ;;
        ret (Some data)
    end.

Definition resolver_secao (args : Args) : Z :=
    match arg_secao args with
    | Some s => numero_secao s
    | None => 3
    end.

  (** The pipeline part of [main], after the monitor branch. *)
Definition pipeline (args : Args) (output_dir : string) : M Z :=
    data_opt <- resolver_data args ;;
    match data_opt with
    | None => ret 1
    | Some data =>
        let secao := resolver_secao args in
        logger INFO ("Iniciando processamento para a data " ++ strftime_dmY data
                     ++ ", Seção " ++ str_Z secao) ;;
        despachar (arg_modo args) data secao output_dir
    end.

Definition eh_modo_monitor (m : Modo) : bool :=
    match m with ModoMonitor => true | _ => false end.

Definition concluir (r : Resultado Z * Mundo) : Saida * Mundo :=
    match r with
    | (Ok codigo, w) => (Retornou codigo, w)
    | (Levantou e, w) => (Abortou e, w)
    end.

  (** [args.output_dir or config.get('dados_dir', '../dados')]. *)
Definition diretorio_de_saida (args : Args) : string :=
    match texto_presente (arg_output_dir args) with
    | Some d => d
    | None => get (dados_dir config) "../dados"
    end.

  (** [main()].  [roteiro] is what the monitor loop meets, should the call
      enter monitor mode. *)
Definition main (args : Args) (roteiro : list Iteracao) (w : Mundo) : Saida * Mundo :=
    let output_dir := diretorio_de_saida args in
    match os_makedirs output_dir w with
    | (Levantou e, w1) => (Abortou e, w1)
    | (Ok _, w1) =>
        if arg_monitor args || eh_modo_monitor (arg_modo args) then
          let w2 := snd (logger INFO
                           "Iniciando Agente Coordenador em modo de monitoramento" w1) in
          let intervalo :=
            if arg_intervalo args =? 0
            then get (intervalo_monitoramento config) 60
            else arg_intervalo args in
          match Monitor.init config w2 with
          | (Levantou e, w3) => (Abortou e, w3)
          | (Ok _, w3) =>
              match iniciar config roteiro intervalo
                      {| mundo := w3; executando := false |} with
              | Terminou st => (Retornou 0, mundo st)
              | Rodando st => (Bloqueado, mundo st)
              end
          end
        else concluir (pipeline args output_dir w1)
    end.

End ComPlataforma.
End Principal.

Import Principal.

(* ===================================================================== *)
(** ** Definitions used to state the properties *)
(* ===================================================================== *)

(** The month and day Python derives from a day of the year. *)
Definition mes_e_dia (n : Z) (leapyear : bool) : Z * Z :=
  let month := Z.shiftr (n + 50) 5 in
  let preceding :=
    _DAYS_BEFORE_MONTH month + (if (2 <? month) && leapyear then 1 else 0) in
  if n <? preceding then
    let month := month - 1 in
    let preceding :=
      preceding - (_DAYS_IN_MONTH month + (if (month =? 2) && leapyear then 1 else 0)) in
    (month, n - preceding + 1)
  else (month, n - preceding + 1).

Definition dia_do_ano_ok (leap : bool) (k : nat) : bool :=
  let n := Z.of_nat k in
  let (m, d) := mes_e_dia n leap in
  (1 <=? m) && (m <=? 12) && (1 <=? d) &&
  (_DAYS_BEFORE_MONTH m + (if (2 <? m) && leap then 1 else 0) + d =? n + 1).


(** Two worlds that differ at most in their log. *)
Definition so_registro (w w' : Mundo) : Prop :=
  arquivos w' = arquivos w /\ processos w' = processos w /\
  dormidas w' = dormidas w /\ gravados w' = gravados w /\
  removidos w' = removidos w /\ relogio w' = relogio w.

(** The date a call of [main] works on, [None] when [--data] is refused. *)
Definition data_alvo `{Plataforma} (args : Args) (w : Mundo) : option DateTime :=
  match fst (resolver_data args w) with
  | Ok d => d
  | Levantou _ => None
  end.

(** A pipeline mode: [main] does not enter the monitor branch. *)
Definition modo_de_pipeline (args : Args) : Prop :=
  arg_monitor args = false /\ eh_modo_monitor (arg_modo args) = false.


(* --------------------------------------------------------------------- *)
(** *** How a computation may change the world *)
(* --------------------------------------------------------------------- *)

(** [w'] comes after [w] with no child run, no file written or removed by
    the coordinator and no sleep: only log records were added (and the
    file system may have gained directories). *)
Definition rastros_iguais (w w' : Mundo) : Prop :=
  processos w' = processos w /\ gravados w' = gravados w /\
  removidos w' = removidos w /\ dormidas w' = dormidas w /\
  relogio w' = relogio w /\
  exists novos, registro w' = (registro w ++ novos)%list.

(** [w'] comes after [w] with exactly one child run, [cmd] returning [p]. *)
Definition um_filho (w w' : Mundo) (cmd : list string) (p : CompletedProcess) : Prop :=
  processos w' = (processos w ++ [(cmd, p)])%list /\ gravados w' = gravados w /\
  removidos w' = removidos w /\ dormidas w' = dormidas w /\
  relogio w' = relogio w /\
  exists novos, registro w' = (registro w ++ novos)%list.

Definition preserva {A} (m : M A) : Prop := forall w, rastros_iguais w (snd (m w)).

(** The module a command runs: the argument after [-m]. *)
Definition modulo_do_comando (cmd : list string) : string := nth 2 cmd "".

(** The shape shared by the three stages that produce a file. *)
Definition etapa `{Plataforma} (agente : string) (cmd : list string)
    (depois : CompletedProcess -> M string) : M string :=
  tentar (resultado <- subprocess_run cmd ;; depois resultado)
    (falha_do_agente agente).

(** No piece of the text that opens with a brace is read by [json.loads]:
    the text holds no JSON object. *)
Definition sem_objeto_json `{Plataforma} (saida : string) : Prop :=
  forall antes t depois,
    saida = antes ++ String "{"%char t ++ depois ->
    json_loads (String "{"%char t) = None.

(** The world after [logger.info(msg)]. *)
Definition anunciar (msg : string) (w : Mundo) : Mundo := snd (logger INFO msg w).

(** The world after [logger.error(msg)]. *)
Definition acusar (msg : string) (w : Mundo) : Mundo := snd (logger ERROR msg w).

(** A stage runs exactly one child, whatever happens: there is no second
    attempt. *)
Definition um_so_filho {A} (m : M A) : Prop :=
  forall w, exists cmd p, um_filho w (snd (m w)) cmd p.

(** A stage whose child returns a code other than zero raises
    [RuntimeError] with the text of the process error, after logging the
    captured standard error. *)
Definition falha_fatal `{Plataforma} (agente : string) (m : M string) : Prop :=
  forall w cmd p,
    processos (snd (m w)) = (processos w ++ [(cmd, p)])%list ->
    returncode p <> 0 ->
    fst (m w) = Levantou (RuntimeError ("Falha na execução do " ++ agente ++ ": "
                                        ++ str_CalledProcessError cmd (returncode p))) /\
    In (ERROR, "Saída de erro: " ++ stderr p) (registro (snd (m w))).

(** The index stage turns a return code other than zero into a result with
    [success] false and returns it. *)
Definition falha_relatada `{Plataforma} (m : M Json) : Prop :=
  forall w cmd p,
    processos (snd (m w)) = (processos w ++ [(cmd, p)])%list ->
    returncode p <> 0 ->
    fst (m w) = Ok (indexacao_falhou (str_CalledProcessError cmd (returncode p))) /\
    In (ERROR, "Saída de erro: " ++ stderr p) (registro (snd (m w))).

(** The report a complete run leaves under [output_dir], if any. *)
Definition relatorio_gravado (w : Mundo) (output_dir nome_relatorio : string)
  : option Relatorio :=
  match find (fun e => String.eqb (nome e) nome_relatorio)
          (listar (arquivos w) output_dir) with
  | Some e => match conteudo e with DocRelatorio r => Some r | _ => None end
  | None => None
  end.

Definition nome_do_relatorio (data : DateTime) (secao : Z) : string :=
  "relatorio_" ++ strftime_Ymd data ++ "_secao" ++ str_Z secao ++ ".json".

(** The world in which the first stage of a complete run starts. *)
Definition inicio_do_fluxo (w : Mundo) : Mundo :=
  anunciar "Etapa 1: Coleta de dados do DOU"
    (anunciar "Iniciando fluxo de trabalho completo" w).

(** A complete run that ends with exit code 1 on exception [e], raised in
    world [w']: the error is logged and nothing else happens. *)
Definition run_abortado `{Plataforma} (config : Config) (data : DateTime) (secao : Z)
    (out : string) (w : Mundo) (e : Excecao) (w' : Mundo) : Prop :=
  despachar config Completo data secao out w
  = (Ok 1, acusar ("Erro durante a execução: " ++ str_exc e) w').

(** The first three stages of a complete run went through, handing
    [a1], [a2], [a3] on and leaving the world [w4]. *)
Definition tres_etapas `{Plataforma} (config : Config) (data : DateTime) (secao : Z)
    (out : string) (w : Mundo) (a1 a2 a3 : string) (w4 : Mundo) : Prop :=
  exists w2 w3,
    executar_coleta config data secao out (inicio_do_fluxo w) = (Ok a1, w2) /\
    executar_processamento config a1 out
      (anunciar "Etapa 2: Processamento dos dados coletados" w2) = (Ok a2, w3) /\
    executar_organizacao config a2 out
      (anunciar "Etapa 3: Organização dos dados processados" w3) = (Ok a3, w4).

(* --------------------------------------------------------------------- *)
(** *** Patterns, directories and candidates *)
(* --------------------------------------------------------------------- *)

(** A character that neither [glob] nor the path functions treat
    specially. *)
Definition caractere_simples (c : ascii) : bool :=
  negb (Ascii.eqb c "*"%char) && negb (Ascii.eqb c "?"%char)
  && negb (Ascii.eqb c "["%char) && negb (Ascii.eqb c barra).

(** A pattern made of such characters only, as the date and section
    patterns of [main] are. *)
Fixpoint padrao_simples (s : string) : bool :=
  match s with
  | EmptyString => true
  | String c r => caractere_simples c && padrao_simples r
  end.

(** A text without ["/"]: a single path component. *)
Fixpoint sem_barra (s : string) : bool :=
  match s with
  | EmptyString => true
  | String c r => negb (Ascii.eqb c barra) && sem_barra r
  end.

(** A directory path as [os.path.join] builds it: not empty and without a
    final slash. *)
Definition diretorio_normal (d : string) : Prop :=
  d <> "" /\ termina_em_barra d = false.

(** An entry [glob] may return for a pattern: it is not hidden and its
    name contains the pattern. *)
Definition candidato (padrao : string) (e : Entrada) : Prop :=
  _ishidden (nome e) = false /\ contem padrao (nome e).

(** The test [glob] applies to an entry for the pattern
    ['*' + padrao + '*']. *)
Definition filtro_glob (padrao : string) (e : Entrada) : bool :=
  negb (_ishidden (nome e)) && fnmatch (nome e) ("*" ++ padrao ++ "*").

(** The pattern a resumed process stage looks for. *)
Definition padrao_bruto (data : DateTime) (secao : Z) : string :=
  strftime_Ymd data ++ "_secao" ++ str_Z secao.

(* --------------------------------------------------------------------- *)
(** *** Retention *)
(* --------------------------------------------------------------------- *)

(** What a cleanup with limit [max_arquivos] leaves of a listing: the
    entries whose name is not that of a removed file. *)
Definition restantes (max_arquivos : Z) (l : list Entrada) : list Entrada :=
  filter (fun e => negb (tem_nome (nome e) (excedentes max_arquivos l))) l.

(** The loop [for arquivo in arquivos[:-max]: try: os.remove(arquivo)
    except: pass] of the cleanup. *)
Definition remover_todos (d : string) (xs : list Entrada) : M unit :=
  para_cada (fun e => tentar (os_remove d (nome e)) (fun _ => Some (ret tt))) xs.

(** Oldest first. *)
Definition por_idade : list Entrada -> Prop :=
  StronglySorted (fun a b => mtime a <= mtime b).

(** The snapshot a cycle writes at the time of world [w]. *)
Definition nome_do_status (w : Mundo) : string :=
  "status_" ++ strftime_compacto (fromtimestamp (relogio w)) ++ ".json".

Definition status_do_ciclo `{Plataforma} (agentes : list (string * string)) (w : Mundo)
  : StatusSnapshot :=
  {| st_timestamp := fromtimestamp (relogio w);
     st_agentes := agentes;
     st_memoria_disponivel := get (psutil_memoria w) "desconhecido";
     st_espaco_disco := get (psutil_disco w) "desconhecido" |}.

(* --------------------------------------------------------------------- *)
(** *** The monitor loop *)
(* --------------------------------------------------------------------- *)

(** Nobody asks the monitor to stop during the script. *)
Definition sem_parada (roteiro : list Iteracao) : Prop :=
  forall it, In it roteiro -> parada it = None.


(** The pattern a resumed index stage looks for. *)
Definition padrao_da_busca (data : DateTime) (secao : Z) : string :=
  "processado_" ++ padrao_bruto data secao.

(* --------------------------------------------------------------------- *)
(** *** A concrete platform for the examples *)
(* --------------------------------------------------------------------- *)

Module Exemplo.

Definition proc (rc : Z) (saida erro : string) : CompletedProcess :=
    {| returncode := rc; stdout := saida; stderr := erro |}.

Definition arq (n : string) (t : Z) : Entrada :=
    {| nome := n; eh_arquivo := true; mtime := t; conteudo := Opaco "" |}.

  (** What each worker module does when run: what it returns and the
      files it leaves, as (directory, name). *)
Definition Comportamento := list (string * (CompletedProcess * list (string * string))).

Fixpoint escrever (fs : SistemaArquivos) (t : Z) (saidas : list (string * string))
    : SistemaArquivos :=
    match saidas with
    | [] => fs
    | (d, n) :: r =>
        escrever (atualizar fs d (gravar_entrada n t (Opaco "") (listar fs d))) t r
    end.

Definition filho_tabelado (tab : Comportamento) (cmd : list string) (w : Mundo)
    : CompletedProcess * SistemaArquivos :=
    match find (fun x => String.eqb (fst x) (nth 2 cmd "")) tab with
    | Some (_, (p, saidas)) => (p, escrever (arquivos w) (relogio w) saidas)
    | None => (proc 0 "" "", arquivos w)
    end.

  (** [json.loads] standing in for the examples: only the text [{}] is
      read, as the empty object. *)
Definition json_de_teste (s : string) : option Json :=
    if String.eqb s "{}" then Some (JObj []) else None.

Definition plataforma (tab : Comportamento) : Plataforma :=
    {| python_exec := "python3";
       filho := filho_tabelado tab;
       json_loads := json_de_teste;
       str_CalledProcessError := fun _ rc => "exit status " ++ str_Z rc;
       str_json := fun _ => "{...}";
       str_status := fun _ => "{...}";
       psutil_memoria := fun _ => None;
       psutil_disco := fun _ => None;
       consumir_mensagem_unica := fun _ _ => None |}.

Definition config : Config :=
    {| dados_dir := Some "dados";
       max_paginas := None;
       modelo_spacy := Some "pt_core_news_lg";
       tamanho_maximo_resumo := Some 200;
       formato_saida := Some "csv";
       separador_csv := Some ",";
       encoding_csv := Some "utf-8";
       elasticsearch_index := None;
       intervalo_monitoramento := Some 60;
       usar_mensageria := false |}.

  (** An empty disk on 2 March 2024, midnight. *)
Definition mundo_vazio : Mundo :=
    {| arquivos := fun _ => None; registro := []; processos := [];
       dormidas := []; gravados := []; removidos := []; relogio := 1709337600 |}.

Definition args (data : option string) (modo : Modo) : Args :=
    {| arg_data := data; arg_secao := None; arg_modo := modo;
       arg_monitor := false; arg_intervalo := 60; arg_output_dir := None |}.

  (** Workers that succeed and name their files by the convention. *)
Definition tudo_certo : Comportamento :=
    [("coletor.main", (proc 0 "" "", [("dados/brutos", "2024-03-01_secao3.json")]));
     ("processador.main",
       (proc 0 "" "", [("dados/processados", "processado_2024-03-01_secao3.json")]));
     ("organizador.main", (proc 0 "" "", [("dados/csv", "2024-03-01_secao3.csv")]));
     ("busca.main", (proc 0 "15 documentos indexados" "", []))].

  (** The same workers, but the processor fails. *)
Definition processador_falha : Comportamento :=
    [("coletor.main", (proc 0 "" "", [("dados/brutos", "2024-03-01_secao3.json")]));
     ("processador.main", (proc 1 "" "modelo ausente", []))].

  (** The same workers, but the indexer fails. *)
Definition indexador_falha : Comportamento :=
    [("coletor.main", (proc 0 "" "", [("dados/brutos", "2024-03-01_secao3.json")]));
     ("processador.main",
       (proc 0 "" "", [("dados/processados", "processado_2024-03-01_secao3.json")]));
     ("organizador.main", (proc 0 "" "", [("dados/csv", "2024-03-01_secao3.csv")]));
     ("busca.main", (proc 1 "" "elasticsearch fora do ar", []))].

  (** Only the collector is there, and it fails. *)
Definition coletor_falha : Comportamento :=
    [("coletor.main", (proc 2 "" "rede fora do ar", []))].

  (** A directory whose three matching files have the same age. *)
Definition mundo_empate : Mundo :=
    {| arquivos := fun d => if String.eqb d "dados/brutos"
                            then Some [arq "b_secao3.json" 5; arq "a_secao3.json" 5;
                                       arq "c_secao3.json" 5; arq "outro.txt" 9]
                            else None;
       registro := []; processos := []; dormidas := []; gravados := [];
       removidos := []; relogio := 1709337600 |}.

  (** A status directory with ten snapshots of earlier cycles and, older
      than all of them, a note somebody else left there. *)
Definition mundo_com_nota : Mundo :=
    {| arquivos := fun d => if String.eqb d "dados/status"
                            then Some ({| nome := "notas.txt"; eh_arquivo := true;
                                          mtime := 1; conteudo := Opaco "lembrete" |}
                                       :: map (fun k => arq ("status_" ++ str_Z k ++ ".json") k)
                                            [101; 102; 103; 104; 105; 106; 107; 108; 109; 110])
                            else None;
       registro := []; processos := []; dormidas := []; gravados := [];
       removidos := []; relogio := 1709337600 |}.

  (** Three passes: a quiet one, one whose listing of recent files
      raises, one whose probing raises. *)
Definition roteiro_com_falhas : list Iteracao :=
    [ {| falha := None; parada := None |};
      {| falha := Some (2%nat, OutraExcecao "disco indisponível"); parada := None |};
      {| falha := Some (0%nat, OutraExcecao "sem memória"); parada := None |} ].

Definition primeiro_de_marco : DateTime :=
    {| ano := 2024; mes := 3; dia := 1; hora := 0; minuto := 0; segundo := 0 |}.

  (** The world a complete run over an empty disk leaves when every
      worker succeeds. *)
Definition mundo_apos_run : Mundo :=
    snd (@main (plataforma tudo_certo) config (args (Some "01-03-2024") Completo) []
           mundo_vazio).

  (** Module and return code of every child that ran. *)
Definition filhos (w : Mundo) : list (string * Z) :=
    map (fun cp => (modulo_do_comando (fst cp), returncode (snd cp))) (processos w).

End Exemplo.

(* ===================================================================== *)
(** ** More of the coordinator: search, activity report, configuration *)
(* ===================================================================== *)

Module Consulta.

(** The [filtros] dict of [executar_busca]: a key that is absent is
    [None]. *)
Record Filtros := {
  f_data_inicio : option string;
  f_data_fim : option string;
  f_secao : option Z;
  f_tipo_documento : option string
}.

Definition opcao {A} (nome_opcao : string) (texto : A -> string) (v : option A)
  : list string :=
  match v with
  | Some x => [nome_opcao; texto x]
  | None => []
  end.

Section ComPlataforma.

Context `{Plataforma}.
Variable config : Config.

(** What the platform adds for a search: where
    [tempfile.NamedTemporaryFile(suffix='.json', delete=False)] puts its
    file, and what [json.load] makes of a file. *)
Variable tmp_dir : string.
Variable tmp_nome : Mundo -> string.
Variable json_load : Conteudo -> Json + Excecao.

Definition cmd_busca (query : string) (filtros : Filtros) (max_resultados : Z)
    (arquivo_resultados : string) : list string :=
  ([python_exec; "-m"; "busca.main";
    "--index"; get (elasticsearch_index config) "dou";
    "--query"; query;
    "--modo"; "buscar";
    "--max-resultados"; str_Z max_resultados;
    "--formato"; "json"]
   ++ opcao "--data-inicio" (fun s => s) (f_data_inicio filtros)
   ++ opcao "--data-fim" (fun s => s) (f_data_fim filtros)
   ++ opcao "--secao" str_Z (f_secao filtros)
   ++ opcao "--tipo-documento" (fun s => s) (f_tipo_documento filtros)
   ++ ["--output"; arquivo_resultados])%list.

Definition busca_falhou (erro : string) : Json :=
  JObj [("success", JBool false); ("error", JStr erro); ("total", JNum 0);
        ("hits", JList [])].

(** [with open(os.path.join(d, n), 'r') as f: json.load(f)]. *)
Definition carregar_json (d n : string) : M Json :=
  fun w =>
    match find (fun e => String.eqb (nome e) n) (listar (arquivos w) d) with
    | None => (Levantou (FileNotFoundError (erro_enoent (os_path_join d n))), w)
    | Some e =>
        match json_load (conteudo e) with
        | inl v => (Ok v, w)
        | inr exc => (Levantou exc, w)
        end
    end.

(** [try: m finally: f]: [f] runs whatever [m] did, and the outcome of
    [m] stands when [f] does not raise. *)
Definition por_fim {A} (m : M A) (f : M unit) : M A :=
  fun w =>
    match m w with
    | (r, w1) =>
        match f w1 with
        | (Ok _, w2) => (r, w2)
        | (Levantou e, w2) => (Levantou e, w2)
        end
    end.

(** The inner [try] of [executar_busca] with its [except Exception]: the
    results are read from the temporary file; a result that is not a dict
    fails at [resultados.get]. *)
Definition carregar_resultados (nome_tmp : string) : M Json :=
  tentar
    (resultados <- carregar_json tmp_dir nome_tmp ;;
     match dict_get resultados "total" (JNum 0) with
     | Some total =>
         logger INFO ("Busca concluída: " ++ str_json total
                      ++ " resultados encontrados") ;;
         ret resultados
     | None => levantar (AttributeError "get")
     end)
    (fun e =>
       Some (logger ERROR ("Erro ao carregar resultados da busca: " ++ str_exc e) ;;
             ret (busca_falhou (str_exc e)))).

(** The [finally] of that [try]: [os.unlink] with every error swallowed. *)
Definition remover_temporario (nome_tmp : string) : M unit :=
  tentar (os_remove tmp_dir nome_tmp) (fun _ => Some (ret tt)).

Definition executar_busca (query : string) (filtros : Filtros) (max_resultados : Z)
  : M Json :=
  logger INFO ("Executando Agente de Busca para consulta: " ++ query) ;;
  w <- ler_mundo ;;
  let nome_tmp := tmp_nome w in
  gravar_arquivo tmp_dir nome_tmp (Opaco "") ;;
  let arquivo_resultados := os_path_join tmp_dir nome_tmp in
  let cmd := cmd_busca query filtros max_resultados arquivo_resultados in
  logger DEBUG ("Executando comando: " ++ join " " cmd) ;;
  tentar
    (resultado <- subprocess_run cmd ;;
     logger DEBUG ("Saída do Agente de Busca: " ++ stdout resultado) ;;
     por_fim (carregar_resultados nome_tmp) (remover_temporario nome_tmp))
    (fun e =>
       match e with
       | CalledProcessError _ p =>
           Some (logger ERROR ("Erro ao executar Agente de Busca: " ++ str_exc e) ;;
                 logger ERROR ("Saída de erro: " ++ stderr p) ;;
                 ret (busca_falhou (str_exc e)))
       | _ => None
       end).

End ComPlataforma.
End Consulta.

Import Consulta.

Module Atividades.

(** What [Monitor.gerar_relatorio] returns: the activity report, or the
    dict with the single key [erro]. *)
Inductive RelatorioAtividades :=
| Atividade (inicio fim : DateTime) (brutos processados csv : nat)
    (status_atual : list (string * string))
| ErroRelatorio (erro : string).

Section ComPlataforma.

Context `{Plataforma}.
Variable config : Config.

(** [timedelta(days=dias)]: more than 999999999 days either way is an
    [OverflowError], worded after the size of the number (a C [int] of 32
    bits). *)
Definition timedelta_dias (dias : Z) : M Z :=
  if Z.abs dias <=? 999999999 then ret dias
  else levantar
         (OutraExcecao
            (if (-2147483648 <=? dias) && (dias <=? 2147483647)
             then "days=" ++ str_Z dias ++ "; must have magnitude <= 999999999"
             else "Python int too large to convert to C int")).

(** [d - timedelta(days=dias)]: a result before year 1 or after year 9999
    is an [OverflowError]. *)
Definition subtrair_dias (d : DateTime) (dias : Z) : M DateTime :=
  if (1 <=? toordinal d - dias) && (toordinal d - dias <=? 3652059)
  then ret (menos_dias d dias)
  else levantar (OutraExcecao "date value out of range").

Definition gerar_relatorio (periodo_dias : Z) : M RelatorioAtividades :=
  tentar
    (let dados := get (dados_dir config) "../dados" in
     agora <- datetime_now ;;
     dias <- timedelta_dias periodo_dias ;;
     data_limite <- subtrair_dias agora dias ;;
     fim <- datetime_now ;;
     brutos <- _listar_arquivos_recentes (os_path_join dados "brutos")
                 (periodo_dias * 24) ;;
     processados <- _listar_arquivos_recentes (os_path_join dados "processados")
                      (periodo_dias * 24) ;;
     csv <- _listar_arquivos_recentes (os_path_join dados "csv")
              (periodo_dias * 24) ;;
     status_atual <- verificar_status_agentes ;;
     ret (Atividade data_limite fim (List.length brutos) (List.length processados)
            (List.length csv) status_atual))
    (fun e => Some (logger ERROR ("Erro ao gerar relatório: " ++ str_exc e) ;;
                    ret (ErroRelatorio (str_exc e)))).

End ComPlataforma.
End Atividades.

Module Configuracao.

(** The dict a [Config] object holds, in insertion order. *)
Definition Dict := list (string * Json).

(** [d[chave] = valor]: an existing key keeps its place. *)
Fixpoint dict_set (chave : string) (valor : Json) (d : Dict) : Dict :=
  match d with
  | [] => [(chave, valor)]
  | (k, v) :: r =>
      if String.eqb k chave then (k, valor) :: r
      else (k, v) :: dict_set chave valor r
  end.

(** [d.update(outro)]. *)
Definition dict_update (d outro : Dict) : Dict :=
  fold_left (fun acc kv => dict_set (fst kv) (snd kv) acc) outro d.

(** [Config.get(chave, padrao)]. *)
Definition config_get (d : Dict) (chave : string) (padrao : Json) : Json :=
  match procurar_chave chave d with
  | Some v => v
  | None => padrao
  end.

(** [Config.set(chave, valor)]. *)
Definition config_set (d : Dict) (chave : string) (valor : Json) : Dict :=
  dict_set chave valor d.

Section ComPlataforma.

Context `{Plataforma}.

(** What the platform adds for a configuration: what [json.load] makes of
    a file ([inr] is the exception it raises), and what [dict.update] does
    when it is handed a JSON array or a JSON string, which Python takes as
    a sequence of pairs: the dict it leaves and the exception it raises,
    if any. *)
Variable json_load : Conteudo -> Json + Excecao.
Variable update_de_sequencia : Dict -> Json -> Dict * option Excecao.

(** [with open(p, 'r') as f: json.load(f)] for a path. *)
Definition carregar_json_de (p : string) : M Json :=
  fun w =>
    let (d, n) := os_path_split p in
    match find (fun e => String.eqb (nome e) n) (listar (arquivos w) d) with
    | None => (Levantou (FileNotFoundError (erro_enoent p)), w)
    | Some e =>
        match json_load (conteudo e) with
        | inl v => (Ok v, w)
        | inr exc => (Levantou exc, w)
        end
    end.

(** [self.config.update(config_usuario)]: the dict afterwards and the
    exception raised, if any.  An object is merged; [None], a boolean and
    a number are not iterable. *)
Definition atualizar_com (d : Dict) (config_usuario : Json) : Dict * option Excecao :=
  match config_usuario with
  | JObj campos => (dict_update d campos, None)
  | JNull => (d, Some (OutraExcecao "'NoneType' object is not iterable"))
  | JBool _ => (d, Some (OutraExcecao "'bool' object is not iterable"))
  | JNum _ => (d, Some (OutraExcecao "'int' object is not iterable"))
  | JStr _ | JList _ => update_de_sequencia d config_usuario
  end.

(** The [except Exception] of [carregar_arquivo]. *)
Definition carga_falhou (d : Dict) (config_file : string) (e : Excecao)
  : M (Dict * bool) :=
  logger WARNING ("Erro ao carregar configurações de " ++ config_file
                  ++ ": " ++ str_exc e) ;;
  logger INFO "Usando configurações padrão" ;;
  ret (d, false).

(** [Config.carregar_arquivo]: the dict the object holds afterwards and
    the boolean returned.  The dict is updated in place, so what an update
    has done before it raises stays. *)
Definition carregar_arquivo (d : Dict) (config_file : string) : M (Dict * bool) :=
  fun w =>
    match carregar_json_de config_file w with
    | (Levantou e, w1) => carga_falhou d config_file e w1
    | (Ok config_usuario, w1) =>
        match atualizar_com d config_usuario with
        | (d', None) =>
            (logger INFO ("Configurações carregadas de " ++ config_file) ;;
             ret (d', true)) w1
        | (d', Some e) => carga_falhou d' config_file e w1
        end
    end.

End ComPlataforma.
End Configuracao.

Import Configuracao.

(* --------------------------------------------------------------------- *)
(** *** Statements about these and about the rest of the coordinator *)
(* --------------------------------------------------------------------- *)

(** A computation that always returns. *)
Definition nunca_levanta {A} (m : M A) : Prop :=
  forall w, exists a, fst (m w) = Ok a.

(** A computation that touches nothing but the log. *)
Definition so_loga {A} (m : M A) : Prop :=
  forall w, so_registro w (snd (m w)).

(** What a probe child says about its agent. *)
Definition disponibilidade (p : CompletedProcess) : string :=
  if returncode p =? 0 then "disponível" else "indisponível".

Definition cmd_sonda `{Plataforma} (modulo : string) : list string :=
  [python_exec; "-m"; modulo; "--help"].

(** The artifact names of the three stages for a date and section. *)
Definition nome_bruto (data : DateTime) (secao : Z) : string :=
  padrao_bruto data secao ++ ".json".

(** A text without the letter [p], so without the prefix
    [processado_]. *)
Fixpoint sem_p (s : string) : bool :=
  match s with
  | EmptyString => true
  | String c r => negb (Ascii.eqb c "p"%char) && sem_p r
  end.

(** A text without ["."]. *)
Fixpoint sem_ponto (s : string) : bool :=
  match s with
  | EmptyString => true
  | String c r => negb (Ascii.eqb c ponto) && sem_ponto r
  end.

(** The regular files of a listing modified after [limite]. *)
Definition recentes (limite : Z) (l : list Entrada) : list Entrada :=
  filter (fun e => eh_arquivo e && (limite <? mtime e)) l.

(** The world in which the child of a search is started: the temporary
    file is there and the command has been logged. *)
Definition antes_da_busca `{Plataforma} (config : Config) (tmp_dir : string)
    (tmp_nome : Mundo -> string) (query : string) (filtros : Filtros)
    (max_resultados : Z) (w : Mundo) : Mundo :=
  let w0 := anunciar ("Executando Agente de Busca para consulta: " ++ query) w in
  let nome_tmp := tmp_nome w0 in
  snd (logger DEBUG
         ("Executando comando: "
          ++ join " " (cmd_busca config query filtros max_resultados
                         (os_path_join tmp_dir nome_tmp)))
         (snd (gravar_arquivo tmp_dir nome_tmp (Opaco "") w0))).

(** The name of the temporary file of a search started in [w]. *)
Definition nome_temporario (tmp_nome : Mundo -> string) (query : string) (w : Mundo)
  : string :=
  tmp_nome (anunciar ("Executando Agente de Busca para consulta: " ++ query) w).

(** What the temporary file holds, read as [executar_busca] reads it. *)
Definition resultado_lido (json_load : Conteudo -> Json + Excecao)
    (fs : SistemaArquivos) (d n : string) : Json + Excecao :=
  match find (fun e => String.eqb (nome e) n) (listar fs d) with
  | None => inr (FileNotFoundError (erro_enoent (os_path_join d n)))
  | Some e => json_load (conteudo e)
  end.

(** What a configuration file holds, read as [carregar_arquivo] reads it. *)
Definition config_lida (json_load : Conteudo -> Json + Excecao)
    (fs : SistemaArquivos) (p : string) : Json + Excecao :=
  let (d, n) := os_path_split p in
  match find (fun e => String.eqb (nome e) n) (listar fs d) with
  | None => inr (FileNotFoundError (erro_enoent p))
  | Some e => json_load (conteudo e)
  end.

(** The two records a failed load leaves in the log. *)
Definition avisos_de_carga `{Plataforma} (config_file : string) (e : Excecao)
  : list (Nivel * string) :=
  [(WARNING, "Erro ao carregar configurações de " ++ config_file ++ ": " ++ str_exc e);
   (INFO, "Usando configurações padrão")].

(** A text of ASCII characters. *)
Fixpoint so_ascii (s : string) : bool :=
  match s with
  | EmptyString => true
  | String c r => Nat.ltb (nat_of_ascii c) 128 && so_ascii r
  end.

(** A directory that is there: [os.makedirs(d, exist_ok=True)] finds it and
    does nothing. *)
Definition diretorio_presente (w : Mundo) (d : string) : Prop :=
  d <> "" /\ arquivos w d <> None.

(** A period [timedelta] takes and that leaves the date [d] within the
    years 1 to 9999. *)
Definition periodo_valido (d : DateTime) (dias : Z) : Prop :=
  Z.abs dias <= 999999999 /\ 1 <= toordinal d - dias <= 3652059.

Module Exemplo2.

(** A world with the three artifact directories, one raw file in it. *)
Definition mundo_com_dados : Mundo :=
  {| arquivos := fun d =>
       if String.eqb d "dados/brutos"
       then Some [Exemplo.arq "2024-03-01_secao3.json" 1709337000]
       else if String.eqb d "dados/processados" then Some []
       else if String.eqb d "dados/csv" then Some []
       else if String.eqb d "/tmp" then Some []
       else None;
     registro := []; processos := []; dormidas := []; gravados := [];
     removidos := []; relogio := 1709337600 |}.

(** [json.load] for the examples: nothing is read. *)
Definition json_load_nada (c : Conteudo) : Json + Excecao :=
  inr (OutraExcecao "Expecting value").

(** A search worker that fails. *)
Definition busca_falha : Exemplo.Comportamento :=
  [("busca.main", (Exemplo.proc 1 "" "indice ausente", []))].

Definition sem_filtros : Filtros :=
  {| f_data_inicio := None; f_data_fim := None; f_secao := None;
     f_tipo_documento := None |}.

(** A configuration file holding one key. *)
Definition mundo_com_config : Mundo :=
  {| arquivos := fun d =>
       if String.eqb d "etc"
       then Some [{| nome := "config.json"; eh_arquivo := true; mtime := 1;
                     conteudo := Opaco "formato" |}]
       else None;
     registro := []; processos := []; dormidas := []; gravados := [];
     removidos := []; relogio := 1709337600 |}.

Definition json_load_formato (c : Conteudo) : Json + Excecao :=
  match c with
  | Opaco "formato" => inl (JObj [("formato_saida", JStr "json")])
  | _ => inr (OutraExcecao "Expecting value")
  end.

Definition padroes : Dict :=
  [("formato_saida", JStr "csv"); ("separador_csv", JStr ",")].

(** A disk with the output directory and the status directory, both
    empty. *)
Definition mundo_monitorado : Mundo :=
  {| arquivos := fun d =>
       if String.eqb d "dados" then Some []
       else if String.eqb d "dados/status" then Some []
       else None;
     registro := []; processos := []; dormidas := []; gravados := [];
     removidos := []; relogio := 1709337600 |}.

(** The empty disk once [main] has made its output directory. *)
Definition mundo_com_saida : Mundo :=
  snd (os_makedirs "dados" Exemplo.mundo_vazio).

End Exemplo2.

(* ===================================================================== *)
(** ** The calendar: ordinals and dates agree *)
(* ===================================================================== *)

Section FatosDoCalendario.

Lemma dias_do_ano_conferidos :
  forall leap, forallb (dia_do_ano_ok leap) (seq 0 365) = true.
Proof. intros []; vm_compute; reflexivity. Qed.

Lemma mes_e_dia_correto n leap :
  0 <= n < 365 ->
  let (m, d) := mes_e_dia n leap in
  1 <= m <= 12 /\ 1 <= d /\
  _DAYS_BEFORE_MONTH m + (if (2 <? m) && leap then 1 else 0) + d = n + 1.
Proof.
  intros Hn.
  pose proof (dias_do_ano_conferidos leap) as Hall.
  rewrite forallb_forall in Hall.
  specialize (Hall (Z.to_nat n)).
  assert (Hin : In (Z.to_nat n) (seq 0 365)) by (apply in_seq; lia).
  apply Hall in Hin. unfold dia_do_ano_ok in Hin.
  rewrite Z2Nat.id in Hin by lia.
  destruct (mes_e_dia n leap) as [m d].
  rewrite !andb_true_iff in Hin. destruct Hin as [[[H1 H2] H3] H4].
  lia.
Qed.

Lemma ord2ymd_mes_e_dia n0 :
  let n := n0 - 1 in
  let n400 := n / 146097 in
  let r400 := n mod 146097 in
  let n100 := r400 / 36524 in
  let r100 := r400 mod 36524 in
  let n4 := r100 / 1461 in
  let r4 := r100 mod 1461 in
  let n1 := r4 / 365 in
  let r1 := r4 mod 365 in
  let year := n400 * 400 + 1 + n100 * 100 + n4 * 4 + n1 in
  _ord2ymd n0 =
    if (n1 =? 4) || (n100 =? 4) then (year - 1, 12, 31)
    else let (m, d) := mes_e_dia r1 ((n1 =? 3) && (negb (n4 =? 24) || (n100 =? 3))) in
         (year, m, d).
Proof.
  cbv zeta. unfold _ord2ymd, mes_e_dia. cbv zeta.
  destruct ((_ =? 4) || (_ =? 4)); [reflexivity|].
  match goal with |- (if ?c then _ else _) = _ => destruct c end; reflexivity.
Qed.

Lemma ano_bissexto n400 n100 n4 n1 :
  0 <= n100 <= 3 -> 0 <= n4 <= 24 -> 0 <= n1 <= 3 ->
  _is_leap (n400 * 400 + 1 + n100 * 100 + n4 * 4 + n1)
  = (n1 =? 3) && (negb (n4 =? 24) || (n100 =? 3)).
Proof.
  intros H100 H4 H1. unfold _is_leap.
  set (y := n400 * 400 + 1 + n100 * 100 + n4 * 4 + n1).
  assert (E4 : y mod 4 = (n1 + 1) mod 4).
  { unfold y. replace (n400 * 400 + 1 + n100 * 100 + n4 * 4 + n1)
      with ((n1 + 1) + (n400 * 100 + n100 * 25 + n4) * 4) by ring.
    apply Z_mod_plus_full. }
  assert (E100 : y mod 100 = (n4 * 4 + n1 + 1) mod 100).
  { unfold y. replace (n400 * 400 + 1 + n100 * 100 + n4 * 4 + n1)
      with ((n4 * 4 + n1 + 1) + (n400 * 4 + n100) * 100) by ring.
    apply Z_mod_plus_full. }
  assert (E400 : y mod 400 = (n100 * 100 + n4 * 4 + n1 + 1) mod 400).
  { unfold y. replace (n400 * 400 + 1 + n100 * 100 + n4 * 4 + n1)
      with ((n100 * 100 + n4 * 4 + n1 + 1) + n400 * 400) by ring.
    apply Z_mod_plus_full. }
  rewrite E4, E100, E400.
  destruct (Z.eqb_spec n1 3) as [->|N1].
  - simpl andb at 2.
    replace ((3 + 1) mod 4) with 0 by reflexivity. simpl.
    destruct (Z.eqb_spec n4 24) as [->|N4].
    + replace ((24 * 4 + 3 + 1) mod 100) with 0 by reflexivity. simpl.
      destruct (Z.eqb_spec n100 3) as [->|N100]; [reflexivity|].
      apply Z.eqb_neq. Z.div_mod_to_equations. lia.
    + simpl. replace ((n4 * 4 + 3 + 1) mod 100 =? 0) with false; [reflexivity|].
      symmetry. apply Z.eqb_neq. Z.div_mod_to_equations. lia.
  - simpl. replace ((n1 + 1) mod 4 =? 0) with false; [reflexivity|].
    symmetry. apply Z.eqb_neq. Z.div_mod_to_equations. lia.
Qed.

Lemma dias_antes_do_ano n400 n100 n4 n1 :
  0 <= n100 <= 3 -> 0 <= n4 <= 24 -> 0 <= n1 <= 3 ->
  _days_before_year (n400 * 400 + 1 + n100 * 100 + n4 * 4 + n1)
  = n400 * 146097 + n100 * 36524 + n4 * 1461 + n1 * 365.
Proof.
  intros. unfold _days_before_year. cbv zeta.
  Z.div_mod_to_equations. lia.
Qed.

Theorem ymd2ord_ord2ymd n :
  let '(y, m, d) := _ord2ymd n in _ymd2ord y m d = n.
Proof.
  rewrite ord2ymd_mes_e_dia. cbv zeta.
  set (n' := n - 1).
  set (n400 := n' / 146097). set (r400 := n' mod 146097).
  set (n100 := r400 / 36524). set (r100 := r400 mod 36524).
  set (n4 := r100 / 1461). set (r4 := r100 mod 1461).
  set (n1 := r4 / 365). set (r1 := r4 mod 365).
  assert (B400 : 0 <= r400 < 146097) by (apply Z.mod_pos_bound; lia).
  assert (B100 : 0 <= r100 < 36524) by (apply Z.mod_pos_bound; lia).
  assert (B4 : 0 <= r4 < 1461) by (apply Z.mod_pos_bound; lia).
  assert (B1 : 0 <= r1 < 365) by (apply Z.mod_pos_bound; lia).
  assert (D400 : n' = 146097 * n400 + r400) by (apply Z.div_mod; lia).
  assert (D100 : r400 = 36524 * n100 + r100) by (apply Z.div_mod; lia).
  assert (D4 : r100 = 1461 * n4 + r4) by (apply Z.div_mod; lia).
  assert (D1 : r4 = 365 * n1 + r1) by (apply Z.div_mod; lia).
  assert (N100 : 0 <= n100 <= 4) by lia.
  assert (N4 : 0 <= n4 <= 24) by lia.
  assert (N1 : 0 <= n1 <= 4) by lia.
  destruct (Z.eqb_spec n1 4) as [E1|E1]; simpl orb.
  - (* last day of a leap year that ends a 4-year cycle *)
    unfold _ymd2ord.
    assert (L100 : n100 <= 3) by lia.
    assert (L4 : n4 <= 23) by lia.
    replace (n400 * 400 + 1 + n100 * 100 + n4 * 4 + n1 - 1)
      with (n400 * 400 + 1 + n100 * 100 + n4 * 4 + 3) by lia.
    rewrite dias_antes_do_ano by lia.
    unfold _days_before_month. rewrite ano_bissexto by lia.
    replace (n4 =? 24) with false by (symmetry; apply Z.eqb_neq; lia).
    change (_DAYS_BEFORE_MONTH 12) with 334. simpl. lia.
  - destruct (Z.eqb_spec n100 4) as [E100|E100].
    + unfold _ymd2ord.
      assert (n4 = 0 /\ n1 = 0 /\ r1 = 0) as (-> & E1' & Er1) by lia.
      rewrite E100, E1'.
      replace (n400 * 400 + 1 + 4 * 100 + 0 * 4 + 0 - 1)
        with (n400 * 400 + 1 + 3 * 100 + 24 * 4 + 3) by lia.
      rewrite dias_antes_do_ano by lia.
      unfold _days_before_month. rewrite ano_bissexto by lia.
      change (_DAYS_BEFORE_MONTH 12) with 334. simpl. lia.
    + pose proof (@mes_e_dia_correto r1 ((n1 =? 3) && (negb (n4 =? 24) || (n100 =? 3))) B1) as Hmd.
      destruct (mes_e_dia r1 _) as [m d].
      destruct Hmd as (Hm & Hd & Heq).
      unfold _ymd2ord, _days_before_month.
      rewrite dias_antes_do_ano by lia.
      rewrite ano_bissexto by lia.
      lia.
Qed.

End FatosDoCalendario.

(* ===================================================================== *)
(** ** The world under the basic operations *)
(* ===================================================================== *)

Section FatosDoMundo.

Lemma so_registro_refl w : so_registro w w.
  Proof. repeat split. Qed.

Lemma so_registro_trans w1 w2 w3 :
    so_registro w1 w2 -> so_registro w2 w3 -> so_registro w1 w3.
  Proof.
    unfold so_registro. intros (A & B & C & D & E & F) (A' & B' & C' & D' & E' & F').
    repeat split; congruence.
  Qed.

Lemma logger_so_registro n msg w : so_registro w (snd (logger n msg w)).
  Proof. repeat split. Qed.

Lemma logger_ok n msg w : logger n msg w = (Ok tt, snd (logger n msg w)).
  Proof. reflexivity. Qed.

Lemma os_makedirs_ok d w :
    d <> "" -> os_makedirs d w = (Ok tt, snd (os_makedirs d w)).
  Proof.
    intros Hd. unfold os_makedirs. destruct d as [|c r]; [congruence|].
    destruct (arquivos w (String c r)); reflexivity.
  Qed.

Lemma os_makedirs_relogio d w : relogio (snd (os_makedirs d w)) = relogio w.
  Proof.
    unfold os_makedirs. destruct d; [reflexivity|].
    destruct (arquivos w _); reflexivity.
  Qed.

Lemma os_makedirs_processos d w : processos (snd (os_makedirs d w)) = processos w.
  Proof.
    unfold os_makedirs. destruct d; [reflexivity|].
    destruct (arquivos w _); reflexivity.
  Qed.

Lemma os_makedirs_registro d w : registro (snd (os_makedirs d w)) = registro w.
  Proof.
    unfold os_makedirs. destruct d; [reflexivity|].
    destruct (arquivos w _); reflexivity.
  Qed.

End FatosDoMundo.

(* ===================================================================== *)
(** ** Date and section of a run *)
(* ===================================================================== *)

Section DataESecao.

Context `{Plataforma}.
Variable config : Config.

Lemma resolver_data_so_registro args w :
    so_registro w (snd (resolver_data args w)).
  Proof.
    unfold resolver_data.
    destruct (texto_presente (arg_data args)) as [t|].
    - destruct (strptime_dmY t); repeat split.
    - repeat split.
  Qed.

Lemma resolver_data_ok args w :
    resolver_data args w = (Ok (data_alvo args w), snd (resolver_data args w)).
  Proof.
    unfold data_alvo, resolver_data.
    destruct (texto_presente (arg_data args)) as [t|].
    - destruct (strptime_dmY t); reflexivity.
    - reflexivity.
  Qed.

  (** In a pipeline mode [main] dispatches on the date and section it
      resolved, in a world that differs from the one after
      [os.makedirs(output_dir)] in its log only. *)
Lemma main_despacha args roteiro w data :
    modo_de_pipeline args ->
    diretorio_de_saida config args <> "" ->
    data_alvo args w = Some data ->
    exists w1,
      so_registro (snd (os_makedirs (diretorio_de_saida config args) w)) w1 /\
      main config args roteiro w =
        concluir (despachar config (arg_modo args) data (resolver_secao args)
                    (diretorio_de_saida config args) w1).
  Proof.
    intros [Hmon Hmodo] Hout Hdata.
    unfold main. rewrite (os_makedirs_ok w Hout).
    rewrite Hmon, Hmodo. simpl orb. cbv iota.
    set (w0 := snd (os_makedirs _ w)).
    assert (Hd0 : data_alvo args w0 = Some data).
    { rewrite <- Hdata. unfold data_alvo, resolver_data.
      destruct (texto_presente (arg_data args)) as [t|].
      - destruct (strptime_dmY t); reflexivity.
      - simpl. unfold w0. rewrite os_makedirs_relogio. reflexivity. }
    unfold pipeline, bind at 1. rewrite resolver_data_ok, Hd0.
    unfold bind at 1. rewrite logger_ok.
    eexists. split; [|reflexivity].
    eapply so_registro_trans; [apply resolver_data_so_registro|].
    apply logger_so_registro.
  Qed.

End DataESecao.

(** C10. A call of [main] in a pipeline mode that is given no [--data]
    works on the day before today: the date whose ordinal is one less than
    today's.  Given no [--secao] it works on section 3.  In both cases this
    date and section are the ones the mode dispatch receives. *)
Theorem C10_data_e_secao_padrao :
  forall `{Plataforma} (config : Config) (args : Args) (roteiro : list Iteracao)
         (w : Mundo),
    modo_de_pipeline args ->
    diretorio_de_saida config args <> "" ->
    let hoje := fromtimestamp (relogio w) in
    let ontem := menos_dias hoje 1 in
    (arg_data args = None ->
       data_alvo args w = Some ontem /\ toordinal ontem = toordinal hoje - 1) /\
    (arg_secao args = None -> resolver_secao args = 3) /\
    (forall data,
       data_alvo args w = Some data ->
       exists w1,
         so_registro (snd (os_makedirs (diretorio_de_saida config args) w)) w1 /\
         main config args roteiro w =
           concluir (despachar config (arg_modo args) data (resolver_secao args)
                       (diretorio_de_saida config args) w1)).
Proof.
  intros P config args roteiro w Hmodo Hout hoje ontem.
  split; [|split].
  - intros Hdata. split.
    + unfold data_alvo, resolver_data. rewrite Hdata. reflexivity.
    + unfold ontem, menos_dias, toordinal.
      pose proof (ymd2ord_ord2ymd (_ymd2ord (ano hoje) (mes hoje) (dia hoje) - 1)) as R.
      destruct (_ord2ymd _) as [[y m] d]. simpl. exact R.
  - intros Hsec. unfold resolver_secao. rewrite Hsec. reflexivity.
  - intros data Hdata. apply main_despacha; assumption.
Qed.

Lemma C10_data_e_secao_padrao_witness :
  let P := Exemplo.plataforma Exemplo.tudo_certo in
  let a := Exemplo.args None Completo in
  @data_alvo P a Exemplo.mundo_vazio
  = Some {| ano := 2024; mes := 3; dia := 1; hora := 0; minuto := 0; segundo := 0 |}
  /\ resolver_secao a = 3.
Proof.
  pose proof (@C10_data_e_secao_padrao (Exemplo.plataforma Exemplo.tudo_certo)
                Exemplo.config (Exemplo.args None Completo) [] Exemplo.mundo_vazio) as T.
  cbv zeta in T.
  destruct T as (Hd & Hs & _).
  - split; reflexivity.
  - vm_compute. discriminate.
  - split.
    + destruct (Hd eq_refl) as [E _]. rewrite E. vm_compute. reflexivity.
    + apply Hs. reflexivity.
Defined.

(* ===================================================================== *)
(** ** Computations that leave the traces alone *)
(* ===================================================================== *)

Section Rastros.

Context `{Plataforma}.
Variable config : Config.

Lemma rastros_refl w : rastros_iguais w w.
  Proof.
    repeat split. exists []. symmetry. apply app_nil_r.
  Qed.

Lemma rastros_trans w1 w2 w3 :
    rastros_iguais w1 w2 -> rastros_iguais w2 w3 -> rastros_iguais w1 w3.
  Proof.
    intros (A & B & C & D & E & l & F) (A' & B' & C' & D' & E' & l' & F').
    repeat split; try congruence.
    exists (l ++ l')%list. rewrite F', F. symmetry. apply app_assoc.
  Qed.

Lemma rastros_um_filho w1 w2 w3 w4 cmd p :
    rastros_iguais w1 w2 -> um_filho w2 w3 cmd p -> rastros_iguais w3 w4 ->
    um_filho w1 w4 cmd p.
  Proof.
    intros (A & B & C & D & E & l & F) (A' & B' & C' & D' & E' & l' & F')
           (A2 & B2 & C2 & D2 & E2 & l2 & F2).
    repeat split; try congruence.
    exists (l ++ l' ++ l2)%list. rewrite F2, F', F.
    rewrite <- !app_assoc. reflexivity.
  Qed.

Lemma registro_cresce w w' x :
    rastros_iguais w w' -> In x (registro w) -> In x (registro w').
  Proof.
    intros (_ & _ & _ & _ & _ & l & F) Hin. rewrite F. apply in_or_app. now left.
  Qed.

Lemma preserva_ret A (a : A) : preserva (ret a).
  Proof. intros w. apply rastros_refl. Qed.

Lemma preserva_levantar A e : preserva (@levantar A e).
  Proof. intros w. apply rastros_refl. Qed.

Lemma preserva_logger n msg : preserva (logger n msg).
  Proof. intros w. repeat split. exists [(n, msg)]. reflexivity. Qed.

Lemma preserva_ler_mundo : preserva ler_mundo.
  Proof. intros w. apply rastros_refl. Qed.

Lemma preserva_os_path_exists p : preserva (os_path_exists p).
  Proof. intros w. apply rastros_refl. Qed.

Lemma preserva_os_makedirs d : preserva (os_makedirs d).
  Proof.
    intros w. unfold os_makedirs. destruct d; [apply rastros_refl|].
    destruct (arquivos w _); simpl; [apply rastros_refl|].
    repeat split. exists []. symmetry. apply app_nil_r.
  Qed.

Lemma preserva_bind A B (m : M A) (k : A -> M B) :
    preserva m -> (forall a, preserva (k a)) -> preserva (bind m k).
  Proof.
    intros Hm Hk w. unfold bind. specialize (Hm w).
    destruct (m w) as [[a|e] w1]; simpl in *.
    - eapply rastros_trans; [exact Hm|apply Hk].
    - exact Hm.
  Qed.

Lemma preserva_tentar A (m : M A) (h : Excecao -> option (M A)) :
    preserva m -> (forall e k, h e = Some k -> preserva k) -> preserva (tentar m h).
  Proof.
    intros Hm Hh w. unfold tentar. specialize (Hm w).
    destruct (m w) as [[a|e] w1]; simpl in *; [exact Hm|].
    destruct (h e) as [k|] eqn:E; simpl; [|exact Hm].
    eapply rastros_trans; [exact Hm|exact (Hh e k E w1)].
  Qed.

Lemma preserva_encontrar d padrao :
    preserva (encontrar_arquivo_mais_recente d padrao).
  Proof.
    unfold encontrar_arquivo_mais_recente.
    apply preserva_bind; [apply preserva_os_path_exists|]. intros b.
    destruct (negb b).
    - apply preserva_bind; [apply preserva_logger|]. intros _. apply preserva_ret.
    - apply preserva_bind; [apply preserva_ler_mundo|]. intros w.
      destruct (glob_glob _ _).
      + apply preserva_bind; [apply preserva_logger|]. intros _. apply preserva_ret.
      + apply preserva_ret.
  Qed.

Lemma preserva_conferir_saida a d padrao msg :
    preserva (conferir_saida a d padrao msg).
  Proof.
    unfold conferir_saida.
    apply preserva_bind; [apply preserva_os_path_exists|]. intros b.
    destruct b; [apply preserva_ret|].
    apply preserva_bind; [apply preserva_logger|]. intros _.
    apply preserva_bind; [apply preserva_encontrar|]. intros [x|].
    - apply preserva_ret.
    - apply preserva_levantar.
  Qed.

  (** [encontrar_arquivo_mais_recente] returns, it never raises. *)
Lemma encontrar_retorna d padrao w :
    exists r, fst (encontrar_arquivo_mais_recente d padrao w) = Ok r.
  Proof.
    unfold encontrar_arquivo_mais_recente, bind, os_path_exists, ler_mundo. simpl.
    destruct (negb _); simpl; [eexists; reflexivity|].
    destruct (glob_glob _ _); simpl; eexists; reflexivity.
  Qed.

  (** The world right after a child has run. *)
Lemma etapa_eq agente cmd depois w :
    etapa agente cmd depois w =
    let p := fst (filho cmd w) in
    let w1 := {| arquivos := snd (filho cmd w); registro := registro w;
                 processos := (processos w ++ [(cmd, p)])%list;
                 dormidas := dormidas w; gravados := gravados w;
                 removidos := removidos w; relogio := relogio w |} in
    if returncode p =? 0
    then tentar (depois p) (falha_do_agente agente) w1
    else (logger ERROR ("Erro ao executar " ++ agente ++ ": "
                        ++ str_CalledProcessError cmd (returncode p)) ;;
          logger ERROR ("Saída de erro: " ++ stderr p) ;;
          levantar (RuntimeError ("Falha na execução do " ++ agente ++ ": "
                                  ++ str_CalledProcessError cmd (returncode p)))) w1.
  Proof.
    unfold etapa, tentar, bind, subprocess_run.
    destruct (filho cmd w) as [p fs]. simpl fst. simpl snd. cbv zeta.
    destruct (returncode p =? 0); reflexivity.
  Qed.

  (** One child, and what a return code other than zero leads to. *)
Lemma etapa_resumo agente cmd depois w :
    (forall p, preserva (depois p)) ->
    let p := fst (filho cmd w) in
    um_filho w (snd (etapa agente cmd depois w)) cmd p /\
    (returncode p <> 0 ->
     fst (etapa agente cmd depois w)
     = Levantou (RuntimeError ("Falha na execução do " ++ agente ++ ": "
                               ++ str_CalledProcessError cmd (returncode p))) /\
     In (ERROR, "Saída de erro: " ++ stderr p)
        (registro (snd (etapa agente cmd depois w)))).
  Proof.
    intros Hdep p. rewrite etapa_eq. fold p. cbv zeta.
    set (w1 := {| arquivos := snd (filho cmd w) |}).
    assert (Hw1 : um_filho w w1 cmd p).
    { repeat split. exists []. symmetry. apply app_nil_r. }
    destruct (Z.eqb_spec (returncode p) 0) as [E0|E0].
    - split; [|intros; contradiction].
      eapply rastros_um_filho; [apply rastros_refl|exact Hw1|].
      apply preserva_tentar; [apply Hdep|].
      intros e k Hk. destruct e; simpl in Hk; try discriminate.
      injection Hk as <-.
      apply preserva_bind; [apply preserva_logger|]. intros _.
      apply preserva_bind; [apply preserva_logger|]. intros _.
      apply preserva_levantar.
    - split.
      + eapply rastros_um_filho; [apply rastros_refl|exact Hw1|].
        apply preserva_bind; [apply preserva_logger|]. intros _.
        apply preserva_bind; [apply preserva_logger|]. intros _.
        apply preserva_levantar.
      + intros _. split; [reflexivity|].
        simpl. apply in_or_app. right. left. reflexivity.
  Qed.

End Rastros.

(* ===================================================================== *)
(** ** The four stages *)
(* ===================================================================== *)

Section Etapas.

Context `{Plataforma}.
Variable config : Config.

Lemma os_path_join_nao_vazio a b : b <> "" -> os_path_join a b <> "".
  Proof.
    intros Hb. unfold os_path_join.
    destruct (startswith "/" b); [exact Hb|].
    destruct a as [|c a]; [exact Hb|].
    destruct (termina_em_barra _); simpl; discriminate.
  Qed.

Lemma ultimo_processo (l : list (list string * CompletedProcess)) x y :
    (l ++ [x])%list = (l ++ [y])%list -> x = y.
  Proof. intros E. apply app_inv_head in E. now injection E. Qed.

  (** A stage that logs, makes its directory, logs and runs its child. *)
Lemma etapa_de_arquivo n1 m1 d n2 m2 agente cmd depois :
    d <> "" ->
    (forall p, preserva (depois p)) ->
    let m := (logger n1 m1 ;; os_makedirs d ;; logger n2 m2 ;;
              etapa agente cmd depois) in
    um_so_filho m /\ falha_fatal agente m /\
    (forall w, exists p, um_filho w (snd (m w)) cmd p).
  Proof.
    intros Hd Hdep m.
    assert (Hm : forall w,
      let w0 := snd (logger n2 m2 (snd (os_makedirs d (snd (logger n1 m1 w))))) in
      m w = etapa agente cmd depois w0 /\ rastros_iguais w w0).
    { intros w w0. split.
      - unfold m, bind at 1. rewrite logger_ok.
        unfold bind at 1. rewrite (os_makedirs_ok _ Hd).
        unfold bind at 1. rewrite logger_ok. reflexivity.
      - eapply rastros_trans; [apply preserva_logger|].
        eapply rastros_trans; [apply preserva_os_makedirs|].
        apply preserva_logger. }
    assert (Hum : forall w, exists p,
      um_filho w (snd (m w)) cmd p /\
      (returncode p <> 0 ->
       fst (m w) = Levantou (RuntimeError ("Falha na execução do " ++ agente ++ ": "
                               ++ str_CalledProcessError cmd (returncode p))) /\
       In (ERROR, "Saída de erro: " ++ stderr p) (registro (snd (m w))))).
    { intros w. destruct (Hm w) as [E R]. rewrite E.
      destruct (@etapa_resumo _ agente cmd depois
                  (snd (logger n2 m2 (snd (os_makedirs d (snd (logger n1 m1 w))))))
                  Hdep) as [U F].
      eexists. split; [|exact F].
      eapply rastros_um_filho; [exact R|exact U|apply rastros_refl]. }
    split; [|split].
    - intros w. destruct (Hum w) as (p & U & _). now exists cmd, p.
    - intros w cmd' p' Hproc Hrc.
      destruct (Hum w) as (p & U & F).
      destruct U as (Hp & _). rewrite Hp in Hproc.
      apply ultimo_processo in Hproc. injection Hproc as <- <-.
      exact (F Hrc).
    - intros w. destruct (Hum w) as (p & U & _). now exists p.
  Qed.

Lemma depois_preserva (f g : string -> string) a d padrao msg n1 :
    forall p : CompletedProcess,
      preserva (logger n1 (f (stdout p)) ;;
                arquivo_saida <- conferir_saida a d padrao msg ;;
                logger INFO (g arquivo_saida) ;;
                ret arquivo_saida).
  Proof.
    intros p.
    apply preserva_bind; [apply preserva_logger|]. intros _.
    apply preserva_bind; [apply preserva_conferir_saida|]. intros x.
    apply preserva_bind; [apply preserva_logger|]. intros _.
    apply preserva_ret.
  Qed.

Lemma executar_coleta_resumo data secao out :
    let m := executar_coleta config data secao out in
    um_so_filho m /\ falha_fatal "Agente Coletor" m /\
    (forall w, exists p,
        um_filho w (snd (m w))
          (cmd_coleta config data secao (os_path_join out "brutos")) p).
  Proof.
    apply etapa_de_arquivo.
    - apply os_path_join_nao_vazio. discriminate.
    - apply (depois_preserva (fun s => "Saída do Agente Coletor: " ++ s)
               (fun a => "Coleta concluída. Arquivo gerado: " ++ a)).
  Qed.

Lemma executar_processamento_resumo arquivo_entrada out :
    let m := executar_processamento config arquivo_entrada out in
    um_so_filho m /\ falha_fatal "Agente Processador" m /\
    (forall w, exists p,
        um_filho w (snd (m w))
          (cmd_processamento config arquivo_entrada
             (os_path_join (os_path_join out "processados")
                ("processado_" ++ os_path_basename arquivo_entrada))) p).
  Proof.
    apply etapa_de_arquivo.
    - apply os_path_join_nao_vazio. discriminate.
    - apply (depois_preserva (fun s => "Saída do Agente Processador: " ++ s)
               (fun a => "Processamento concluído. Arquivo gerado: " ++ a)).
  Qed.

Lemma os_path_join_nao_vazio_l a b : a <> "" -> os_path_join a b <> "".
  Proof.
    intros Ha. unfold os_path_join.
    destruct (startswith "/" b) eqn:E.
    - destruct b; [discriminate E|discriminate].
    - destruct a as [|c a]; [congruence|].
      destruct (termina_em_barra _); simpl; discriminate.
  Qed.

Lemma executar_organizacao_resumo arquivo_entrada out :
    out <> "" ->
    let m := executar_organizacao config arquivo_entrada out in
    let formato := get (formato_saida config) "csv" in
    um_so_filho m /\ falha_fatal "Agente Organizador" m /\
    (forall w, exists p,
        um_filho w (snd (m w))
          (cmd_organizacao config arquivo_entrada
             (os_path_join (os_path_join out formato)
                (nome_organizado arquivo_entrada ++ "." ++ formato)) formato) p).
  Proof.
    intros Hout.
    apply etapa_de_arquivo.
    - apply os_path_join_nao_vazio_l. exact Hout.
    - apply (depois_preserva (fun s => "Saída do Agente Organizador: " ++ s)
               (fun a => "Organização concluída. Arquivo gerado: " ++ a)).
  Qed.

  (** The index stage, step by step: two records, the child, and then
      either the result read from its output or the failure result. *)
Lemma executar_indexacao_eq arquivo_entrada w :
    let cmd := cmd_indexacao config arquivo_entrada in
    let w0 := snd (logger DEBUG ("Executando comando: " ++ join " " cmd)
                (snd (logger INFO ("Executando Agente de Busca para indexar "
                                   ++ arquivo_entrada) w))) in
    let p := fst (filho cmd w0) in
    let w1 := {| arquivos := snd (filho cmd w0); registro := registro w0;
                 processos := (processos w0 ++ [(cmd, p)])%list;
                 dormidas := dormidas w0; gravados := gravados w0;
                 removidos := removidos w0; relogio := relogio w0 |} in
    executar_indexacao config arquivo_entrada w =
    if returncode p =? 0
    then (Ok (extrair_resultado (stdout p)),
          snd (logger INFO ("Indexação concluída: "
                            ++ str_json (extrair_resultado (stdout p)))
                 (snd (logger DEBUG ("Saída do Agente de Busca: " ++ stdout p) w1))))
    else (Ok (indexacao_falhou (str_CalledProcessError cmd (returncode p))),
          snd (logger ERROR ("Saída de erro: " ++ stderr p)
                 (snd (logger ERROR ("Erro ao executar Agente de Busca: "
                                     ++ str_CalledProcessError cmd (returncode p))
                         w1)))).
  Proof.
    cbv zeta. unfold executar_indexacao.
    unfold bind at 1. rewrite logger_ok.
    unfold bind at 1. rewrite logger_ok.
    unfold tentar, bind, subprocess_run.
    destruct (filho _ _) as [p fs]. simpl fst. simpl snd.
    destruct (returncode p =? 0); reflexivity.
  Qed.

Lemma executar_indexacao_resumo arquivo_entrada :
    let m := executar_indexacao config arquivo_entrada in
    um_so_filho m /\ falha_relatada m /\
    (forall w, exists p,
        um_filho w (snd (m w)) (cmd_indexacao config arquivo_entrada) p /\
        fst (m w) = Ok (if returncode p =? 0
                        then extrair_resultado (stdout p)
                        else indexacao_falhou
                               (str_CalledProcessError
                                  (cmd_indexacao config arquivo_entrada)
                                  (returncode p)))).
  Proof.
    intros m.
    assert (Hum : forall w, exists p,
      um_filho w (snd (m w)) (cmd_indexacao config arquivo_entrada) p /\
      fst (m w) = Ok (if returncode p =? 0
                      then extrair_resultado (stdout p)
                      else indexacao_falhou
                             (str_CalledProcessError
                                (cmd_indexacao config arquivo_entrada)
                                (returncode p))) /\
      (returncode p <> 0 ->
       In (ERROR, "Saída de erro: " ++ stderr p) (registro (snd (m w))))).
    { intros w. unfold m. rewrite executar_indexacao_eq. cbv zeta.
      match goal with
      | |- context [returncode ?q =? 0] =>
          exists q; destruct (Z.eqb_spec (returncode q) 0) as [E|E]
      end.
      - split; [|split; [reflexivity|intros; contradiction]].
        repeat split. simpl. eexists. rewrite <- !app_assoc. reflexivity.
      - split; [|split; [reflexivity|intros _]].
        + repeat split. simpl. eexists. rewrite <- !app_assoc. reflexivity.
        + simpl. apply in_or_app. right. left. reflexivity. }
    split; [|split].
    - intros w. destruct (Hum w) as (p & U & _). eexists _, p. exact U.
    - intros w cmd p Hproc Hrc.
      destruct (Hum w) as (p' & U & R & L).
      destruct U as (Hp & _). rewrite Hp in Hproc.
      apply ultimo_processo in Hproc. injection Hproc as <- <-.
      split; [|exact (L Hrc)].
      rewrite R. destruct (Z.eqb_spec (returncode p') 0); [contradiction|reflexivity].
    - intros w. destruct (Hum w) as (p & U & R & _). exists p. split; assumption.
  Qed.

End Etapas.

(* ===================================================================== *)
(** ** The complete run, stage after stage *)
(* ===================================================================== *)

Section Fluxo.

Context `{Plataforma}.
Variable config : Config.
Variables (data : DateTime) (secao : Z) (out : string).

Lemma fluxo_falha_coleta w e w2 :
    executar_coleta config data secao out (inicio_do_fluxo w) = (Levantou e, w2) ->
    fluxo_completo config data secao out w = (Levantou e, w2).
  Proof.
    intros E1. unfold fluxo_completo.
    unfold bind at 1. rewrite logger_ok.
    unfold bind at 1. rewrite logger_ok.
    unfold bind at 1. unfold inicio_do_fluxo, anunciar in E1. rewrite E1. reflexivity.
  Qed.

Lemma fluxo_falha_processamento w a1 w2 e w3 :
    executar_coleta config data secao out (inicio_do_fluxo w) = (Ok a1, w2) ->
    executar_processamento config a1 out
      (anunciar "Etapa 2: Processamento dos dados coletados" w2) = (Levantou e, w3) ->
    fluxo_completo config data secao out w = (Levantou e, w3).
  Proof.
    intros E1 E2. unfold fluxo_completo.
    unfold bind at 1. rewrite logger_ok.
    unfold bind at 1. rewrite logger_ok.
    unfold bind at 1. unfold inicio_do_fluxo, anunciar in E1. rewrite E1.
    unfold bind at 1. rewrite logger_ok.
    unfold bind at 1. unfold anunciar in E2. rewrite E2. reflexivity.
  Qed.

Lemma fluxo_falha_organizacao w a1 w2 a2 w3 e w4 :
    executar_coleta config data secao out (inicio_do_fluxo w) = (Ok a1, w2) ->
    executar_processamento config a1 out
      (anunciar "Etapa 2: Processamento dos dados coletados" w2) = (Ok a2, w3) ->
    executar_organizacao config a2 out
      (anunciar "Etapa 3: Organização dos dados processados" w3) = (Levantou e, w4) ->
    fluxo_completo config data secao out w = (Levantou e, w4).
  Proof.
    intros E1 E2 E3. unfold fluxo_completo.
    unfold bind at 1. rewrite logger_ok.
    unfold bind at 1. rewrite logger_ok.
    unfold bind at 1. unfold inicio_do_fluxo, anunciar in E1. rewrite E1.
    unfold bind at 1. rewrite logger_ok.
    unfold bind at 1. unfold anunciar in E2. rewrite E2.
    unfold bind at 1. rewrite logger_ok.
    unfold bind at 1. unfold anunciar in E3. rewrite E3. reflexivity.
  Qed.

Lemma fluxo_ate_indexacao w a1 w2 a2 w3 a3 w4 r4 w5 :
    executar_coleta config data secao out (inicio_do_fluxo w) = (Ok a1, w2) ->
    executar_processamento config a1 out
      (anunciar "Etapa 2: Processamento dos dados coletados" w2) = (Ok a2, w3) ->
    executar_organizacao config a2 out
      (anunciar "Etapa 3: Organização dos dados processados" w3) = (Ok a3, w4) ->
    executar_indexacao config a3
      (anunciar "Etapa 4: Indexação dos dados para busca" w4) = (Ok r4, w5) ->
    fluxo_completo config data secao out w
    = gerar_relatorio data secao out a1 a2 a3 r4
        (anunciar "Fluxo de trabalho completo executado com sucesso" w5).
  Proof.
    intros E1 E2 E3 E4. unfold fluxo_completo.
    unfold bind at 1. rewrite logger_ok.
    unfold bind at 1. rewrite logger_ok.
    unfold bind at 1. unfold inicio_do_fluxo, anunciar in E1. rewrite E1.
    unfold bind at 1. rewrite logger_ok.
    unfold bind at 1. unfold anunciar in E2. rewrite E2.
    unfold bind at 1. rewrite logger_ok.
    unfold bind at 1. unfold anunciar in E3. rewrite E3.
    unfold bind at 1. rewrite logger_ok.
    unfold bind at 1. unfold anunciar in E4. rewrite E4.
    unfold bind at 1. rewrite logger_ok. reflexivity.
  Qed.

  (** An exception that leaves the mode dispatch is logged and turned into
      exit code 1. *)
Lemma despachar_excecao modo w e w' :
    executar_modo config modo data secao out w = (Levantou e, w') ->
    despachar config modo data secao out w
    = (Ok 1, acusar ("Erro durante a execução: " ++ str_exc e) w').
  Proof.
    intros E. unfold despachar, tentar, bind. rewrite E. reflexivity.
  Qed.

Lemma despachar_completo_excecao w e w' :
    fluxo_completo config data secao out w = (Levantou e, w') ->
    despachar config Completo data secao out w
    = (Ok 1, acusar ("Erro durante a execução: " ++ str_exc e) w').
  Proof.
    intros E. apply despachar_excecao. simpl. unfold bind. rewrite E. reflexivity.
  Qed.

Lemma despachar_completo_ok w w' :
    fluxo_completo config data secao out w = (Ok tt, w') ->
    despachar config Completo data secao out w
    = (Ok 0, anunciar "Operação concluída com sucesso" w').
  Proof.
    intros E. unfold despachar, tentar, bind. simpl. unfold bind. rewrite E.
    reflexivity.
  Qed.

Lemma find_gravar_entrada n t c l :
    find (fun e => String.eqb (nome e) n) (gravar_entrada n t c l)
    = Some {| nome := n; eh_arquivo := true; mtime := t; conteudo := c |}.
  Proof.
    induction l as [|e l IH]; simpl.
    - rewrite String.eqb_refl. reflexivity.
    - destruct (String.eqb (nome e) n) eqn:E; simpl.
      + rewrite String.eqb_refl. reflexivity.
      + rewrite E. exact IH.
  Qed.

  (** With the output directory in place and a dict as index result, the
      report is written and holds what the stages returned. *)
Lemma gerar_relatorio_ok a1 a2 a3 r4 w campos :
    arquivos w out <> None ->
    r4 = JObj campos ->
    exists w',
      gerar_relatorio data secao out a1 a2 a3 r4 w = (Ok tt, w') /\
      processos w' = processos w /\
      gravados w' = (gravados w ++ [os_path_join out (nome_do_relatorio data secao)])%list /\
      exists r,
        relatorio_gravado w' out (nome_do_relatorio data secao) = Some r /\
        resultado (etapa_indexacao r) = r4 /\
        status_indexacao (etapa_indexacao r)
        = (if verdadeiro (get (procurar_chave "success" campos) (JBool false))
           then "concluido" else "falha") /\
        arquivo (etapa_coleta r) = a1 /\
        arquivo (etapa_processamento r) = a2 /\
        arquivo (etapa_organizacao r) = a3.
  Proof.
    intros Hout ->. unfold gerar_relatorio.
    unfold bind at 1. unfold datetime_now at 1.
    unfold bind at 1. unfold status_da_indexacao, dict_get.
    assert (Hget : match procurar_chave "success" campos with
                   | Some v => v | None => JBool false end
                   = get (procurar_chave "success" campos) (JBool false))
      by reflexivity.
    rewrite Hget. unfold ret at 1.
    unfold bind at 1. unfold gravar_arquivo.
    destruct (arquivos w out) as [l|] eqn:El; [|congruence].
    rewrite logger_ok. eexists. split; [reflexivity|].
    split; [reflexivity|]. split; [reflexivity|].
    unfold relatorio_gravado, listar. simpl arquivos.
    unfold atualizar. rewrite String.eqb_refl.
    unfold nome_do_relatorio. rewrite find_gravar_entrada. simpl.
    eexists. split; [reflexivity|]. simpl. repeat split.
  Qed.

End Fluxo.

(* ===================================================================== *)
(** ** What the index worker printed *)
(* ===================================================================== *)

Section SaidaDoIndexador.

Context `{Plataforma}.

Lemma ate_ultima_chave_prefixo r t :
    ate_ultima_chave r = Some t -> exists depois, r = t ++ depois.
  Proof.
    revert t. induction r as [|c r IH]; intros t; simpl; [discriminate|].
    destruct (Ascii.eqb c nova_linha); [discriminate|].
    destruct (ate_ultima_chave r) as [t'|].
    - intros [= <-]. destruct (IH t' eq_refl) as [d ->]. now exists d.
    - destruct (Ascii.eqb c "}"); [|discriminate].
      intros [= <-]. now exists r.
  Qed.

Lemma re_search_chaves_trecho s g :
    re_search_chaves s = Some g ->
    exists antes t depois, g = String "{"%char t /\ s = antes ++ g ++ depois.
  Proof.
    induction s as [|c s IH]; simpl; [discriminate|].
    destruct (Ascii.eqb_spec c "{"%char) as [->|Hc].
    - destruct (ate_ultima_chave s) as [t|] eqn:Et.
      + intros [= <-]. destruct (ate_ultima_chave_prefixo _ Et) as [d ->].
        exists "", t, d. split; reflexivity.
      + intros Hs. destruct (IH Hs) as (a & t & d & Hg & ->).
        exists (String "{"%char a), t, d. split; [exact Hg|reflexivity].
    - intros Hs. destruct (IH Hs) as (a & t & d & Hg & ->).
      exists (String c a), t, d. split; [exact Hg|reflexivity].
  Qed.

Lemma extrair_resultado_presumido s :
    sem_objeto_json s -> extrair_resultado s = indexacao_presumida.
  Proof.
    intros Hs. unfold extrair_resultado.
    destruct (re_search_chaves s) as [g|] eqn:Eg; [|reflexivity].
    destruct (re_search_chaves_trecho _ Eg) as (a & t & d & -> & Es).
    rewrite (Hs a t d Es). reflexivity.
  Qed.

End SaidaDoIndexador.

(* ===================================================================== *)
(** ** The claims about failing and degraded stages *)
(* ===================================================================== *)

(** C1 (as amended). Each stage runs exactly one child, so nothing is
    tried twice.  When the child of the collect, process or organize
    stage returns a code other than zero, the stage logs the captured
    standard error and raises [RuntimeError] whose text is the process
    error; an exception of any of these stages ends a complete run with
    exit code 1.  The index stage differs: a return code other than zero
    is logged and turned into a result with [success] false, and when the
    output directory is still in place the complete run writes its report
    with the index status [falha] and ends with exit code 0. *)
Theorem C1_falha_de_agente :
  forall `{Plataforma} (config : Config) (data : DateTime) (secao : Z)
         (out arq : string),
    out <> "" ->
    (um_so_filho (executar_coleta config data secao out) /\
     falha_fatal "Agente Coletor" (executar_coleta config data secao out)) /\
    (um_so_filho (executar_processamento config arq out) /\
     falha_fatal "Agente Processador" (executar_processamento config arq out)) /\
    (um_so_filho (executar_organizacao config arq out) /\
     falha_fatal "Agente Organizador" (executar_organizacao config arq out)) /\
    (um_so_filho (executar_indexacao config arq) /\
     falha_relatada (executar_indexacao config arq)) /\
    (forall w e w2,
        executar_coleta config data secao out (inicio_do_fluxo w) = (Levantou e, w2) ->
        run_abortado config data secao out w e w2) /\
    (forall w a1 w2 e w3,
        executar_coleta config data secao out (inicio_do_fluxo w) = (Ok a1, w2) ->
        executar_processamento config a1 out
          (anunciar "Etapa 2: Processamento dos dados coletados" w2)
        = (Levantou e, w3) ->
        run_abortado config data secao out w e w3) /\
    (forall w a1 w2 a2 w3 e w4,
        executar_coleta config data secao out (inicio_do_fluxo w) = (Ok a1, w2) ->
        executar_processamento config a1 out
          (anunciar "Etapa 2: Processamento dos dados coletados" w2) = (Ok a2, w3) ->
        executar_organizacao config a2 out
          (anunciar "Etapa 3: Organização dos dados processados" w3)
        = (Levantou e, w4) ->
        run_abortado config data secao out w e w4) /\
    (forall w a1 a2 w4 cmd p,
        tres_etapas config data secao out w a1 a2 arq w4 ->
        let w4' := anunciar "Etapa 4: Indexação dos dados para busca" w4 in
        let r := executar_indexacao config arq w4' in
        processos (snd r) = (processos w4' ++ [(cmd, p)])%list ->
        returncode p <> 0 ->
        arquivos (snd r) out <> None ->
        exists w' rel,
          despachar config Completo data secao out w = (Ok 0, w') /\
          relatorio_gravado w' out (nome_do_relatorio data secao) = Some rel /\
          status_indexacao (etapa_indexacao rel) = "falha").
Proof.
  intros P config data secao out arq Hout.
  destruct (executar_coleta_resumo config data secao out) as (U1 & F1 & _).
  destruct (executar_processamento_resumo config arq out) as (U2 & F2 & _).
  destruct (executar_organizacao_resumo config arq Hout) as (U3 & F3 & _).
  destruct (executar_indexacao_resumo config arq) as (U4 & F4 & _).
  repeat (split; [split; assumption|]).
  split; [|split; [|split]].
  - intros w e w2 E1. apply despachar_completo_excecao.
    apply fluxo_falha_coleta. exact E1.
  - intros w a1 w2 e w3 E1 E2. apply despachar_completo_excecao.
    eapply fluxo_falha_processamento; eassumption.
  - intros w a1 w2 a2 w3 e w4 E1 E2 E3. apply despachar_completo_excecao.
    eapply fluxo_falha_organizacao; eassumption.
  - intros w a1 a2 w4 cmd p (w2 & w3 & E1 & E2 & E3) w4' r Hproc Hrc Hdir.
    destruct (F4 w4' cmd p Hproc Hrc) as [Hr _].
    assert (E4 : executar_indexacao config arq w4'
                 = (Ok (indexacao_falhou (str_CalledProcessError cmd (returncode p))),
                    snd r)).
    { unfold r in *. destruct (executar_indexacao config arq w4') as [x y].
      simpl in Hr |- *. now rewrite Hr. }
    pose proof (fluxo_ate_indexacao config data secao out w E1 E2 E3 E4) as Ef.
    destruct (@gerar_relatorio_ok data secao out a1 a2 arq
                (indexacao_falhou (str_CalledProcessError cmd (returncode p)))
                (anunciar "Fluxo de trabalho completo executado com sucesso" (snd r))
                [("success", JBool false);
                 ("error", JStr (str_CalledProcessError cmd (returncode p)));
                 ("total", JNum 0)] Hdir eq_refl)
      as (w' & Eg & _ & _ & rel & Hrel & _ & Hst & _).
    rewrite Eg in Ef.
    exists (anunciar "Operação concluída com sucesso" w'), rel.
    split; [apply despachar_completo_ok; exact Ef|].
    split; [exact Hrel|exact Hst].
Qed.

Lemma C1_falha_de_agente_witness :
  "dados" <> "" /\
  fst (@executar_coleta (Exemplo.plataforma Exemplo.coletor_falha) Exemplo.config
         Exemplo.primeiro_de_marco 3 "dados" Exemplo.mundo_vazio)
  = Levantou (RuntimeError "Falha na execução do Agente Coletor: exit status 2").
Proof.
  split; [discriminate|].
  destruct (@C1_falha_de_agente (Exemplo.plataforma Exemplo.coletor_falha)
              Exemplo.config Exemplo.primeiro_de_marco 3 "dados" "x")
    as ((_ & F) & _); [discriminate|].
  destruct (F Exemplo.mundo_vazio
              ["python3"; "-m"; "coletor.main"; "--data"; "01-03-2024";
               "--secao"; "3"; "--output"; "dados/brutos"]
              (Exemplo.proc 2 "" "rede fora do ar")) as [E _].
  - vm_compute. reflexivity.
  - vm_compute. discriminate.
  - exact E.
Defined.

(** C1, the claim as stated, fails for the index stage: in this complete
    run the three first workers return 0 and the indexer returns 1, and
    [main] still ends with exit code 0, the failure being kept only in the
    report. *)
Lemma C1_contraexemplo_indexacao :
  let r := @main (Exemplo.plataforma Exemplo.indexador_falha) Exemplo.config
             (Exemplo.args (Some "01-03-2024") Completo) [] Exemplo.mundo_vazio in
  Exemplo.filhos (snd r)
  = [("coletor.main", 0); ("processador.main", 0); ("organizador.main", 0);
     ("busca.main", 1)] /\
  fst r = Retornou 0 /\
  option_map (fun rel => status_indexacao (etapa_indexacao rel))
    (relatorio_gravado (snd r) "dados" "relatorio_2024-03-01_secao3.json")
  = Some "falha".
Proof. vm_compute. repeat split. Qed.

(** C2 (as amended). In a complete run whose collect stage went through
    and whose process stage raised (its child returned a code other than
    zero, or its output could not be found), exactly two children have
    run, the collector and the processor: neither the organizer nor the
    indexer is started.  The run logs the error and ends with exit code 1,
    and the coordinator has written no file: there is no run report. *)
Theorem C2_falha_no_processamento :
  forall `{Plataforma} (config : Config) (data : DateTime) (secao : Z) (out : string)
         (w : Mundo) (a1 : string) (w2 : Mundo) (e : Excecao) (w3 : Mundo),
    executar_coleta config data secao out (inicio_do_fluxo w) = (Ok a1, w2) ->
    executar_processamento config a1 out
      (anunciar "Etapa 2: Processamento dos dados coletados" w2) = (Levantou e, w3) ->
    let w' := acusar ("Erro durante a execução: " ++ str_exc e) w3 in
    despachar config Completo data secao out w = (Ok 1, w') /\
    (exists c1 p1 c2 p2,
        processos w' = (processos w ++ [(c1, p1); (c2, p2)])%list /\
        modulo_do_comando c1 = "coletor.main" /\
        modulo_do_comando c2 = "processador.main") /\
    gravados w' = gravados w /\
    removidos w' = removidos w.
Proof.
  intros P config data secao out w a1 w2 e w3 E1 E2 w'.
  split.
  - apply despachar_completo_excecao.
    eapply fluxo_falha_processamento; eassumption.
  - destruct (executar_coleta_resumo config data secao out) as (_ & _ & U1).
    destruct (U1 (inicio_do_fluxo w)) as (p1 & Hp1 & Hg1 & Hr1 & _).
    rewrite E1 in Hp1, Hg1, Hr1. simpl in Hp1, Hg1, Hr1.
    destruct (executar_processamento_resumo config a1 out) as (_ & _ & U2).
    destruct (U2 (anunciar "Etapa 2: Processamento dos dados coletados" w2))
      as (p2 & Hp2 & Hg2 & Hr2 & _).
    rewrite E2 in Hp2, Hg2, Hr2. simpl in Hp2, Hg2, Hr2.
    split; [|split].
    + exists (cmd_coleta config data secao (os_path_join out "brutos")), p1,
        (cmd_processamento config a1
           (os_path_join (os_path_join out "processados")
              ("processado_" ++ os_path_basename a1))), p2.
      split; [|split; reflexivity].
      unfold w'. simpl. rewrite Hp2, Hp1. rewrite <- app_assoc. reflexivity.
    + unfold w'. simpl. rewrite Hg2, Hg1. reflexivity.
    + unfold w'. simpl. rewrite Hr2, Hr1. reflexivity.
Qed.

Lemma C2_falha_no_processamento_witness :
  fst (@despachar (Exemplo.plataforma Exemplo.processador_falha) Exemplo.config
         Completo Exemplo.primeiro_de_marco 3 "dados" Exemplo.mundo_vazio)
  = Ok 1.
Proof.
  pose (P := Exemplo.plataforma Exemplo.processador_falha).
  pose (X1 := @executar_coleta P Exemplo.config Exemplo.primeiro_de_marco 3 "dados"
                (inicio_do_fluxo Exemplo.mundo_vazio)).
  pose (X2 := @executar_processamento P Exemplo.config
                "dados/brutos/2024-03-01_secao3.json" "dados"
                (anunciar "Etapa 2: Processamento dos dados coletados" (snd X1))).
  assert (E1 : X1 = (Ok "dados/brutos/2024-03-01_secao3.json", snd X1)).
  { rewrite (surjective_pairing X1) at 1. f_equal. }
  assert (E2 : X2 = (Levantou (RuntimeError
                       "Falha na execução do Agente Processador: exit status 1"),
                     snd X2)).
  { rewrite (surjective_pairing X2) at 1. f_equal. }
  destruct (@C2_falha_no_processamento P Exemplo.config Exemplo.primeiro_de_marco 3
              "dados" Exemplo.mundo_vazio _ _ _ _ E1 E2) as [E _].
  exact (f_equal fst E).
Defined.

(** C2, the claim as stated, fails on its second half: in this complete
    run the processor returns 1; [main] ends with exit code 1 after two
    children, and no report exists, so nothing marks the organize and
    index stages as pending.  The coordinator wrote no file at all. *)
Lemma C2_contraexemplo_sem_relatorio :
  let r := @main (Exemplo.plataforma Exemplo.processador_falha) Exemplo.config
             (Exemplo.args (Some "01-03-2024") Completo) [] Exemplo.mundo_vazio in
  fst r = Retornou 1 /\
  Exemplo.filhos (snd r) = [("coletor.main", 0); ("processador.main", 1)] /\
  relatorio_gravado (snd r) "dados" "relatorio_2024-03-01_secao3.json" = None /\
  listar (arquivos (snd r)) "dados" = [] /\
  gravados (snd r) = [].
Proof. vm_compute. repeat split. Qed.

(** C9. When the child of the index stage returns 0 and its output holds
    no JSON object, the stage returns the presumed result: [success] true
    and the total unknown ([desconhecido]).  In a complete run whose first
    three stages went through, and with the output directory in place, the
    report then records the index stage as [concluido] and the run ends
    with exit code 0. *)
Theorem C9_indexacao_sem_json :
  forall `{Plataforma} (config : Config) (arq : string) (w : Mundo)
         (cmd : list string) (p : CompletedProcess),
    let r := executar_indexacao config arq w in
    processos (snd r) = (processos w ++ [(cmd, p)])%list ->
    returncode p = 0 ->
    sem_objeto_json (stdout p) ->
    fst r = Ok indexacao_presumida /\
    dict_get indexacao_presumida "success" (JBool false) = Some (JBool true) /\
    dict_get indexacao_presumida "total" JNull = Some (JStr "desconhecido") /\
    (forall data secao out w0 a1 a2 w4,
        tres_etapas config data secao out w0 a1 a2 arq w4 ->
        w = anunciar "Etapa 4: Indexação dos dados para busca" w4 ->
        arquivos (snd r) out <> None ->
        exists w' rel,
          despachar config Completo data secao out w0 = (Ok 0, w') /\
          relatorio_gravado w' out (nome_do_relatorio data secao) = Some rel /\
          resultado (etapa_indexacao rel) = indexacao_presumida /\
          status_indexacao (etapa_indexacao rel) = "concluido").
Proof.
  intros P config arq w cmd p r Hproc Hrc Hjson.
  destruct (executar_indexacao_resumo config arq) as (_ & _ & U).
  destruct (U w) as (p' & (Hp & _) & Hr).
  fold r in Hp, Hr. rewrite Hp in Hproc. apply ultimo_processo in Hproc.
  injection Hproc as <- <-.
  rewrite Hrc in Hr. simpl in Hr.
  rewrite (extrair_resultado_presumido Hjson) in Hr.
  split; [exact Hr|]. split; [reflexivity|]. split; [reflexivity|].
  intros data secao out w0 a1 a2 w4 (w2 & w3 & E1 & E2 & E3) -> Hdir.
  assert (E4 : executar_indexacao config arq
                 (anunciar "Etapa 4: Indexação dos dados para busca" w4)
               = (Ok indexacao_presumida, snd r)).
  { unfold r in *. destruct (executar_indexacao config arq _) as [x y].
    simpl in Hr |- *. now rewrite Hr. }
  pose proof (fluxo_ate_indexacao config data secao out w0 E1 E2 E3 E4) as Ef.
  destruct (@gerar_relatorio_ok data secao out a1 a2 arq indexacao_presumida
              (anunciar "Fluxo de trabalho completo executado com sucesso" (snd r))
              [("success", JBool true);
               ("message", JStr "Indexação concluída");
               ("total", JStr "desconhecido")] Hdir eq_refl)
    as (w' & Eg & _ & _ & rel & Hrel & Hres & Hst & _).
  rewrite Eg in Ef.
  exists (anunciar "Operação concluída com sucesso" w'), rel.
  split; [apply despachar_completo_ok; exact Ef|].
  split; [exact Hrel|]. split; [exact Hres|exact Hst].
Qed.

Lemma C9_indexacao_sem_json_witness :
  fst (@executar_indexacao (Exemplo.plataforma Exemplo.tudo_certo) Exemplo.config
         "dados/csv/2024-03-01_secao3.csv" Exemplo.mundo_vazio)
  = Ok indexacao_presumida.
Proof.
  refine (proj1 (@C9_indexacao_sem_json (Exemplo.plataforma Exemplo.tudo_certo)
                   Exemplo.config "dados/csv/2024-03-01_secao3.csv"
                   Exemplo.mundo_vazio
                   ["python3"; "-m"; "busca.main"; "--input";
                    "dados/csv/2024-03-01_secao3.csv"; "--index"; "dou";
                    "--modo"; "indexar"]
                   (Exemplo.proc 0 "15 documentos indexados" "") _ _ _)).
  - vm_compute. reflexivity.
  - reflexivity.
  - intros antes t depois E. simpl in E.
    repeat (destruct antes as [|? antes]; simpl in E;
            [discriminate E | injection E as _ E]).
    destruct antes; discriminate E.
Defined.

(* ===================================================================== *)
(** ** Matching names: [fnmatch] on plain patterns is containment *)
(* ===================================================================== *)

Section Casamento.

Lemma casa_estrela_eq p s :
    casa (TEstrela :: p) s
    = casa p s || match s with
                  | String _ s' => casa (TEstrela :: p) s'
                  | EmptyString => false
                  end.
  Proof. destruct s; reflexivity. Qed.

Lemma casa_so_estrela s : casa [TEstrela] s = true.
  Proof.
    induction s as [|c s IH]; [reflexivity|].
    rewrite casa_estrela_eq. rewrite IH. apply orb_true_r.
  Qed.

Lemma padrao_simples_app a b :
    padrao_simples (a ++ b) = padrao_simples a && padrao_simples b.
  Proof.
    induction a as [|c a IH]; simpl; [reflexivity|].
    rewrite IH. apply andb_assoc.
  Qed.

Lemma traduzir_simples c :
    caractere_simples c = true ->
    (if Ascii.eqb c "*" then TEstrela
     else if Ascii.eqb c "?" then TInterrogacao else TLiteral c) = TLiteral c.
  Proof.
    unfold caractere_simples. rewrite !andb_true_iff, !negb_true_iff.
    intros [[[-> ->] _] _]. reflexivity.
  Qed.

  (** A plain pattern followed by a star matches the names it starts. *)
Lemma casa_prefixo pat t :
    padrao_simples pat = true ->
    casa (traduzir (pat ++ "*")) t = true <-> exists suf, t = pat ++ suf.
  Proof.
    revert t. induction pat as [|c pat IH]; intros t Hp.
    - simpl. split; [intros _; now exists t|intros _; apply casa_so_estrela].
    - simpl in Hp. apply andb_true_iff in Hp as [Hc Hp].
      simpl traduzir. rewrite (traduzir_simples _ Hc).
      destruct t as [|d t]; simpl.
      + split; [discriminate|intros [suf E]; discriminate E].
      + rewrite andb_true_iff, (IH t Hp). split.
        * intros [Hcd [suf ->]]. apply Ascii.eqb_eq in Hcd as ->. now exists suf.
        * intros [suf E]. injection E as -> ->. split; [apply Ascii.eqb_refl|].
          now exists suf.
  Qed.

Lemma casa_estrela_sufixo p s :
    casa (TEstrela :: p) s = true <-> exists antes t, s = antes ++ t /\ casa p t = true.
  Proof.
    induction s as [|c s IH]; rewrite casa_estrela_eq.
    - rewrite orb_false_r. split.
      + intros Hc. now exists "", "".
      + intros (a & t & E & Hc). destruct a; [|discriminate E].
        simpl in E. now subst t.
    - rewrite orb_true_iff, IH. split.
      + intros [Hc|(a & t & -> & Hc)].
        * now exists "", (String c s).
        * now exists (String c a), t.
      + intros (a & t & E & Hc). destruct a as [|c' a]; simpl in E.
        * left. now subst t.
        * injection E as -> ->. right. now exists a, t.
  Qed.

  (** [fnmatch(name, '*' + padrao + '*')] for a plain pattern. *)
Lemma fnmatch_contem padrao nome_ :
    padrao_simples padrao = true ->
    fnmatch nome_ ("*" ++ padrao ++ "*") = true <-> contem padrao nome_.
  Proof.
    intros Hp. unfold fnmatch, contem.
    change (traduzir ("*" ++ padrao ++ "*"))
      with (TEstrela :: traduzir (padrao ++ "*")).
    rewrite casa_estrela_sufixo. split.
    - intros (a & t & -> & Hc). apply (casa_prefixo padrao t Hp) in Hc as [suf ->].
      now exists a, suf.
    - intros (a & suf & ->). exists a, (padrao ++ suf). split; [reflexivity|].
      apply (casa_prefixo padrao _ Hp). now exists suf.
  Qed.

End Casamento.

(* ===================================================================== *)
(** ** Paths: joining and splitting *)
(* ===================================================================== *)

Section Caminhos.

Lemma caractere_simples_nao_barra c :
    caractere_simples c = true -> Ascii.eqb c barra = false.
  Proof.
    unfold caractere_simples. rewrite !andb_true_iff, !negb_true_iff. tauto.
  Qed.

Lemma padrao_simples_sem_barra s : padrao_simples s = true -> sem_barra s = true.
  Proof.
    induction s as [|c s IH]; simpl; [reflexivity|].
    rewrite !andb_true_iff. intros [Hc Hs]. split; [|exact (IH Hs)].
    rewrite (caractere_simples_nao_barra c Hc). reflexivity.
  Qed.

Lemma sem_barra_app a b : sem_barra (a ++ b) = sem_barra a && sem_barra b.
  Proof.
    induction a as [|c a IH]; simpl; [reflexivity|].
    rewrite IH. apply andb_assoc.
  Qed.

Lemma startswith_barra c b :
    Ascii.eqb c barra = false -> startswith "/" (String c b) = false.
  Proof.
    intros Hc.
    change (startswith "/" (String c b)) with (Ascii.eqb barra c && true).
    rewrite Ascii.eqb_sym, Hc. reflexivity.
  Qed.

Lemma cortar_sem_barra b :
    sem_barra b = true -> cortar_na_ultima_barra b = ("", b).
  Proof.
    induction b as [|c b IH]; simpl; [reflexivity|].
    rewrite andb_true_iff, negb_true_iff. intros [Hc Hb].
    rewrite (IH Hb), Hc. reflexivity.
  Qed.

Lemma cortar_apos_barra d b :
    sem_barra b = true ->
    cortar_na_ultima_barra (d ++ "/" ++ b) = (d ++ "/", b).
  Proof.
    intros Hb. induction d as [|x d IH].
    - simpl. rewrite (cortar_sem_barra b Hb). reflexivity.
    - change (cortar_na_ultima_barra (String x d ++ "/" ++ b))
        with (let (cabeca, cauda) := cortar_na_ultima_barra (d ++ "/" ++ b) in
              if Ascii.eqb x barra then (String x cabeca, cauda)
              else match cabeca with
                   | EmptyString => (EmptyString, String x cauda)
                   | _ => (String x cabeca, cauda)
                   end).
      rewrite IH. destruct (Ascii.eqb x barra); [reflexivity|].
      destruct d; reflexivity.
  Qed.

Lemma so_barras_normal d :
    d <> "" -> termina_em_barra d = false -> so_barras (d ++ "/") = false.
  Proof.
    induction d as [|x d IH]; [congruence|]. intros _ Ht.
    destruct d as [|y d].
    - simpl in Ht |- *. rewrite Ht. reflexivity.
    - change (termina_em_barra (String y d) = false) in Ht.
      assert (IH' := IH ltac:(discriminate) Ht).
      simpl in IH' |- *. rewrite IH'. apply andb_false_r.
  Qed.

Lemma rstrip_barras_normal d :
    termina_em_barra d = false -> rstrip_barras (d ++ "/") = d.
  Proof.
    induction d as [|x d IH]; [reflexivity|]. intros Ht.
    change (rstrip_barras (String x d ++ "/"))
      with (if so_barras (String x d ++ "/") then EmptyString
            else String x (rstrip_barras (d ++ "/"))).
    rewrite so_barras_normal by (try discriminate; exact Ht).
    f_equal. destruct d as [|y d]; [reflexivity|]. apply IH. exact Ht.
  Qed.

  (** A directory joined with one more component splits back into the
      two. *)
Lemma os_path_split_join d c b :
    diretorio_normal d ->
    sem_barra (String c b) = true ->
    os_path_join d (String c b) = d ++ "/" ++ String c b /\
    os_path_split (os_path_join d (String c b)) = (d, String c b).
  Proof.
    intros [Hd Ht] Hb.
    assert (Hc : Ascii.eqb c barra = false).
    { simpl in Hb. apply andb_true_iff in Hb as [Hc _].
      now apply negb_true_iff in Hc. }
    assert (Hj : os_path_join d (String c b) = d ++ "/" ++ String c b).
    { unfold os_path_join. rewrite (startswith_barra c b Hc).
      destruct d; [congruence|]. rewrite Ht. reflexivity. }
    split; [exact Hj|]. rewrite Hj. unfold os_path_split.
    rewrite (cortar_apos_barra d (String c b) Hb).
    rewrite (so_barras_normal Hd Ht), (rstrip_barras_normal d Ht). reflexivity.
  Qed.

Lemma termina_em_barra_app a c b :
    termina_em_barra (a ++ String c b) = termina_em_barra (String c b).
  Proof.
    induction a as [|x a IH]; [reflexivity|].
    change (termina_em_barra (String x a ++ String c b))
      with (termina_em_barra (String x (a ++ String c b))).
    destruct a; simpl in *; exact IH.
  Qed.

  (** The stage directories [main] builds are in normal form. *)
Lemma os_path_join_normal out c b :
    out <> "" ->
    Ascii.eqb c barra = false ->
    termina_em_barra (String c b) = false ->
    diretorio_normal (os_path_join out (String c b)).
  Proof.
    intros Ho Hc Hb. split; [apply os_path_join_nao_vazio_l; exact Ho|].
    unfold os_path_join. rewrite (startswith_barra c b Hc).
    destruct out as [|x out]; [congruence|].
    destruct (termina_em_barra (String x out)).
    - rewrite termina_em_barra_app. exact Hb.
    - change (String x out ++ "/" ++ String c b)
        with (String x out ++ String "/" (String c b)).
      rewrite termina_em_barra_app. exact Hb.
  Qed.

Lemma length_app_string a b :
    String.length (a ++ b) = (String.length a + String.length b)%nat.
  Proof. induction a as [|c a IH]; simpl; [reflexivity|]. now rewrite IH. Qed.

  (** A stage directory is never the output directory itself. *)
Lemma os_path_join_outro out c b :
    out <> "" -> Ascii.eqb c barra = false ->
    os_path_join out (String c b) <> out.
  Proof.
    intros Ho Hc E. unfold os_path_join in E.
    rewrite (startswith_barra c b Hc) in E.
    destruct out as [|x out]; [congruence|].
    apply (f_equal String.length) in E.
    destruct (termina_em_barra (String x out));
      rewrite !length_app_string in E; simpl in E; lia.
  Qed.

End Caminhos.

(* ===================================================================== *)
(** ** The most recent file of a directory *)
(* ===================================================================== *)

Section MaisRecente.

Lemma filtro_glob_candidato padrao e :
    padrao_simples padrao = true ->
    filtro_glob padrao e = true <-> candidato padrao e.
  Proof.
    intros Hp. unfold filtro_glob, candidato.
    rewrite andb_true_iff, negb_true_iff, (fnmatch_contem padrao (nome e) Hp).
    reflexivity.
  Qed.

Lemma glob_glob_simples fs d padrao :
    diretorio_normal d -> padrao_simples padrao = true ->
    glob_glob fs (os_path_join d ("*" ++ padrao ++ "*"))
    = map (fun e => (os_path_join d (nome e), e))
        (filter (filtro_glob padrao) (listar fs d)).
  Proof.
    intros Hd Hp. unfold glob_glob.
    change ("*" ++ padrao ++ "*") with (String "*"%char (padrao ++ "*")).
    assert (Hb : sem_barra (String "*"%char (padrao ++ "*")) = true).
    { change (sem_barra (String "*"%char (padrao ++ "*")))
        with (sem_barra (padrao ++ "*")).
      rewrite sem_barra_app, (padrao_simples_sem_barra padrao Hp). reflexivity. }
    destruct (@os_path_split_join d "*"%char (padrao ++ "*") Hd Hb) as [_ ->].
    reflexivity.
  Qed.

  (** [max] with a key returns the first of the greatest. *)
Lemma max_por_geral (A : Type) (chave : A -> Z) resto :
    forall l1 b l2,
      (forall x, In x l1 -> chave x < chave b) ->
      (forall x, In x l2 -> chave x <= chave b) ->
      exists l1' l2',
        (l1 ++ b :: l2 ++ resto)%list = (l1' ++ max_por chave b resto :: l2')%list /\
        (forall x, In x l1' -> chave x < chave (max_por chave b resto)) /\
        (forall x, In x l2' -> chave x <= chave (max_por chave b resto)).
  Proof.
    unfold max_por. induction resto as [|x r IH]; intros l1 b l2 H1 H2.
    - exists l1, l2. rewrite app_nil_r. simpl. auto.
    - simpl fold_left. destruct (Z.ltb_spec (chave b) (chave x)) as [Hlt|Hge].
      + destruct (IH (l1 ++ b :: l2)%list x []) as (l1' & l2' & E & A1 & A2).
        * intros y Hy. apply in_app_or in Hy as [Hy|[<-|Hy]].
          -- specialize (H1 y Hy). lia.
          -- exact Hlt.
          -- specialize (H2 y Hy). lia.
        * intros y [].
        * exists l1', l2'. split; [|split; assumption].
          rewrite <- E. rewrite <- !app_assoc. reflexivity.
      + destruct (IH l1 b (l2 ++ [x])%list) as (l1' & l2' & E & A1 & A2).
        * exact H1.
        * intros y Hy. apply in_app_or in Hy as [Hy|[<-|[]]]; [auto|lia].
        * exists l1', l2'. split; [|split; assumption].
          rewrite <- E. rewrite <- !app_assoc. reflexivity.
  Qed.

Lemma max_por_primeiro (A : Type) (chave : A -> Z) a resto :
    exists l1 l2,
      a :: resto = (l1 ++ max_por chave a resto :: l2)%list /\
      (forall x, In x l1 -> chave x < chave (max_por chave a resto)) /\
      (forall x, In x l2 -> chave x <= chave (max_por chave a resto)).
  Proof.
    destruct (@max_por_geral A chave resto [] a []) as (l1 & l2 & E & H1 & H2);
      [intros x []|intros x []|].
    exists l1, l2. split; [exact E|split; assumption].
  Qed.

  (** A cut of the filtered and mapped listing is a cut of the listing. *)
Lemma corte_do_filtro (A B : Type) (f : A -> bool) (g : A -> B) l :
    forall c1 m c2,
      map g (filter f l) = (c1 ++ m :: c2)%list ->
      exists la e lb,
        l = (la ++ e :: lb)%list /\ f e = true /\ m = g e /\
        map g (filter f la) = c1 /\ map g (filter f lb) = c2.
  Proof.
    induction l as [|x l IH]; intros c1 m c2 E; simpl in E.
    - destruct c1; discriminate E.
    - destruct (f x) eqn:Fx.
      + destruct c1 as [|c c1]; simpl in E.
        * injection E as E1 E2. exists [], x, l. repeat split; auto.
        * injection E as E1 E2. destruct (IH _ _ _ E2) as (la & e & lb & -> & Fe & -> & <- & <-).
          exists (x :: la), e, lb. simpl. rewrite Fx. simpl. subst c. repeat split; auto.
      + destruct (IH _ _ _ E) as (la & e & lb & -> & Fe & -> & <- & <-).
        exists (x :: la), e, lb. simpl. rewrite Fx. repeat split; auto.
  Qed.

Lemma existe_diretorio fs d l : d <> "" -> fs d = Some l -> existe fs d = true.
  Proof.
    intros Hd E. unfold existe. destruct d; [congruence|]. rewrite E. reflexivity.
  Qed.

  (** The search, case by case. *)
Lemma encontrar_eq d padrao w :
    encontrar_arquivo_mais_recente d padrao w
    = if existe (arquivos w) d
      then match glob_glob (arquivos w) (os_path_join d ("*" ++ padrao ++ "*")) with
           | [] => (Ok None,
                    snd (logger WARNING
                           ("Nenhum arquivo encontrado para o padrão: " ++ padrao) w))
           | a :: resto =>
               (Ok (Some (fst (max_por (fun c => mtime (snd c)) a resto))), w)
           end
      else (Ok None, snd (logger WARNING ("Diretório não encontrado: " ++ d) w)).
  Proof.
    unfold encontrar_arquivo_mais_recente, bind, os_path_exists, ler_mundo.
    destruct (existe (arquivos w) d); [|reflexivity].
    cbv [negb]. destruct (glob_glob _ _); reflexivity.
  Qed.

  (** With nothing that matches, the search ends with [None] and one
      warning. *)
Lemma encontrar_nada d padrao w :
    diretorio_normal d -> padrao_simples padrao = true ->
    (forall e, In e (listar (arquivos w) d) -> ~ candidato padrao e) ->
    exists aviso,
      encontrar_arquivo_mais_recente d padrao w
      = (Ok None, snd (logger WARNING aviso w)).
  Proof.
    intros Hd Hp Hnada. rewrite encontrar_eq.
    destruct (existe (arquivos w) d); [|eexists; reflexivity].
    rewrite (@glob_glob_simples (arquivos w) d padrao Hd Hp).
    replace (filter (filtro_glob padrao) (listar (arquivos w) d)) with (@nil Entrada).
    - simpl map. eexists. reflexivity.
    - symmetry. induction (listar (arquivos w) d) as [|e l IH]; [reflexivity|].
      simpl. destruct (filtro_glob padrao e) eqn:Fe.
      + exfalso. apply (Hnada e); [now left|].
        apply (@filtro_glob_candidato padrao e Hp). exact Fe.
      + apply IH. intros x Hx. apply Hnada. now right.
  Qed.

End MaisRecente.

(** C4 (as amended). In a directory that exists and whose path holds no
    wildcard character, for a pattern without wildcard characters, when
    some entry that is not hidden has a name containing the pattern,
    [encontrar_arquivo_mais_recente] returns the path of such an entry
    whose modification time no other such entry exceeds; among several of
    that same time it returns the one that comes first in the order the
    directory is listed.  It changes nothing. *)
Theorem C4_mais_recente_do_diretorio :
  forall (diretorio padrao : string) (w : Mundo) (l : list Entrada),
    diretorio_normal diretorio ->
    has_magic diretorio = false ->
    padrao_simples padrao = true ->
    arquivos w diretorio = Some l ->
    (exists e, In e l /\ candidato padrao e) ->
    exists antes e depois,
      l = (antes ++ e :: depois)%list /\
      candidato padrao e /\
      encontrar_arquivo_mais_recente diretorio padrao w
      = (Ok (Some (os_path_join diretorio (nome e))), w) /\
      (forall x, In x l -> candidato padrao x -> mtime x <= mtime e) /\
      (forall x, In x antes -> candidato padrao x -> mtime x < mtime e).
Proof.
  intros d padrao w l Hd _ Hp El (e0 & Hin0 & Hc0).
  rewrite encontrar_eq.
  rewrite (@existe_diretorio (arquivos w) d l (proj1 Hd) El).
  rewrite (@glob_glob_simples (arquivos w) d padrao Hd Hp).
  unfold listar. rewrite El.
  set (g := fun e : Entrada => (os_path_join d (nome e), e)).
  destruct (map g (filter (filtro_glob padrao) l)) as [|a resto] eqn:Ecs.
  - exfalso.
    assert (Hin : In (g e0) (map g (filter (filtro_glob padrao) l))).
    { apply in_map, filter_In. split; [exact Hin0|].
      apply (@filtro_glob_candidato padrao e0 Hp). exact Hc0. }
    rewrite Ecs in Hin. exact Hin.
  - destruct (max_por_primeiro (fun c : string * Entrada => mtime (snd c)) a resto)
      as (c1 & c2 & Ecut & Hantes & Hdepois).
    set (m := max_por (fun c : string * Entrada => mtime (snd c)) a resto) in *.
    rewrite <- Ecs in Ecut.
    destruct (@corte_do_filtro _ _ _ _ _ _ _ _ Ecut) as (la & e & lb & El' & Fe & Em & E1 & E2).
    exists la, e, lb.
    split; [exact El'|].
    split; [apply (@filtro_glob_candidato padrao e Hp); exact Fe|].
    split; [rewrite Em; reflexivity|].
    assert (Hm : mtime (snd m) = mtime e) by (rewrite Em; reflexivity).
    split.
    + intros x Hx Hcx. apply (@filtro_glob_candidato padrao x Hp) in Hcx.
      rewrite El' in Hx. apply in_app_or in Hx as [Hx|[<-|Hx]].
      * assert (Hg : In (g x) c1).
        { rewrite <- E1. apply in_map, filter_In. split; assumption. }
        specialize (Hantes _ Hg). simpl in Hantes. lia.
      * lia.
      * assert (Hg : In (g x) c2).
        { rewrite <- E2. apply in_map, filter_In. split; assumption. }
        specialize (Hdepois _ Hg). simpl in Hdepois. lia.
    + intros x Hx Hcx. apply (@filtro_glob_candidato padrao x Hp) in Hcx.
      assert (Hg : In (g x) c1).
      { rewrite <- E1. apply in_map, filter_In. split; assumption. }
      specialize (Hantes _ Hg). simpl in Hantes. lia.
Qed.

Lemma C4_mais_recente_do_diretorio_witness :
  exists e,
    candidato "secao3" e /\
    encontrar_arquivo_mais_recente "dados/brutos" "secao3" Exemplo.mundo_empate
    = (Ok (Some (os_path_join "dados/brutos" (nome e))), Exemplo.mundo_empate).
Proof.
  destruct (@C4_mais_recente_do_diretorio "dados/brutos" "secao3" Exemplo.mundo_empate
              [Exemplo.arq "b_secao3.json" 5; Exemplo.arq "a_secao3.json" 5;
               Exemplo.arq "c_secao3.json" 5; Exemplo.arq "outro.txt" 9])
    as (antes & e & depois & _ & Hc & He & _).
  - split; [discriminate|reflexivity].
  - reflexivity.
  - reflexivity.
  - reflexivity.
  - exists (Exemplo.arq "b_secao3.json" 5). split; [now left|].
    split; [reflexivity|]. exists "b_", ".json". reflexivity.
  - exists e. split; assumption.
Defined.

(** C4, the claim as stated, fails on its tie-break: three files match and
    have the same modification time; the one returned is the first the
    directory lists, which in path order is neither the least nor the
    greatest of the three. *)
Lemma C4_contraexemplo_empate :
  map (fun e => (nome e, mtime e))
    (filter (filtro_glob "secao3") (listar (arquivos Exemplo.mundo_empate) "dados/brutos"))
  = [("b_secao3.json", 5); ("a_secao3.json", 5); ("c_secao3.json", 5)] /\
  fst (encontrar_arquivo_mais_recente "dados/brutos" "secao3" Exemplo.mundo_empate)
  = Ok (Some "dados/brutos/b_secao3.json") /\
  String.ltb "dados/brutos/a_secao3.json" "dados/brutos/b_secao3.json" = true /\
  String.ltb "dados/brutos/b_secao3.json" "dados/brutos/c_secao3.json" = true.
Proof. vm_compute. repeat split. Qed.

(* ===================================================================== *)
(** ** Resuming from the process stage *)
(* ===================================================================== *)

Section Retomada.

Context `{Plataforma}.
Variable config : Config.

Lemma digito_simples n : caractere_simples (digito n) = true.
  Proof.
    unfold digito.
    assert (Hn : (Z.to_nat (n mod 10) < 10)%nat).
    { pose proof (Z.mod_pos_bound n 10 ltac:(lia)). lia. }
    destruct (Z.to_nat (n mod 10)) as [|k]; [reflexivity|].
    do 9 (destruct k as [|k]; [reflexivity|]). lia.
  Qed.

Lemma dois_digitos_simples n : padrao_simples (dois_digitos n) = true.
  Proof.
    unfold dois_digitos. cbn [padrao_simples].
    rewrite !digito_simples. reflexivity.
  Qed.

Lemma quatro_digitos_simples n : padrao_simples (quatro_digitos n) = true.
  Proof.
    unfold quatro_digitos. cbn [padrao_simples].
    rewrite !digito_simples, dois_digitos_simples. reflexivity.
  Qed.

Lemma strftime_Ymd_simples d : padrao_simples (strftime_Ymd d) = true.
  Proof.
    unfold strftime_Ymd.
    rewrite !padrao_simples_app, quatro_digitos_simples, !dois_digitos_simples.
    reflexivity.
  Qed.

Lemma padrao_bruto_simples d args :
    padrao_simples (padrao_bruto d (resolver_secao args)) = true.
  Proof.
    unfold padrao_bruto. rewrite !padrao_simples_app, strftime_Ymd_simples.
    unfold resolver_secao. destruct (arg_secao args) as [[]|]; reflexivity.
  Qed.

Lemma os_makedirs_outros d d' w :
    d' <> d -> arquivos (snd (os_makedirs d w)) d' = arquivos w d'.
  Proof.
    intros Hd. unfold os_makedirs. destruct d; [reflexivity|].
    destruct (arquivos w _); [reflexivity|]. simpl. unfold atualizar.
    destruct (String.eqb_spec d' (String a d)); [contradiction|reflexivity].
  Qed.

  (** A search that finds nothing ends the resumed run at once. *)
Lemma retomar_sem_entrada (A : Type) d padrao msg (etapa_ : string -> M A) concluido w :
    diretorio_normal d -> padrao_simples padrao = true ->
    (forall e, In e (listar (arquivos w) d) -> ~ candidato padrao e) ->
    exists aviso,
      retomar d padrao msg etapa_ concluido w
      = (Ok (Some 1), acusar msg (snd (logger WARNING aviso w))).
  Proof.
    intros Hd Hp Hnada.
    destruct (@encontrar_nada d padrao w Hd Hp Hnada) as [aviso E].
    exists aviso. unfold retomar, bind at 1. rewrite E. reflexivity.
  Qed.

  (** An early [return] inside the [try] is the exit code. *)
Lemma despachar_retorno_cedo modo data secao out w c w' :
    executar_modo config modo data secao out w = (Ok (Some c), w') ->
    despachar config modo data secao out w = (Ok c, w').
  Proof. intros E. unfold despachar, tentar, bind. rewrite E. reflexivity. Qed.

Lemma executar_modo_processamento data secao out w :
    executar_modo config Processamento data secao out w
    = retomar (os_path_join out "brutos") (padrao_bruto data secao)
        ("Nenhum arquivo bruto encontrado para " ++ strftime_Ymd data
         ++ ", Seção " ++ str_Z secao)
        (fun arquivo_bruto => executar_processamento config arquivo_bruto out)
        (fun saida => "Processamento concluído. Arquivo gerado: " ++ saida)
        (anunciar "Executando apenas a etapa de processamento" w).
  Proof. reflexivity. Qed.

Lemma executar_modo_busca data secao out w :
    executar_modo config Busca data secao out w
    = retomar (os_path_join out "csv") (padrao_da_busca data secao)
        ("Nenhum arquivo organizado encontrado para " ++ strftime_Ymd data
         ++ ", Seção " ++ str_Z secao)
        (fun arquivo_organizado => executar_indexacao config arquivo_organizado)
        (fun resultado_indexacao =>
           "Indexação concluída: " ++ str_json resultado_indexacao)
        (anunciar "Executando apenas a etapa de indexação para busca" w).
  Proof. reflexivity. Qed.

End Retomada.

(** C6. A call of [main] that resumes from the process stage, with an
    output directory whose path holds no wildcard character, when no entry
    of the raw directory has a name containing the date and section
    pattern, ends with exit code 1; the last log record is the error that
    no raw file was found; no child was run and no file written. *)
Theorem C6_processamento_sem_entrada :
  forall `{Plataforma} (config : Config) (args : Args) (roteiro : list Iteracao)
         (w : Mundo) (data : DateTime),
    modo_de_pipeline args ->
    arg_modo args = Processamento ->
    diretorio_de_saida config args <> "" ->
    has_magic (diretorio_de_saida config args) = false ->
    data_alvo args w = Some data ->
    let out := diretorio_de_saida config args in
    let secao := resolver_secao args in
    (forall e, In e (listar (arquivos w) (os_path_join out "brutos")) ->
               ~ contem (padrao_bruto data secao) (nome e)) ->
    exists w' antigos,
      main config args roteiro w = (Retornou 1, w') /\
      processos w' = processos w /\
      gravados w' = gravados w /\
      registro w' = (antigos ++ [(ERROR, ("Nenhum arquivo bruto encontrado para "
                                         ++ strftime_Ymd data ++ ", Seção "
                                         ++ str_Z secao)%string)])%list.
Proof.
  intros P config args roteiro w data Hmodo Hproc Hout _ Hdata out secao Hnada.
  destruct (@main_despacha P config args roteiro w data Hmodo Hout Hdata)
    as (w1 & (Ha & Hp & _ & Hg & _) & Emain).
  rewrite Emain, Hproc. fold out secao.
  assert (Hd : diretorio_normal (os_path_join out "brutos")).
  { apply os_path_join_normal; [exact Hout|reflexivity|reflexivity]. }
  set (w2 := anunciar "Executando apenas a etapa de processamento" w1).
  assert (Hnada2 : forall e, In e (listar (arquivos w2) (os_path_join out "brutos")) ->
                             ~ candidato (padrao_bruto data secao) e).
  { intros e He [_ Hc]. apply (Hnada e); [|exact Hc].
    unfold listar in He |- *. simpl arquivos in He. rewrite Ha in He.
    rewrite os_makedirs_outros in He; [exact He|].
    apply os_path_join_outro; [exact Hout|reflexivity]. }
  destruct (@retomar_sem_entrada string (os_path_join out "brutos")
              (padrao_bruto data secao)
              ("Nenhum arquivo bruto encontrado para " ++ strftime_Ymd data
               ++ ", Seção " ++ str_Z secao)
              (fun arquivo_bruto => executar_processamento config arquivo_bruto out)
              (fun saida => "Processamento concluído. Arquivo gerado: " ++ saida)
              w2 Hd (padrao_bruto_simples data args) Hnada2) as [aviso Er].
  rewrite (@despachar_retorno_cedo P config Processamento data secao out w1 1 _
             (eq_trans (executar_modo_processamento config data secao out w1) Er)).
  eexists _, _. split; [reflexivity|]. simpl.
  rewrite Hp, Hg, os_makedirs_processos. split; [reflexivity|].
  split; [|reflexivity].
  unfold os_makedirs. destruct (diretorio_de_saida config args); [reflexivity|].
  destruct (arquivos w _); reflexivity.
Qed.

Lemma C6_processamento_sem_entrada_witness :
  fst (@main (Exemplo.plataforma Exemplo.tudo_certo) Exemplo.config
         (Exemplo.args (Some "01-03-2024") Processamento) [] Exemplo.mundo_empate)
  = Retornou 1.
Proof.
  destruct (@C6_processamento_sem_entrada (Exemplo.plataforma Exemplo.tudo_certo)
              Exemplo.config (Exemplo.args (Some "01-03-2024") Processamento) []
              Exemplo.mundo_empate Exemplo.primeiro_de_marco)
    as (w' & antigos & E & _).
  - split; reflexivity.
  - reflexivity.
  - discriminate.
  - reflexivity.
  - reflexivity.
  - intros e He (antes & depois & Hc). simpl in He.
    destruct He as [<-|[<-|[<-|[<-|[]]]]]; simpl in Hc;
      repeat (destruct antes as [|? antes]; simpl in Hc;
              [discriminate Hc | injection Hc as _ Hc]);
      destruct antes; discriminate Hc.
  - rewrite E. reflexivity.
Defined.

(* ===================================================================== *)
(** ** The retention of status files *)
(* ===================================================================== *)

Section Ordenacao.

Lemma inserir_permutation x l : Permutation (inserir x l) (x :: l).
  Proof.
    induction l as [|y l IH]; simpl; [reflexivity|].
    destruct (mtime x <=? mtime y); [reflexivity|].
    rewrite IH. apply perm_swap.
  Qed.

Lemma ordenar_permutation l : Permutation (ordenar_por_mtime l) l.
  Proof.
    induction l as [|x l IH]; simpl; [reflexivity|].
    rewrite inserir_permutation. now rewrite IH.
  Qed.

Lemma inserir_por_idade x l : por_idade l -> por_idade (inserir x l).
  Proof.
    unfold por_idade. induction l as [|y l IH]; intros Hs; simpl.
    - constructor; constructor.
    - inversion Hs as [|? ? Hl Hy]; subst.
      destruct (Z.leb_spec (mtime x) (mtime y)) as [Hle|Hgt].
      + constructor; [exact Hs|]. constructor; [exact Hle|].
        rewrite Forall_forall in Hy |- *. intros z Hz. specialize (Hy z Hz). lia.
      + constructor; [apply IH; exact Hl|].
        rewrite Forall_forall in Hy |- *. intros z Hz.
        apply (Permutation_in _ (inserir_permutation x l)) in Hz.
        destruct Hz as [<-|Hz]; [lia|auto].
  Qed.

Lemma ordenar_por_idade l : por_idade (ordenar_por_mtime l).
  Proof.
    induction l as [|x l IH]; simpl; [constructor|].
    apply inserir_por_idade. exact IH.
  Qed.

Lemma por_idade_app l1 l2 :
    por_idade (l1 ++ l2) ->
    por_idade l1 /\ forall a b, In a l1 -> In b l2 -> mtime a <= mtime b.
  Proof.
    unfold por_idade. induction l1 as [|x l1 IH]; simpl; intros Hs.
    - split; [constructor|intros a b []].
    - inversion Hs as [|? ? Hl Hx]; subst. destruct (IH Hl) as [S1 H12].
      rewrite Forall_forall in Hx. split.
      + constructor; [exact S1|]. rewrite Forall_forall. intros z Hz.
        apply Hx. apply in_or_app. now left.
      + intros a b [<-|Ha] Hb; [apply Hx; apply in_or_app; now right|auto].
  Qed.

Lemma permutation_filter (A : Type) (f : A -> bool) l l' :
    Permutation l l' -> Permutation (filter f l) (filter f l').
  Proof.
    induction 1 as [|x l l' _ IH|x y l|l l' l'' _ IH1 _ IH2]; simpl.
    - constructor.
    - destruct (f x); [now constructor|exact IH].
    - destruct (f x), (f y); try reflexivity. apply perm_swap.
    - now rewrite IH1.
  Qed.

Lemma filter_tudo (A : Type) (f : A -> bool) l :
    (forall x, In x l -> f x = true) -> filter f l = l.
  Proof.
    induction l as [|x l IH]; simpl; intros Hf; [reflexivity|].
    rewrite (Hf x (or_introl eq_refl)). f_equal. apply IH. auto.
  Qed.

Lemma filter_nada (A : Type) (f : A -> bool) l :
    (forall x, In x l -> f x = false) -> filter f l = [].
  Proof.
    induction l as [|x l IH]; simpl; intros Hf; [reflexivity|].
    rewrite (Hf x (or_introl eq_refl)). apply IH. auto.
  Qed.

Lemma filter_filter (A : Type) (f g : A -> bool) l :
    filter g (filter f l) = filter (fun x => f x && g x) l.
  Proof.
    induction l as [|x l IH]; simpl; [reflexivity|].
    destruct (f x); simpl; [destruct (g x); now rewrite IH|exact IH].
  Qed.

Lemma tem_nome_In n l : tem_nome n l = true <-> exists e, In e l /\ nome e = n.
  Proof.
    unfold tem_nome. rewrite existsb_exists. split.
    - intros (e & He & Hn). apply String.eqb_eq in Hn. now exists e.
    - intros (e & He & Hn). exists e. split; [exact He|now apply String.eqb_eq].
  Qed.

Lemma tem_nome_membro e l : In e l -> tem_nome (nome e) l = true.
  Proof. intros He. apply tem_nome_In. now exists e. Qed.

  (** With names that are all different, a name that belongs to one part
      of a listing does not belong to the other. *)
Lemma nomes_distintos_app l1 l2 e :
    NoDup (map nome (l1 ++ l2)) -> In e l2 -> tem_nome (nome e) l1 = false.
  Proof.
    intros Hnd He. destruct (tem_nome (nome e) l1) eqn:Ht; [|reflexivity].
    exfalso. apply tem_nome_In in Ht as (x & Hx & Hn).
    rewrite map_app in Hnd. revert Hnd Hx Hn. clear -He.
    induction l1 as [|y l1 IH]; simpl; intros Hnd Hx Hn; [contradiction|].
    inversion Hnd as [|? ? Hy Hnd']; subst. destruct Hx as [->|Hx].
    - apply Hy. rewrite Hn. apply in_or_app. right. now apply in_map.
    - exact (IH Hnd' Hx Hn).
  Qed.

Lemma gravar_entrada_nomes n t c l :
    NoDup (map nome l) -> NoDup (map nome (gravar_entrada n t c l)).
  Proof.
    induction l as [|e l IH]; simpl; intros Hnd.
    - constructor; [intros []|constructor].
    - inversion Hnd as [|? ? He Hl]; subst.
      destruct (String.eqb_spec (nome e) n) as [En|En]; simpl.
      + constructor; [now rewrite <- En|exact Hl].
      + constructor; [|apply IH; exact Hl].
        intros Hin. apply in_map_iff in Hin as (x & Hx & Hin).
        assert (Hcases : x = {| nome := n; eh_arquivo := true; mtime := t;
                                conteudo := c |} \/ In x l).
        { clear -Hin. induction l as [|y l IH]; simpl in Hin.
          - destruct Hin as [<-|[]]. now left.
          - destruct (String.eqb (nome y) n); simpl in Hin.
            + destruct Hin as [<-|Hin]; [now left|right; now right].
            + destruct Hin as [<-|Hin]; [right; now left|].
              destruct (IH Hin) as [->|H]; [now left|right; now right]. }
        destruct Hcases as [->|Hxl]; simpl in Hx; [congruence|].
        apply He. rewrite <- Hx. now apply in_map.
  Qed.

Lemma nomes_do_filtro (f : Entrada -> bool) l :
    NoDup (map nome l) -> NoDup (map nome (filter f l)).
  Proof.
    induction l as [|e l IH]; simpl; intros Hnd; [constructor|].
    inversion Hnd as [|? ? He Hl]; subst.
    destruct (f e); simpl; [|apply IH; exact Hl].
    constructor; [|apply IH; exact Hl].
    intros Hin. apply He. apply in_map_iff in Hin as (x & Hx & Hin).
    apply filter_In in Hin as [Hin _]. rewrite <- Hx. now apply in_map.
  Qed.

Lemma em_primeiros (A : Type) n (l : list A) x : In x (firstn n l) -> In x l.
  Proof.
    intros Hx. rewrite <- (firstn_skipn n l). apply in_or_app. now left.
  Qed.

End Ordenacao.

Section Limpeza.

Context `{Plataforma}.
Variable config : Config.

Lemma remover_todos_efeito d xs :
    forall w cur,
      arquivos w d = Some cur ->
      exists w' rs,
        remover_todos d xs w = (Ok tt, w') /\
        arquivos w' d = Some (filter (fun e => negb (tem_nome (nome e) xs)) cur) /\
        (forall d', d' <> d -> arquivos w' d' = arquivos w d') /\
        registro w' = registro w /\ processos w' = processos w /\
        dormidas w' = dormidas w /\ gravados w' = gravados w /\
        relogio w' = relogio w /\
        removidos w' = (removidos w ++ rs)%list /\
        (forall r, In r rs -> exists x, In x xs /\ r = os_path_join d (nome x)) /\
        (NoDup (map nome xs) ->
         (forall x, In x xs -> tem_nome (nome x) cur = true) ->
         rs = map (fun x => os_path_join d (nome x)) xs).
  Proof.
    induction xs as [|x xs IH]; intros w cur Hcur.
    - exists w, []. simpl. repeat split; auto.
      + rewrite Hcur. f_equal. symmetry. apply filter_tudo. reflexivity.
      + symmetry. apply app_nil_r.
      + intros r [].
    - unfold remover_todos. simpl para_cada. unfold bind at 1, tentar at 1, os_remove at 1.
      unfold listar. rewrite Hcur.
      destruct (tem_nome (nome x) cur) eqn:Hx.
      + set (w1 := {| arquivos := atualizar (arquivos w) d
                        (filter (fun e => negb (String.eqb (nome e) (nome x))) cur) |}).
        assert (Hcur1 : arquivos w1 d
                        = Some (filter (fun e => negb (String.eqb (nome e) (nome x))) cur)).
        { simpl. unfold atualizar. now rewrite String.eqb_refl. }
        destruct (IH w1 _ Hcur1)
          as (w' & rs & E & Ha & Ho & Hr & Hp & Hd & Hg & Hc & Hrm & Hrs & Hex).
        exists w', (os_path_join d (nome x) :: rs).
        split; [exact E|]. split.
        { rewrite Ha, filter_filter. f_equal. apply filter_ext. intros e. simpl.
          rewrite negb_orb. rewrite (String.eqb_sym (nome x) (nome e)). reflexivity. }
        split.
        { intros d' Hd'. rewrite (Ho d' Hd'). simpl. unfold atualizar.
          destruct (String.eqb_spec d' d); [contradiction|reflexivity]. }
        repeat (split; [assumption|]).
        split; [rewrite Hrm; simpl; now rewrite <- app_assoc|]. split.
        { intros r [<-|Hr']; [exists x; split; [now left|reflexivity]|].
          destruct (Hrs r Hr') as (y & Hy & ->). exists y. split; [now right|reflexivity]. }
        intros Hnd Hall. inversion Hnd as [|? ? Hnx Hnd']; subst. simpl. f_equal.
        apply Hex; [exact Hnd'|]. intros y Hy.
        assert (Hin := Hall y (or_intror Hy)).
        apply tem_nome_In in Hin as (e & He & Hn). apply tem_nome_In.
        exists e. split; [|exact Hn]. apply filter_In. split; [exact He|].
        apply negb_true_iff, String.eqb_neq. rewrite Hn. intros Heq.
        apply Hnx. rewrite <- Heq. now apply in_map.
      + destruct (IH w cur Hcur)
          as (w' & rs & E & Ha & Ho & Hr & Hp & Hd & Hg & Hc & Hrm & Hrs & Hex).
        exists w', rs. split; [exact E|]. split.
        { rewrite Ha. f_equal. apply filter_ext_in. intros e He. simpl.
          destruct (String.eqb_spec (nome x) (nome e)) as [Heq|]; [|reflexivity].
          exfalso. assert (Ht : tem_nome (nome x) cur = true).
          { apply tem_nome_In. exists e. split; [exact He|now symmetry]. }
          congruence. }
        repeat (split; [assumption|]). split.
        { intros r Hr'. destruct (Hrs r Hr') as (y & Hy & ->).
          exists y. split; [now right|reflexivity]. }
        intros _ Hall. rewrite (Hall x (or_introl eq_refl)) in Hx. discriminate.
  Qed.

Lemma limpar_eq d max_arquivos w l :
    arquivos w d = Some l ->
    _limpar_arquivos_antigos d max_arquivos w
    = remover_todos d (excedentes max_arquivos l) w.
  Proof.
    intros Hl.
    destruct (@remover_todos_efeito d (excedentes max_arquivos l) w l Hl)
      as (w' & rs & E & _).
    unfold _limpar_arquivos_antigos. unfold tentar at 1, bind at 1, os_listdir.
    rewrite Hl.
    change (para_cada
              (fun e => tentar (os_remove d (nome e)) (fun _ => Some (ret tt)))
              (excedentes max_arquivos l))
      with (remover_todos d (excedentes max_arquivos l)).
    rewrite E. reflexivity.
  Qed.

Lemma excedentes_sao_arquivos max_arquivos l e :
    In e (excedentes max_arquivos l) -> In e l /\ eh_arquivo e = true.
  Proof.
    unfold excedentes. destruct (_ <=? _); [intros []|]. intros He.
    assert (Hs : In e (ordenar_por_mtime (filter eh_arquivo l))).
    { unfold fatia_sem_ultimos in He.
      destruct (0 <? max_arquivos); [now apply em_primeiros in He|].
      destruct (max_arquivos =? 0); [destruct He|now apply em_primeiros in He]. }
    apply (Permutation_in _ (ordenar_permutation _)) in Hs.
    now apply filter_In in Hs.
  Qed.

End Limpeza.

(** C5 (as amended). A cleanup pass over a directory removes regular files
    of that directory and nothing else: sub-directories, the other
    directories, the log and the other traces stay as they are, and an
    entry that stays is not altered.  Which files go is decided by their
    number and modification time alone, whoever wrote them: when there are
    more regular files than the limit, the files [arquivos[:-max]] of the
    listing sorted by age go, and when there are no more than the limit
    nothing is removed. *)
Theorem C5_limpeza_so_por_idade :
  forall `{Plataforma} (diretorio : string) (max_arquivos : Z) (w : Mundo)
         (l : list Entrada),
    arquivos w diretorio = Some l ->
    exists w' rs,
      _limpar_arquivos_antigos diretorio max_arquivos w = (Ok tt, w') /\
      arquivos w' diretorio = Some (restantes max_arquivos l) /\
      (forall d, d <> diretorio -> arquivos w' d = arquivos w d) /\
      registro w' = registro w /\ processos w' = processos w /\
      gravados w' = gravados w /\
      removidos w' = (removidos w ++ rs)%list /\
      (forall r, In r rs ->
         exists x, In x l /\ eh_arquivo x = true /\
                   In x (excedentes max_arquivos l) /\
                   r = os_path_join diretorio (nome x)) /\
      (forall e, In e (restantes max_arquivos l) -> In e l) /\
      (Z.of_nat (List.length (filter eh_arquivo l)) <= max_arquivos ->
       restantes max_arquivos l = l /\ rs = []) /\
      (NoDup (map nome l) ->
       forall e, In e l -> eh_arquivo e = false -> In e (restantes max_arquivos l)).
Proof.
  intros P d N w l Hl.
  rewrite (@limpar_eq P d N w l Hl).
  destruct (@remover_todos_efeito d (excedentes N l) w l Hl)
    as (w' & rs & E & Ha & Ho & Hr & Hp & Hd & Hg & Hc & Hrm & Hrs & Hex).
  exists w', rs. split; [exact E|]. split; [exact Ha|].
  split; [exact Ho|]. split; [exact Hr|]. split; [exact Hp|].
  split; [exact Hg|]. split; [exact Hrm|]. split.
  { intros r Hr'. destruct (Hrs r Hr') as (x & Hx & ->).
    destruct (excedentes_sao_arquivos N l x Hx) as [Hxl Hxf].
    exists x. repeat split; assumption. }
  split.
  { intros e He. unfold restantes in He. now apply filter_In in He. }
  split.
  { intros Hn. assert (Hexc : excedentes N l = []).
    { unfold excedentes. apply Z.leb_le in Hn. now rewrite Hn. }
    split.
    - unfold restantes. rewrite Hexc. apply filter_tudo. reflexivity.
    - destruct rs as [|r rs]; [reflexivity|].
      destruct (Hrs r (or_introl eq_refl)) as (x & Hx & _).
      rewrite Hexc in Hx. destruct Hx. }
  intros Hnd e He Hf. unfold restantes. apply filter_In. split; [exact He|].
  apply negb_true_iff. destruct (tem_nome (nome e) (excedentes N l)) eqn:Ht; [|reflexivity].
  exfalso. apply tem_nome_In in Ht as (x & Hx & Hn).
  destruct (excedentes_sao_arquivos N l x Hx) as [Hxl Hxf].
  assert (x = e); [|congruence].
  clear -Hnd Hxl He Hn. induction l as [|y l IH]; [destruct He|].
  simpl in Hnd. inversion Hnd as [|? ? Hy Hnd']; subst.
  destruct Hxl as [->|Hxl], He as [->|He]; auto.
  - exfalso. apply Hy. rewrite Hn. now apply in_map.
  - exfalso. apply Hy. rewrite <- Hn. now apply in_map.
Qed.

Lemma C5_limpeza_so_por_idade_witness :
  exists w',
    @_limpar_arquivos_antigos (Exemplo.plataforma Exemplo.tudo_certo)
      "dados/status" 10 Exemplo.mundo_com_nota = (Ok tt, w') /\
    gravados w' = [].
Proof.
  destruct (@C5_limpeza_so_por_idade (Exemplo.plataforma Exemplo.tudo_certo)
              "dados/status" 10 Exemplo.mundo_com_nota
              (listar (arquivos Exemplo.mundo_com_nota) "dados/status"))
    as (w' & rs & E & _ & _ & _ & _ & Hg & _).
  - reflexivity.
  - exists w'. split; [exact E|exact Hg].
Defined.

(** C5, the claim as stated, fails: the status directory holds a note the
    coordinator never wrote, older than the ten snapshots beside it; one
    cleanup pass removes exactly that note. *)
Lemma C5_contraexemplo_nota_removida :
  let P := Exemplo.plataforma Exemplo.tudo_certo in
  let w := Exemplo.mundo_com_nota in
  let w' := snd (@_limpar_arquivos_antigos P "dados/status" 10 w) in
  tem_nome "notas.txt" (listar (arquivos w) "dados/status") = true /\
  gravados w = [] /\
  tem_nome "notas.txt" (listar (arquivos w') "dados/status") = false /\
  removidos w' = ["dados/status/notas.txt"] /\
  List.length (listar (arquivos w') "dados/status") = 10%nat.
Proof. vm_compute. repeat split. Qed.

Section Retencao.

Context `{Plataforma}.
Variable config : Config.

  (** A cycle's snapshot: the file is written, then the directory is
      cleaned with limit 10. *)
Lemma salvar_status_eq agentes w l :
    arquivos w (status_dir config) = Some l ->
    _salvar_status config agentes w
    = _limpar_arquivos_antigos (status_dir config) 10
        {| arquivos := atualizar (arquivos w) (status_dir config)
                         (gravar_entrada (nome_do_status w) (relogio w)
                            (DocStatus (status_do_ciclo agentes w)) l);
           registro := registro w; processos := processos w;
           dormidas := dormidas w;
           gravados := (gravados w
                        ++ [os_path_join (status_dir config) (nome_do_status w)])%list;
           removidos := removidos w; relogio := relogio w |}.
  Proof.
    intros Hl.
    set (l1 := gravar_entrada (nome_do_status w) (relogio w)
                 (DocStatus (status_do_ciclo agentes w)) l).
    set (w1 := {| arquivos := atualizar (arquivos w) (status_dir config) l1 |}).
    assert (Hw1 : arquivos w1 (status_dir config) = Some l1).
    { simpl. unfold atualizar. now rewrite String.eqb_refl. }
    rewrite (@limpar_eq _ (status_dir config) 10 w1 l1 Hw1).
    destruct (@remover_todos_efeito (status_dir config) (excedentes 10 l1) w1 l1 Hw1)
      as (w' & rs & E & _).
    rewrite E.
    rewrite <- (@limpar_eq _ (status_dir config) 10 w1 l1 Hw1) in E.
    unfold _salvar_status.
    unfold tentar at 1, bind at 1, datetime_now at 1.
    unfold bind at 1, ler_mundo.
    unfold bind at 1, datetime_now.
    unfold bind at 1, gravar_arquivo. rewrite Hl.
    fold (nome_do_status w). fold (status_do_ciclo agentes w). fold l1. fold w1.
    rewrite E. reflexivity.
  Qed.

Lemma excedentes_10 l :
    excedentes 10 l
    = firstn (List.length (filter eh_arquivo l) - 10)
        (ordenar_por_mtime (filter eh_arquivo l)).
  Proof.
    unfold excedentes, fatia_sem_ultimos. simpl (0 <? 10).
    rewrite (Permutation_length (ordenar_permutation (filter eh_arquivo l))).
    destruct (Z.leb_spec (Z.of_nat (List.length (filter eh_arquivo l))) 10) as [Hle|Hgt].
    - replace (List.length (filter eh_arquivo l) - 10)%nat with 0%nat by lia.
      reflexivity.
    - reflexivity.
  Qed.

End Retencao.

(** C7. A monitor cycle that persists its snapshot (the status directory
    exists) leaves at most 10 regular files in the status directory:
    exactly the 10 most recently modified of the files present once the
    snapshot is written, or all of them if they are fewer.  The files are
    removed oldest first, and no removed file is more recent than a file
    that stays. *)
Theorem C7_retencao_dos_mais_recentes :
  forall `{Plataforma} (config : Config) (agentes : list (string * string))
         (w : Mundo) (l : list Entrada),
    arquivos w (status_dir config) = Some l ->
    NoDup (map nome l) ->
    let sd := status_dir config in
    let l1 := gravar_entrada (nome_do_status w) (relogio w)
                (DocStatus (status_do_ciclo agentes w)) l in
    let ordenados := ordenar_por_mtime (filter eh_arquivo l1) in
    let k := (List.length (filter eh_arquivo l1) - 10)%nat in
    exists w' l',
      _salvar_status config agentes w = (Ok tt, w') /\
      gravados w' = (gravados w ++ [os_path_join sd (nome_do_status w)])%list /\
      arquivos w' sd = Some l' /\
      (List.length (filter eh_arquivo l') <= 10)%nat /\
      Permutation (filter eh_arquivo l') (skipn k ordenados) /\
      removidos w'
      = (removidos w ++ map (fun e => os_path_join sd (nome e)) (firstn k ordenados))%list /\
      por_idade (firstn k ordenados) /\
      (forall r m, In r (firstn k ordenados) -> In m (filter eh_arquivo l') ->
                   mtime r <= mtime m).
Proof.
  intros P config agentes w l Hl Hnd sd l1 ordenados k.
  rewrite (@salvar_status_eq P config agentes w l Hl).
  fold sd l1.
  set (w1 := {| arquivos := atualizar (arquivos w) sd l1 |}).
  assert (Hw1 : arquivos w1 sd = Some l1).
  { simpl. unfold atualizar. now rewrite String.eqb_refl. }
  rewrite (@limpar_eq P sd 10 w1 l1 Hw1).
  destruct (@remover_todos_efeito sd (excedentes 10 l1) w1 l1 Hw1)
    as (w' & rs & E & Ha & _ & _ & _ & _ & Hg & _ & Hrm & _ & Hex).
  rewrite excedentes_10 in E, Ha, Hex |- *. fold ordenados k in E, Ha, Hex |- *.
  assert (Hnd1 : NoDup (map nome l1)) by (apply gravar_entrada_nomes; exact Hnd).
  assert (Hperm : Permutation ordenados (filter eh_arquivo l1))
    by apply ordenar_permutation.
  assert (Hndo : NoDup (map nome (firstn k ordenados ++ skipn k ordenados))).
  { rewrite firstn_skipn. apply (Permutation_NoDup (l := map nome (filter eh_arquivo l1))).
    - apply Permutation_map. symmetry. exact Hperm.
    - apply nomes_do_filtro. exact Hnd1. }
  assert (Hsort : por_idade (firstn k ordenados ++ skipn k ordenados)).
  { rewrite firstn_skipn. apply ordenar_por_idade. }
  destruct (por_idade_app _ _ Hsort) as [Hs1 Hs12].
  set (p := fun e : Entrada => negb (tem_nome (nome e) (firstn k ordenados))) in *.
  assert (Hfiles : Permutation (filter eh_arquivo (filter p l1)) (skipn k ordenados)).
  { rewrite filter_filter.
    rewrite (filter_ext (fun x => p x && eh_arquivo x) (fun x => eh_arquivo x && p x))
      by (intros; apply andb_comm).
    rewrite <- filter_filter.
    rewrite (permutation_filter p (Permutation_sym Hperm)).
    rewrite <- (firstn_skipn k ordenados) at 1. rewrite filter_app.
    rewrite filter_nada, filter_tudo; [reflexivity| |].
    - intros x Hx. unfold p. apply negb_true_iff.
      apply (nomes_distintos_app _ _ _ Hndo Hx).
    - intros x Hx. unfold p. apply negb_false_iff. apply tem_nome_membro. exact Hx. }
  exists w', (filter p l1).
  split; [exact E|]. split; [exact Hg|]. split; [exact Ha|]. split.
  { rewrite (Permutation_length Hfiles), length_skipn.
    rewrite (Permutation_length Hperm). unfold k. lia. }
  split; [exact Hfiles|]. split.
  { rewrite Hrm. f_equal. apply Hex.
    - rewrite map_app in Hndo. exact (NoDup_app_remove_r _ _ Hndo).
    - intros x Hx. apply tem_nome_membro.
      apply em_primeiros in Hx. apply (Permutation_in _ Hperm) in Hx.
      now apply filter_In in Hx. }
  split; [exact Hs1|].
  intros r m Hr Hm. apply Hs12; [exact Hr|].
  apply (Permutation_in _ Hfiles). exact Hm.
Qed.

Lemma C7_retencao_dos_mais_recentes_witness :
  exists w',
    @_salvar_status (Exemplo.plataforma Exemplo.tudo_certo) Exemplo.config []
      Exemplo.mundo_com_nota = (Ok tt, w') /\
    removidos w' = ["dados/status/notas.txt"; "dados/status/status_101.json"].
Proof.
  destruct (@C7_retencao_dos_mais_recentes (Exemplo.plataforma Exemplo.tudo_certo)
              Exemplo.config [] Exemplo.mundo_com_nota
              (listar (arquivos Exemplo.mundo_com_nota) "dados/status"))
    as (w' & l' & E & _ & _ & _ & _ & Hrm & _).
  - reflexivity.
  - vm_compute. repeat (constructor; [simpl; intuition discriminate|]). constructor.
  - exists w'. split; [exact E|]. rewrite Hrm. vm_compute. reflexivity.
Defined.

(* ===================================================================== *)
(** ** The monitor loop *)
(* ===================================================================== *)

Section Laco.

Context `{Plataforma}.
Variable config : Config.

Lemma ler_flag_sem_parada it k flag : parada it = None -> ler_flag it k flag = flag.
  Proof. intros Hp. unfold ler_flag. now rewrite Hp. Qed.

Lemma aguardar_sem_parada it n :
    parada it = None ->
    forall k st, executando st = true -> executando (aguardar it k n st) = true.
  Proof.
    intros Hp. induction n as [|n IH]; intros k st Hst; simpl; [exact Hst|].
    rewrite (ler_flag_sem_parada it k _ Hp), Hst. apply IH. reflexivity.
  Qed.

  (** A pass nobody interrupts leaves the flag up, whether its body raised
      or not. *)
Lemma iteracao_sem_parada it intervalo w :
    parada it = None ->
    executando (fim_da_iteracao it
                  (iteracao config it intervalo {| mundo := w; executando := true |}))
    = true.
  Proof.
    intros Hp. unfold fim_da_iteracao. rewrite Hp. simpl executando at 1.
    unfold iteracao. simpl mundo. destruct (passos config it w) as [[u|e] w1].
    - apply aguardar_sem_parada; [exact Hp|reflexivity].
    - reflexivity.
  Qed.

Lemma loop_sem_parada roteiro intervalo :
    sem_parada roteiro ->
    forall st, executando st = true ->
    exists st', _loop_monitoramento config roteiro intervalo st = Rodando st' /\
                executando st' = true.
  Proof.
    induction roteiro as [|it r IH]; intros Hsp st Hst; simpl.
    - rewrite Hst. now exists st.
    - assert (Hp : parada it = None) by (apply Hsp; now left).
      rewrite (ler_flag_sem_parada it 0 _ Hp), Hst.
      apply IH; [intros x Hx; apply Hsp; now right|].
      apply iteracao_sem_parada. exact Hp.
  Qed.

Lemma loop_termina roteiro intervalo :
    forall st st',
      _loop_monitoramento config roteiro intervalo st = Terminou st' ->
      executando st' = false /\
      (executando st = false \/ exists it, In it roteiro /\ parada it <> None).
  Proof.
    induction roteiro as [|it r IH]; intros st st'; simpl.
    - destruct (executando st) eqn:Hst; [discriminate|].
      intros [= <-]. split; [exact Hst|now left].
    - destruct (ler_flag it 0 (executando st)) eqn:Hf.
      + intros Hl. destruct (IH _ _ Hl) as [Hfim [Hantes|(x & Hx & Hpx)]].
        * split; [exact Hfim|]. right. exists it. split; [now left|].
          intros Hp. rewrite (iteracao_sem_parada it intervalo (mundo st) Hp) in Hantes.
          discriminate.
        * split; [exact Hfim|]. right. exists x. split; [now right|exact Hpx].
      + intros [= <-]. split; [reflexivity|].
        unfold ler_flag in Hf. destruct (parada it) as [k|] eqn:Hp.
        * right. exists it. split; [now left|]. rewrite Hp. discriminate.
        * now left.
  Qed.

End Laco.



(* ===================================================================== *)
(** ** Resuming from the index stage *)
(* ===================================================================== *)

Section RetomadaDaBusca.

Context `{Plataforma}.
Variable config : Config.

Lemma padrao_da_busca_simples d args :
    padrao_simples (padrao_da_busca d (resolver_secao args)) = true.
  Proof.
    unfold padrao_da_busca.
    rewrite padrao_simples_app, (@padrao_bruto_simples d args). reflexivity.
  Qed.

  (** A name the organizer writes is too short to hold the pattern the
      resumed index stage looks for. *)
Lemma nome_organizado_nao_casa base formato :
    (String.length formato < 10)%nat ->
    ~ contem ("processado_" ++ base) (base ++ "." ++ formato).
  Proof.
    intros Hf (antes & depois & E).
    apply (f_equal String.length) in E.
    rewrite ?length_app_string in E. simpl in E.
    rewrite ?length_app_string in E. lia.
  Qed.

End RetomadaDaBusca.

(** C3 (where the code departs from it). A call of [main] that resumes from
    the index stage looks in the [csv] directory for a name containing
    [processado_] followed by date and section.  The organize stage names
    its files by date and section without that prefix, so when the [csv]
    directory holds only files so named the call finds nothing: it
    ends with exit code 1 and the indexer is never run. *)
Theorem C3_busca_nao_encontra_o_organizado :
  forall `{Plataforma} (config : Config) (args : Args) (roteiro : list Iteracao)
         (w : Mundo) (data : DateTime),
    modo_de_pipeline args ->
    arg_modo args = Busca ->
    diretorio_de_saida config args <> "" ->
    data_alvo args w = Some data ->
    let out := diretorio_de_saida config args in
    let secao := resolver_secao args in
    (forall e, In e (listar (arquivos w) (os_path_join out "csv")) ->
       exists formato,
         (String.length formato < 10)%nat /\
         nome e = padrao_bruto data secao ++ "." ++ formato) ->
    exists w' antigos,
      main config args roteiro w = (Retornou 1, w') /\
      processos w' = processos w /\
      registro w' = (antigos ++ [(ERROR, ("Nenhum arquivo organizado encontrado para "
                                         ++ strftime_Ymd data ++ ", Seção "
                                         ++ str_Z secao)%string)])%list.
Proof.
  intros P config args roteiro w data Hmodo Hbusca Hout Hdata out secao Hnomes.
  destruct (@main_despacha P config args roteiro w data Hmodo Hout Hdata)
    as (w1 & (Ha & Hp & _ & Hg & _) & Emain).
  rewrite Emain, Hbusca. fold out secao.
  assert (Hd : diretorio_normal (os_path_join out "csv")).
  { apply os_path_join_normal; [exact Hout|reflexivity|reflexivity]. }
  set (w2 := anunciar "Executando apenas a etapa de indexação para busca" w1).
  assert (Hnada : forall e, In e (listar (arquivos w2) (os_path_join out "csv")) ->
                            ~ candidato (padrao_da_busca data secao) e).
  { intros e He [_ Hc].
    unfold listar in He. simpl arquivos in He. rewrite Ha in He.
    rewrite os_makedirs_outros in He
      by (apply os_path_join_outro; [exact Hout|reflexivity]).
    destruct (Hnomes e He) as (formato & Hf & Hn). rewrite Hn in Hc.
    exact (nome_organizado_nao_casa _ Hf Hc). }
  destruct (@retomar_sem_entrada Json (os_path_join out "csv")
              (padrao_da_busca data secao)
              ("Nenhum arquivo organizado encontrado para " ++ strftime_Ymd data
               ++ ", Seção " ++ str_Z secao)
              (fun arquivo_organizado => executar_indexacao config arquivo_organizado)
              (fun resultado_indexacao =>
                 "Indexação concluída: " ++ str_json resultado_indexacao)
              w2 Hd (padrao_da_busca_simples data args) Hnada) as [aviso Er].
  rewrite (@despachar_retorno_cedo P config Busca data secao out w1 1 _
             (eq_trans (executar_modo_busca config data secao out w1) Er)).
  eexists _, _. split; [reflexivity|]. simpl.
  rewrite Hp, os_makedirs_processos. split; reflexivity.
Qed.

Lemma C3_busca_nao_encontra_o_organizado_witness :
  map nome (listar (arquivos Exemplo.mundo_apos_run) "dados/csv")
  = ["2024-03-01_secao3.csv"] /\
  fst (@main (Exemplo.plataforma Exemplo.tudo_certo) Exemplo.config
         (Exemplo.args (Some "01-03-2024") Busca) [] Exemplo.mundo_apos_run)
  = Retornou 1.
Proof.
  assert (Hl : listar (arquivos Exemplo.mundo_apos_run) "dados/csv"
               = [Exemplo.arq "2024-03-01_secao3.csv" 1709337600])
    by (vm_compute; reflexivity).
  split; [rewrite Hl; reflexivity|].
  destruct (@C3_busca_nao_encontra_o_organizado
              (Exemplo.plataforma Exemplo.tudo_certo) Exemplo.config
              (Exemplo.args (Some "01-03-2024") Busca) [] Exemplo.mundo_apos_run
              Exemplo.primeiro_de_marco)
    as (w' & antigos & E & _).
  - split; reflexivity.
  - reflexivity.
  - discriminate.
  - reflexivity.
  - intros e He.
    change (In e (listar (arquivos Exemplo.mundo_apos_run) "dados/csv")) in He.
    rewrite Hl in He. destruct He as [<-|[]].
    exists "csv". split; [simpl; lia|reflexivity].
  - rewrite E. reflexivity.
Defined.

(** The same run, evaluated: after a complete run for 1 March 2024,
    section 3, the organized file is there under the name the organize
    stage gave it; resuming from the index stage ends with exit code 1 and
    runs no child, while resuming from the organize stage, which looks for
    the prefix in the directory where it is used, finds its input. *)
Lemma C3_retomadas_avaliadas :
  let P := Exemplo.plataforma Exemplo.tudo_certo in
  let w := Exemplo.mundo_apos_run in
  let busca := @main P Exemplo.config (Exemplo.args (Some "01-03-2024") Busca) [] w in
  let organizacao :=
    @main P Exemplo.config (Exemplo.args (Some "01-03-2024") Organizacao) [] w in
  nome_organizado "dados/processados/processado_2024-03-01_secao3.json"
  = "2024-03-01_secao3" /\
  map nome (listar (arquivos w) "dados/csv") = ["2024-03-01_secao3.csv"] /\
  fst busca = Retornou 1 /\
  processos (snd busca) = processos w /\
  last (registro (snd busca)) (INFO, "")
  = (ERROR, "Nenhum arquivo organizado encontrado para 2024-03-01, Seção 3") /\
  fst organizacao = Retornou 0 /\
  Exemplo.filhos (snd organizacao)
  = (Exemplo.filhos w ++ [("organizador.main", 0)])%list.
Proof. vm_compute. repeat split. Qed.

(* ===================================================================== *)
(** * Further properties of the coordinator *)
(* ===================================================================== *)

(** ** Directories that are there *)

Section Presenca.

Lemma algum_nao_nenhum (A : Type) (o : option A) x : o = Some x -> o <> None.
  Proof. intros -> E. discriminate E. Qed.

Lemma os_makedirs_presente w d :
    diretorio_presente w d -> os_makedirs d w = (Ok tt, w).
  Proof.
    intros [Hd Ha]. unfold os_makedirs. destruct d as [|c r]; [contradiction|].
    destruct (arquivos w (String c r)); [reflexivity|contradiction].
  Qed.

End Presenca.

(** ** Probing the agents *)

Section Sondas.

Context `{Plataforma}.

Lemma sondar_eq modulo w :
    sondar modulo w
    = (Ok (disponibilidade (fst (filho (cmd_sonda modulo) w))),
       {| arquivos := snd (filho (cmd_sonda modulo) w); registro := registro w;
          processos := (processos w
                        ++ [(cmd_sonda modulo, fst (filho (cmd_sonda modulo) w))])%list;
          dormidas := dormidas w; gravados := gravados w;
          removidos := removidos w; relogio := relogio w |}).
  Proof.
    unfold sondar, tentar, bind, subprocess_run, cmd_sonda, disponibilidade, ret.
    destruct (filho _ w) as [p fs]. cbn [fst snd].
    destruct (returncode p =? 0); reflexivity.
  Qed.

Lemma verificar_status_resumo w :
    exists p1 p2 p3 p4 w',
      verificar_status_agentes w
      = (Ok [("coletor", disponibilidade p1); ("processador", disponibilidade p2);
             ("organizador", disponibilidade p3); ("busca", disponibilidade p4)], w') /\
      processos w'
      = (processos w ++ [(cmd_sonda "coletor.main", p1);
                         (cmd_sonda "processador.main", p2);
                         (cmd_sonda "organizador.main", p3);
                         (cmd_sonda "busca.main", p4)])%list /\
      registro w' = registro w /\ gravados w' = gravados w /\
      removidos w' = removidos w /\ dormidas w' = dormidas w /\
      relogio w' = relogio w.
  Proof.
    unfold verificar_status_agentes, bind.
    rewrite sondar_eq. rewrite sondar_eq. rewrite sondar_eq. rewrite sondar_eq.
    unfold ret. eexists _, _, _, _, _. split; [reflexivity|].
    cbn [processos registro gravados removidos dormidas relogio].
    rewrite <- !app_assoc. repeat split; reflexivity.
  Qed.

End Sondas.

(** X1.  [verificar_status_agentes] never raises.  It runs exactly four
    children, the modules of the collector, the processor, the organizer
    and the search agent with [--help], in this order, and returns the four
    entries in the same order, each one available exactly when its child
    returned 0.  It writes no log record, writes and removes no file and
    does not sleep. *)
Theorem X1_sondas_dos_quatro_agentes :
  forall `{Plataforma} (w : Mundo),
  exists p1 p2 p3 p4 w',
    verificar_status_agentes w
    = (Ok [("coletor", disponibilidade p1); ("processador", disponibilidade p2);
           ("organizador", disponibilidade p3); ("busca", disponibilidade p4)], w') /\
    processos w'
    = (processos w ++ [(cmd_sonda "coletor.main", p1);
                       (cmd_sonda "processador.main", p2);
                       (cmd_sonda "organizador.main", p3);
                       (cmd_sonda "busca.main", p4)])%list /\
    registro w' = registro w /\ gravados w' = gravados w /\
    removidos w' = removidos w /\ dormidas w' = dormidas w.
Proof.
  intros P w.
  destruct (verificar_status_resumo w)
    as (p1 & p2 & p3 & p4 & w' & E & Hp & Hreg & Hg & Hr & Hd & _).
  exists p1, p2, p3, p4, w'. repeat split; assumption.
Qed.

(* --------------------------------------------------------------------- *)
(** ** What [main] returns *)
(* --------------------------------------------------------------------- *)

Section CodigosDeSaida.

Context `{Plataforma}.
Variable config : Config.

Lemma retomar_codigo (A : Type) d padrao msg (etapa_ : string -> M A) concluido w c w' :
    retomar d padrao msg etapa_ concluido w = (Ok (Some c), w') -> c = 1.
  Proof.
    unfold retomar, bind.
    destruct (encontrar_arquivo_mais_recente d padrao w) as [[[a|]|e] w1];
      [| |discriminate].
    - destruct (etapa_ a w1) as [[s|e] w2]; [|discriminate].
      unfold logger, ret. intros E. discriminate.
    - unfold logger, ret. intros E. injection E as E _. symmetry. exact E.
  Qed.

Lemma executar_modo_codigo modo data secao out w c w' :
    executar_modo config modo data secao out w = (Ok (Some c), w') -> c = 1.
  Proof.
    destruct modo; cbn [executar_modo].
    - unfold bind at 1.
      destruct (fluxo_completo config data secao out w) as [[u|e] w1]; discriminate.
    - unfold bind at 1. rewrite logger_ok. unfold bind at 1.
      destruct (executar_coleta _ _ _ _ _) as [[a|e] w1]; [|discriminate].
      unfold bind. rewrite logger_ok. discriminate.
    - unfold bind at 1. rewrite logger_ok. apply retomar_codigo.
    - unfold bind at 1. rewrite logger_ok. apply retomar_codigo.
    - unfold bind at 1. rewrite logger_ok. apply retomar_codigo.
    - discriminate.
  Qed.

Lemma despachar_codigo modo data secao out w :
    exists c w', despachar config modo data secao out w = (Ok c, w') /\ (c = 0 \/ c = 1).
  Proof.
    unfold despachar, tentar, bind.
    destruct (executar_modo config modo data secao out w) as [[[c|]|e] w1] eqn:E.
    - apply executar_modo_codigo in E. subst c.
      eexists _, _. split; [reflexivity|]. right. reflexivity.
    - rewrite logger_ok. eexists _, _. split; [reflexivity|]. left. reflexivity.
    - rewrite logger_ok. eexists _, _. split; [reflexivity|]. right. reflexivity.
  Qed.

Lemma pipeline_codigo args out w :
    exists c w', pipeline config args out w = (Ok c, w') /\ (c = 0 \/ c = 1).
  Proof.
    unfold pipeline, bind. rewrite resolver_data_ok.
    destruct (data_alvo args w) as [data|].
    - rewrite logger_ok. apply despachar_codigo.
    - eexists _, _. split; [reflexivity|]. right. reflexivity.
  Qed.

Lemma status_dir_nao_vazio : status_dir config <> "".
  Proof. unfold status_dir. apply os_path_join_nao_vazio. discriminate. Qed.

End CodigosDeSaida.

(** X2.  In a pipeline mode, with an output directory that is there,
    [main] always returns, and with exit code 0 or 1: no exception of a
    stage leaves it, whatever the workers do. *)
Theorem X2_main_retorna_zero_ou_um :
  forall `{Plataforma} (config : Config) (args : Args) (roteiro : list Iteracao)
         (w : Mundo),
    modo_de_pipeline args ->
    diretorio_presente w (diretorio_de_saida config args) ->
    exists c w',
      main config args roteiro w = (Retornou c, w') /\ (c = 0 \/ c = 1).
Proof.
  intros P config args roteiro w [Hm Hmodo] Hout. unfold main.
  rewrite (os_makedirs_presente Hout). rewrite Hm, Hmodo. cbn [orb].
  destruct (pipeline_codigo config args (diretorio_de_saida config args) w)
    as (c & w' & E & Hc).
  rewrite E. exists c, w'. split; [reflexivity|exact Hc].
Qed.

Lemma X2_main_retorna_zero_ou_um_witness :
  exists c w',
    @main (Exemplo.plataforma Exemplo.coletor_falha) Exemplo.config
      (Exemplo.args (Some "01-03-2024") Completo) [] Exemplo2.mundo_com_saida
    = (Retornou c, w') /\ (c = 0 \/ c = 1).
Proof.
  apply (@X2_main_retorna_zero_ou_um (Exemplo.plataforma Exemplo.coletor_falha)
           Exemplo.config (Exemplo.args (Some "01-03-2024") Completo) []
           Exemplo2.mundo_com_saida).
  - split; reflexivity.
  - split; [discriminate|]. eapply algum_nao_nenhum. vm_compute. reflexivity.
Defined.

(** X3.  In a pipeline mode, with an output directory that is there, a
    [--data] of ASCII characters that [strptime] refuses ends [main] with
    exit code 1 right after the error record: no stage is looked at, so no
    child runs and no file is written. *)
Theorem X3_data_invalida :
  forall `{Plataforma} (config : Config) (args : Args) (roteiro : list Iteracao)
         (w : Mundo) (texto : string),
    modo_de_pipeline args ->
    diretorio_presente w (diretorio_de_saida config args) ->
    arg_data args = Some texto ->
    texto <> "" ->
    so_ascii texto = true ->
    strptime_dmY texto = None ->
    main config args roteiro w
    = (Retornou 1,
       acusar ("Formato de data inválido: " ++ texto ++ ". Use o formato DD-MM-AAAA.")
         w).
Proof.
  intros P config args roteiro w texto [Hm Hmodo] Hout Hd Hne _ Hs.
  unfold main. rewrite (os_makedirs_presente Hout). rewrite Hm, Hmodo. cbn [orb].
  unfold pipeline, bind, resolver_data. rewrite Hd. unfold texto_presente.
  destruct (String.eqb texto "") eqn:Ee.
  - apply String.eqb_eq in Ee. contradiction.
  - rewrite Hs. unfold bind. rewrite logger_ok. reflexivity.
Qed.

Lemma X3_data_invalida_witness :
  @main (Exemplo.plataforma Exemplo.tudo_certo) Exemplo.config
    (Exemplo.args (Some "31-02-2024") Completo) [] Exemplo2.mundo_com_saida
  = (Retornou 1,
     acusar "Formato de data inválido: 31-02-2024. Use o formato DD-MM-AAAA."
       Exemplo2.mundo_com_saida).
Proof.
  apply (@X3_data_invalida (Exemplo.plataforma Exemplo.tudo_certo)
           Exemplo.config (Exemplo.args (Some "31-02-2024") Completo) []
           Exemplo2.mundo_com_saida "31-02-2024").
  - split; reflexivity.
  - split; [discriminate|]. eapply algum_nao_nenhum. vm_compute. reflexivity.
  - reflexivity.
  - discriminate.
  - reflexivity.
  - reflexivity.
Defined.

(** X4.  With [--monitor], or in the mode [monitor], and with the output
    directory and the status directory there, [main] never works on a
    date: whatever [--data] holds, it returns 0 or is still monitoring,
    it is still monitoring whenever nobody asks the monitor to stop, and
    it returns 0 only after such a request. *)
Theorem X4_monitor_tem_precedencia :
  forall `{Plataforma} (config : Config) (args : Args) (roteiro : list Iteracao)
         (w : Mundo),
    arg_monitor args = true \/ arg_modo args = ModoMonitor ->
    diretorio_presente w (diretorio_de_saida config args) ->
    diretorio_presente w (status_dir config) ->
    (fst (main config args roteiro w) = Retornou 0 \/
     fst (main config args roteiro w) = Bloqueado) /\
    (sem_parada roteiro -> fst (main config args roteiro w) = Bloqueado) /\
    (fst (main config args roteiro w) = Retornou 0 ->
     exists it, In it roteiro /\ parada it <> None).
Proof.
  intros P config args roteiro w Hmon Hout Hst. unfold main.
  rewrite (os_makedirs_presente Hout).
  assert (Hb : arg_monitor args || eh_modo_monitor (arg_modo args) = true).
  { destruct Hmon as [Hm|Hm]; rewrite Hm; [reflexivity|apply orb_true_r]. }
  rewrite Hb. unfold Monitor.init.
  assert (Hst2 : diretorio_presente
                   (snd (logger INFO
                           "Iniciando Agente Coordenador em modo de monitoramento" w))
                   (status_dir config)).
  { exact Hst. }
  rewrite (os_makedirs_presente Hst2).
  unfold iniciar. cbn [executando mundo].
  set (n := if arg_intervalo args =? 0 then _ else _).
  set (st0 := {| mundo := _; executando := true |}).
  destruct (_loop_monitoramento config roteiro n st0) as [st'|st'] eqn:El.
  - cbn [fst]. split; [left; reflexivity|]. split.
    + intros Hs.
      destruct (@loop_sem_parada P config roteiro n Hs st0 eq_refl) as (st2 & E2 & _).
      rewrite El in E2. discriminate.
    + intros _. destruct (@loop_termina P config roteiro n st0 st' El) as [_ [Hf|Hex]].
      * discriminate.
      * exact Hex.
  - cbn [fst]. split; [right; reflexivity|]. split; [reflexivity|discriminate].
Qed.

Lemma X4_monitor_tem_precedencia_witness :
  fst (@main (Exemplo.plataforma Exemplo.tudo_certo) Exemplo.config
         {| arg_data := Some "31-02-2024"; arg_secao := None; arg_modo := Completo;
            arg_monitor := true; arg_intervalo := 2; arg_output_dir := None |}
         [{| falha := None; parada := None |}] Exemplo2.mundo_monitorado)
  = Bloqueado.
Proof.
  apply (@X4_monitor_tem_precedencia (Exemplo.plataforma Exemplo.tudo_certo)
           Exemplo.config
           {| arg_data := Some "31-02-2024"; arg_secao := None; arg_modo := Completo;
              arg_monitor := true; arg_intervalo := 2; arg_output_dir := None |}
           [{| falha := None; parada := None |}] Exemplo2.mundo_monitorado).
  - left. reflexivity.
  - split; [discriminate|]. eapply algum_nao_nenhum. vm_compute. reflexivity.
  - split; [discriminate|]. eapply algum_nao_nenhum. vm_compute. reflexivity.
  - intros it [Hi|[]]. subst it. reflexivity.
Defined.

(* --------------------------------------------------------------------- *)
(** ** The input resolver and the output of a stage *)
(* --------------------------------------------------------------------- *)

Section SaidaDasEtapas.

Context `{Plataforma}.
Variable config : Config.

Lemma encontrar_arquivos d padrao w :
    arquivos (snd (encontrar_arquivo_mais_recente d padrao w)) = arquivos w.
  Proof.
    rewrite encontrar_eq. destruct (existe (arquivos w) d); [|reflexivity].
    destruct (glob_glob _ _); reflexivity.
  Qed.

Lemma encontrar_achado d padrao w x :
    diretorio_normal d -> padrao_simples padrao = true ->
    fst (encontrar_arquivo_mais_recente d padrao w) = Ok (Some x) ->
    exists e, In e (listar (arquivos w) d) /\ candidato padrao e /\
              x = os_path_join d (nome e).
  Proof.
    intros Hd Hp. rewrite encontrar_eq.
    destruct (existe (arquivos w) d); [|discriminate].
    rewrite (@glob_glob_simples (arquivos w) d padrao Hd Hp).
    destruct (map _ _) as [|a resto] eqn:Em; [discriminate|].
    cbn [fst]. intros E. injection E as E.
    destruct (@max_por_primeiro _ (fun c : string * Entrada => mtime (snd c)) a resto)
      as (l1 & l2 & El & _).
    assert (Hin : In (max_por (fun c : string * Entrada => mtime (snd c)) a resto)
                    (a :: resto)).
    { rewrite El. apply in_or_app. right. left. reflexivity. }
    rewrite <- Em in Hin. apply in_map_iff in Hin. destruct Hin as (e & Ee & Hin).
    apply filter_In in Hin. destruct Hin as [Hin Hf].
    exists e. split; [exact Hin|]. split.
    - apply (proj1 (@filtro_glob_candidato padrao e Hp)). exact Hf.
    - rewrite <- E, <- Ee. reflexivity.
  Qed.

Lemma encontrar_algum d padrao w e :
    diretorio_normal d -> padrao_simples padrao = true ->
    In e (listar (arquivos w) d) -> candidato padrao e ->
    exists x, encontrar_arquivo_mais_recente d padrao w = (Ok (Some x), w).
  Proof.
    intros Hd Hp Hin Hc. rewrite encontrar_eq.
    assert (Hex : existe (arquivos w) d = true).
    { unfold listar in Hin. destruct (arquivos w d) as [l|] eqn:El; [|contradiction].
      exact (@existe_diretorio (arquivos w) d l (proj1 Hd) El). }
    rewrite Hex. rewrite (@glob_glob_simples (arquivos w) d padrao Hd Hp).
    destruct (map _ _) as [|a resto] eqn:Em.
    - exfalso.
      assert (Hf : In e (filter (filtro_glob padrao) (listar (arquivos w) d))).
      { apply filter_In. split; [exact Hin|].
        apply (proj2 (@filtro_glob_candidato padrao e Hp)). exact Hc. }
      apply (in_map (fun e0 => (os_path_join d (nome e0), e0))) in Hf.
      rewrite Em in Hf. contradiction.
    - eexists. reflexivity.
  Qed.

Lemma conferir_saida_eq a d padrao msg w :
    conferir_saida a d padrao msg w
    = if existe (arquivos w) a then (Ok a, w)
      else match encontrar_arquivo_mais_recente d padrao
                   (snd (logger WARNING ("Arquivo de saída não encontrado: " ++ a) w)) with
           | (Ok (Some x), w') => (Ok x, w')
           | (Ok None, w') => (Levantou (FileNotFoundError msg), w')
           | (Levantou e, w') => (Levantou e, w')
           end.
  Proof.
    unfold conferir_saida, bind at 1, os_path_exists.
    destruct (existe (arquivos w) a); cbn [negb]; [reflexivity|].
    unfold bind at 1. rewrite logger_ok. unfold bind.
    destruct (encontrar_arquivo_mais_recente _ _ _) as [[[x|]|e] w']; reflexivity.
  Qed.

  (** What the part of a stage after its child gives. *)
Lemma apos_o_filho (agente : string) n m (g : string -> string) e d padrao msg w1 :
    diretorio_normal d -> padrao_simples padrao = true ->
    let r := tentar (logger n m ;;
                     arquivo_saida <- conferir_saida e d padrao msg ;;
                     logger INFO (g arquivo_saida) ;;
                     ret arquivo_saida) (falha_do_agente agente) w1 in
    arquivos (snd r) = arquivos w1 /\
    (existe (arquivos w1) e = true -> fst r = Ok e) /\
    (existe (arquivos w1) e = false ->
     (forall x, In x (listar (arquivos w1) d) -> ~ candidato padrao x) ->
     fst r = Levantou (FileNotFoundError msg)) /\
    (existe (arquivos w1) e = false ->
     forall a, fst r = Ok a ->
       exists x, In x (listar (arquivos w1) d) /\ candidato padrao x /\
                 a = os_path_join d (nome x)).
  Proof.
    intros Hd Hp r.
    assert (Er : r = let c := conferir_saida e d padrao msg (snd (logger n m w1)) in
                     match fst c with
                     | Ok a => (Ok a, snd (logger INFO (g a) (snd c)))
                     | Levantou ex =>
                         match @falha_do_agente _ string agente ex with
                         | Some h => h (snd c)
                         | None => (Levantou ex, snd c)
                         end
                     end).
    { unfold r, tentar, bind. rewrite logger_ok. cbn [fst snd].
      destruct (conferir_saida e d padrao msg (snd (logger n m w1))) as [[a|ex] wc];
        cbn [fst snd]; [rewrite logger_ok|]; reflexivity. }
    clearbody r. subst r. cbn zeta. rewrite conferir_saida_eq.
    set (w2 := snd (logger n m w1)).
    assert (Ha2 : arquivos w2 = arquivos w1) by reflexivity.
    rewrite Ha2.
    destruct (existe (arquivos w1) e) eqn:Ee.
    - cbn [fst snd].
      split; [reflexivity|]. split; [reflexivity|]. split; discriminate.
    - set (w3 := snd (logger WARNING ("Arquivo de saída não encontrado: " ++ e) w2)).
      assert (Ha3 : arquivos w3 = arquivos w1) by reflexivity.
      pose proof (@encontrar_arquivos d padrao w3) as Hae.
      pose proof (@encontrar_achado d padrao w3) as Hach.
      pose proof (@encontrar_nada d padrao w3 Hd Hp) as Hnada.
      rewrite Ha3 in Hae, Hach, Hnada.
      destruct (encontrar_arquivo_mais_recente d padrao w3) as [[[x|]|ex] w4] eqn:Eenc.
      + cbn [fst snd].
        split; [exact Hae|]. split; [discriminate|]. split.
        * intros _ Hn. destruct (Hach x Hd Hp eq_refl) as (y & Hy & Hc & _).
          exfalso. exact (Hn y Hy Hc).
        * intros _ a Ea. injection Ea as <-. exact (Hach x Hd Hp eq_refl).
      + cbn [falha_do_agente fst snd].
        split; [exact Hae|]. split; [discriminate|]. split; [reflexivity|discriminate].
      + exfalso. destruct (@encontrar_retorna d padrao w3) as [r0 Er0].
        rewrite Eenc in Er0. discriminate.
  Qed.

Lemma etapa_de_arquivo_saida n1 m1 dir n2 m2 agente cmd
      (f g : string -> string) e d padrao msg w cmd' p' :
    dir <> "" -> diretorio_normal d -> padrao_simples padrao = true ->
    let r := (logger n1 m1 ;; os_makedirs dir ;; logger n2 m2 ;;
              etapa agente cmd
                (fun p => logger DEBUG (f (stdout p)) ;;
                          arquivo_saida <- conferir_saida e d padrao msg ;;
                          logger INFO (g arquivo_saida) ;;
                          ret arquivo_saida)) w in
    processos (snd r) = (processos w ++ [(cmd', p')])%list ->
    returncode p' = 0 ->
    (existe (arquivos (snd r)) e = true -> fst r = Ok e) /\
    (existe (arquivos (snd r)) e = false ->
     (forall x, In x (listar (arquivos (snd r)) d) -> ~ candidato padrao x) ->
     fst r = Levantou (FileNotFoundError msg)) /\
    (existe (arquivos (snd r)) e = false ->
     forall a, fst r = Ok a ->
       exists x, In x (listar (arquivos (snd r)) d) /\ candidato padrao x /\
                 a = os_path_join d (nome x)).
  Proof.
    intros Hdir Hd Hp r Hproc Hrc.
    set (w0 := snd (logger n2 m2 (snd (os_makedirs dir (snd (logger n1 m1 w)))))).
    set (depois := fun p : CompletedProcess =>
                     logger DEBUG (f (stdout p)) ;;
                     arquivo_saida <- conferir_saida e d padrao msg ;;
                     logger INFO (g arquivo_saida) ;;
                     ret arquivo_saida).
    assert (Er : r = etapa agente cmd depois w0).
    { unfold r, bind at 1. rewrite logger_ok.
      unfold bind at 1. rewrite (os_makedirs_ok _ Hdir).
      unfold bind at 1. rewrite logger_ok. reflexivity. }
    assert (Hp0 : processos w0 = processos w).
    { unfold w0. cbn [snd logger processos]. rewrite os_makedirs_processos.
      reflexivity. }
    assert (Hdep : forall p, preserva (depois p)).
    { intros p. apply (depois_preserva f g). }
    destruct (@etapa_resumo _ agente cmd depois w0 Hdep) as [[Hu _] _].
    rewrite <- Er in Hu. rewrite Hp0, Hproc in Hu.
    apply ultimo_processo in Hu. injection Hu as Hc Hpp.
    revert Hproc. rewrite Er in *. clear Er. rewrite etapa_eq. cbn zeta.
    rewrite <- Hpp, Hrc. cbn [Z.eqb]. intros _.
    match goal with
    | |- context [tentar _ _ ?w1] =>
        destruct (@apos_o_filho agente DEBUG (f (stdout p')) g e d padrao msg w1 Hd Hp)
          as (Ha & H1 & H2 & H3)
    end.
    unfold depois. rewrite Hpp. rewrite Hpp in Ha, H1, H2, H3.
    rewrite Ha. cbn [arquivos] in *. split; [exact H1|]. split; [exact H2|exact H3].
  Qed.

End SaidaDasEtapas.

(** X5.  For a directory path as [os.path.join] builds it, holding no
    wildcard character, and a pattern without wildcard characters,
    [encontrar_arquivo_mais_recente] changes nothing but the log; it finds
    a file exactly when the directory lists an entry that is not hidden
    and whose name contains the pattern, and what it finds is the path of
    such an entry. *)
Theorem X5_resolvedor_acha_sse_ha_candidato :
  forall (diretorio padrao : string) (w : Mundo),
    diretorio_normal diretorio ->
    has_magic diretorio = false ->
    padrao_simples padrao = true ->
    so_registro w (snd (encontrar_arquivo_mais_recente diretorio padrao w)) /\
    ((exists e, In e (listar (arquivos w) diretorio) /\ candidato padrao e) <->
     (exists x, fst (encontrar_arquivo_mais_recente diretorio padrao w) = Ok (Some x))) /\
    (forall x,
        fst (encontrar_arquivo_mais_recente diretorio padrao w) = Ok (Some x) ->
        exists e, In e (listar (arquivos w) diretorio) /\ candidato padrao e /\
                  x = os_path_join diretorio (nome e)).
Proof.
  intros d padrao w Hd _ Hp. split; [|split].
  - rewrite encontrar_eq. destruct (existe (arquivos w) d).
    + destruct (glob_glob _ _).
      * apply logger_so_registro.
      * apply so_registro_refl.
    + apply logger_so_registro.
  - split.
    + intros (e & Hin & Hc).
      destruct (@encontrar_algum d padrao w e Hd Hp Hin Hc) as [x Ex].
      exists x. rewrite Ex. reflexivity.
    + intros (x & Ex).
      destruct (@encontrar_achado d padrao w x Hd Hp Ex) as (e & Hin & Hc & _).
      exists e. split; assumption.
  - intros x Ex. exact (@encontrar_achado d padrao w x Hd Hp Ex).
Qed.

Lemma X5_resolvedor_acha_sse_ha_candidato_witness :
  (exists e, In e (listar (arquivos Exemplo.mundo_empate) "dados/brutos") /\
             candidato "secao3" e) <->
  (exists x, fst (encontrar_arquivo_mais_recente "dados/brutos" "secao3"
                    Exemplo.mundo_empate) = Ok (Some x)).
Proof.
  apply (@X5_resolvedor_acha_sse_ha_candidato "dados/brutos" "secao3"
           Exemplo.mundo_empate).
  - split; [discriminate|reflexivity].
  - reflexivity.
  - reflexivity.
Defined.

(** X6.  For an output directory whose path holds no wildcard character:
    when the collector's child returns 0, [executar_coleta] hands on
    the conventional path [{out}/brutos/{date}_secao{n}.json] if it exists
    after the child.  If it does not exist, the stage hands on the path of
    an entry of the raw directory that is not hidden and whose name
    contains [{date}_secao{n}], and raises [FileNotFoundError] when the
    directory has no such entry. *)
Theorem X6_saida_da_coleta :
  forall `{Plataforma} (config : Config) (data : DateTime) (s : Secao)
         (out : string) (w : Mundo) (cmd : list string) (p : CompletedProcess),
    out <> "" ->
    has_magic out = false ->
    let secao := numero_secao s in
    let brutos := os_path_join out "brutos" in
    let esperado := os_path_join brutos (nome_bruto data secao) in
    let r := executar_coleta config data secao out w in
    processos (snd r) = (processos w ++ [(cmd, p)])%list ->
    returncode p = 0 ->
    (existe (arquivos (snd r)) esperado = true -> fst r = Ok esperado) /\
    (existe (arquivos (snd r)) esperado = false ->
     (forall e, In e (listar (arquivos (snd r)) brutos) ->
                ~ candidato (padrao_bruto data secao) e) ->
     fst r = Levantou (FileNotFoundError
                         ("Nenhum arquivo de saída encontrado para "
                          ++ strftime_Ymd data ++ ", Seção " ++ str_Z secao))) /\
    (existe (arquivos (snd r)) esperado = false ->
     forall a, fst r = Ok a ->
       exists e, In e (listar (arquivos (snd r)) brutos) /\
                 candidato (padrao_bruto data secao) e /\
                 a = os_path_join brutos (nome e)).
Proof.
  intros P config data s out w cmd p Hout _ secao brutos esperado r Hproc Hrc.
  assert (Hb : brutos <> "").
  { apply os_path_join_nao_vazio. discriminate. }
  assert (Hn : diretorio_normal brutos).
  { apply (@os_path_join_normal out "b" "rutos" Hout); reflexivity. }
  assert (Hs : padrao_simples (padrao_bruto data secao) = true).
  { exact (@padrao_bruto_simples data
             {| arg_data := None; arg_secao := Some s; arg_modo := Completo;
                arg_monitor := false; arg_intervalo := 0; arg_output_dir := None |}). }
  exact (@etapa_de_arquivo_saida P _ _ brutos _ _ "Agente Coletor"
           (cmd_coleta config data secao brutos)
           (fun t => "Saída do Agente Coletor: " ++ t)
           (fun a => "Coleta concluída. Arquivo gerado: " ++ a)
           esperado brutos (padrao_bruto data secao) _ w cmd p Hb Hn Hs Hproc Hrc).
Qed.

Lemma X6_saida_da_coleta_witness :
  fst (@executar_coleta (Exemplo.plataforma Exemplo.tudo_certo) Exemplo.config
         Exemplo.primeiro_de_marco 3 "dados" Exemplo.mundo_vazio)
  = Ok "dados/brutos/2024-03-01_secao3.json".
Proof.
  apply (@X6_saida_da_coleta (Exemplo.plataforma Exemplo.tudo_certo) Exemplo.config
           Exemplo.primeiro_de_marco Secao3 "dados" Exemplo.mundo_vazio
           ["python3"; "-m"; "coletor.main"; "--data"; "01-03-2024"; "--secao"; "3";
            "--output"; "dados/brutos"]
           (Exemplo.proc 0 "" "")).
  - discriminate.
  - reflexivity.
  - vm_compute. reflexivity.
  - reflexivity.
  - vm_compute. reflexivity.
Defined.

(* --------------------------------------------------------------------- *)
(** ** The names the stages give their artifacts *)
(* --------------------------------------------------------------------- *)

Section Nomes.

Lemma digito_sem_p n : Ascii.eqb (digito n) "p" = false.
  Proof.
    unfold digito.
    assert (Hn : (Z.to_nat (n mod 10) < 10)%nat).
    { pose proof (Z.mod_pos_bound n 10 ltac:(lia)). lia. }
    destruct (Z.to_nat (n mod 10)) as [|k]; [reflexivity|].
    do 9 (destruct k as [|k]; [reflexivity|]). lia.
  Qed.

Lemma digito_sem_ponto n : Ascii.eqb (digito n) ponto = false.
  Proof.
    unfold digito.
    assert (Hn : (Z.to_nat (n mod 10) < 10)%nat).
    { pose proof (Z.mod_pos_bound n 10 ltac:(lia)). lia. }
    destruct (Z.to_nat (n mod 10)) as [|k]; [reflexivity|].
    do 9 (destruct k as [|k]; [reflexivity|]). lia.
  Qed.

Lemma sem_p_app a b : sem_p (a ++ b) = sem_p a && sem_p b.
  Proof.
    induction a as [|c a IH]; [reflexivity|].
    cbn [append sem_p]. rewrite IH. apply andb_assoc.
  Qed.

Lemma sem_ponto_app a b : sem_ponto (a ++ b) = sem_ponto a && sem_ponto b.
  Proof.
    induction a as [|c a IH]; [reflexivity|].
    cbn [append sem_ponto]. rewrite IH. apply andb_assoc.
  Qed.

Lemma dois_digitos_sem_p n : sem_p (dois_digitos n) = true.
  Proof. unfold dois_digitos. cbn [sem_p]. rewrite !digito_sem_p. reflexivity. Qed.

Lemma dois_digitos_sem_ponto n : sem_ponto (dois_digitos n) = true.
  Proof.
    unfold dois_digitos. cbn [sem_ponto]. rewrite !digito_sem_ponto. reflexivity.
  Qed.

Lemma strftime_Ymd_sem_p d : sem_p (strftime_Ymd d) = true.
  Proof.
    unfold strftime_Ymd, quatro_digitos. rewrite !sem_p_app. cbn [sem_p].
    rewrite !digito_sem_p, !dois_digitos_sem_p. reflexivity.
  Qed.

Lemma strftime_Ymd_sem_ponto d : sem_ponto (strftime_Ymd d) = true.
  Proof.
    unfold strftime_Ymd, quatro_digitos. rewrite !sem_ponto_app. cbn [sem_ponto].
    rewrite !digito_sem_ponto, !dois_digitos_sem_ponto. reflexivity.
  Qed.

Lemma padrao_bruto_sem_p d s : sem_p (padrao_bruto d (numero_secao s)) = true.
  Proof.
    unfold padrao_bruto. rewrite !sem_p_app, strftime_Ymd_sem_p.
    destruct s; reflexivity.
  Qed.

Lemma padrao_bruto_sem_ponto d s : sem_ponto (padrao_bruto d (numero_secao s)) = true.
  Proof.
    unfold padrao_bruto. rewrite !sem_ponto_app, strftime_Ymd_sem_ponto.
    destruct s; reflexivity.
  Qed.

Lemma padrao_bruto_secao_simples d s :
    padrao_simples (padrao_bruto d (numero_secao s)) = true.
  Proof.
    exact (@padrao_bruto_simples d
             {| arg_data := None; arg_secao := Some s; arg_modo := Completo;
                arg_monitor := false; arg_intervalo := 0; arg_output_dir := None |}).
  Qed.

Lemma padrao_bruto_inicio d secao :
    exists c r, padrao_bruto d secao = String c r.
  Proof.
    unfold padrao_bruto, strftime_Ymd, quatro_digitos. cbn [append].
    eexists _, _. reflexivity.
  Qed.

Lemma substring_tudo s : String.substring 0 (String.length s) s = s.
  Proof.
    induction s as [|c s IH]; [reflexivity|].
    cbn [String.length String.substring]. rewrite IH. reflexivity.
  Qed.

Lemma remover_sem_p c s :
    sem_p s = true -> remover_ocorrencias c "processado_" s = s.
  Proof.
    revert s. induction c as [|c IH]; intros s Hs; [reflexivity|].
    destruct s as [|a r]; [reflexivity|].
    cbn [sem_p] in Hs. apply andb_true_iff in Hs. destruct Hs as [Ha Hr].
    cbn [remover_ocorrencias].
    assert (E : startswith "processado_" (String a r) = false).
    { cbn [startswith]. rewrite Ascii.eqb_sym.
      apply negb_true_iff in Ha. rewrite Ha. reflexivity. }
    rewrite E, (IH r Hr). reflexivity.
  Qed.

Lemma remover_passo c velho a r :
    remover_ocorrencias (S c) velho (String a r)
    = if startswith velho (String a r)
      then remover_ocorrencias c velho
             (String.substring (String.length velho)
                (String.length (String a r) - String.length velho) (String a r))
      else String a (remover_ocorrencias c velho r).
  Proof. reflexivity. Qed.

Lemma replace_do_prefixo n :
    sem_p n = true -> replace_vazio "processado_" ("processado_" ++ n) = n.
  Proof.
    intros Hn. unfold replace_vazio.
    change ("processado_" ++ n)
      with (String "p" (String "r" (String "o" (String "c" (String "e" (String "s"
             (String "s" (String "a" (String "d" (String "o" (String "_" n))))))))))).
    rewrite remover_passo.
    match goal with
    | |- context [startswith ?a ?b] =>
        replace (startswith a b) with true by reflexivity
    end.
    match goal with
    | |- remover_ocorrencias _ _ ?t = _ =>
        assert (Es : t = n)
    end.
    { cbn [String.length Nat.sub String.substring].
      rewrite Nat.sub_0_r. apply substring_tudo. }
    rewrite Es. apply remover_sem_p. exact Hn.
  Qed.

Lemma raiz_ext_sem_ponto ext :
    sem_ponto ext = true -> forall v, raiz_ext v ext = (ext, false).
  Proof.
    induction ext as [|c r IH]; intros Hs v; [reflexivity|].
    cbn [sem_ponto] in Hs. apply andb_true_iff in Hs. destruct Hs as [Hc Hr].
    cbn [raiz_ext]. rewrite (IH Hr). apply negb_true_iff in Hc. rewrite Hc.
    reflexivity.
  Qed.

Lemma raiz_ext_ultimo_ponto s ext :
    sem_ponto s = true -> sem_ponto ext = true ->
    forall v, v = true \/ s <> "" ->
    raiz_ext v (s ++ String ponto ext) = (s, true).
  Proof.
    intros Hs Hext. induction s as [|c r IH]; intros v Hv.
    - destruct Hv as [->|Hv]; [|contradiction].
      cbn [append raiz_ext]. rewrite (@raiz_ext_sem_ponto ext Hext).
      rewrite Ascii.eqb_refl. reflexivity.
    - cbn [sem_ponto] in Hs. apply andb_true_iff in Hs. destruct Hs as [Hc Hr].
      cbn [append raiz_ext]. apply negb_true_iff in Hc. rewrite Hc.
      cbn [negb]. rewrite orb_true_r.
      rewrite (IH Hr true (or_introl eq_refl)). reflexivity.
  Qed.

Lemma basename_do_join d n :
    diretorio_normal d -> sem_barra n = true -> n <> "" ->
    os_path_basename (os_path_join d n) = n.
  Proof.
    intros Hd Hn Hne. destruct n as [|c b]; [contradiction|].
    destruct (@os_path_split_join d c b Hd Hn) as [Ej _].
    rewrite Ej. unfold os_path_basename.
    rewrite (@cortar_apos_barra d (String c b) Hn). reflexivity.
  Qed.

Lemma nome_bruto_sem_barra d s : sem_barra (nome_bruto d (numero_secao s)) = true.
  Proof.
    unfold nome_bruto. rewrite sem_barra_app.
    rewrite (@padrao_simples_sem_barra _ (padrao_bruto_secao_simples d s)).
    reflexivity.
  Qed.

Lemma nome_bruto_sem_p d s : sem_p (nome_bruto d (numero_secao s)) = true.
  Proof. unfold nome_bruto. rewrite sem_p_app, padrao_bruto_sem_p. reflexivity. Qed.

Lemma nome_organizado_do_processado out d s :
    out <> "" ->
    nome_organizado
      (os_path_join (os_path_join out "processados")
         ("processado_" ++ nome_bruto d (numero_secao s)))
    = padrao_bruto d (numero_secao s).
  Proof.
    intros Hout. unfold nome_organizado.
    rewrite basename_do_join.
    - rewrite (@replace_do_prefixo _ (nome_bruto_sem_p d s)).
      unfold nome_bruto, splitext_raiz.
      change ".json" with (String ponto "json").
      rewrite raiz_ext_ultimo_ponto; [reflexivity| |reflexivity|].
      + apply padrao_bruto_sem_ponto.
      + right. destruct (padrao_bruto_inicio d (numero_secao s)) as (c & r & E).
        rewrite E. discriminate.
    - apply (@os_path_join_normal out "p" "rocessados" Hout); reflexivity.
    - change (sem_barra ("processado_" ++ nome_bruto d (numero_secao s)) = true).
      rewrite sem_barra_app, nome_bruto_sem_barra. reflexivity.
    - discriminate.
  Qed.

End Nomes.

(** X7.  The naming convention holds across the stages.  Given the
    conventional raw path [{out}/brutos/{date}_secao{n}.json], the process
    stage asks its worker to write
    [{out}/processados/processado_{date}_secao{n}.json]; given that path,
    the organize stage derives the base name [{date}_secao{n}] and asks its
    worker to write [{out}/{formato}/{date}_secao{n}.{formato}]. *)
Theorem X7_convencao_de_nomes :
  forall `{Plataforma} (config : Config) (data : DateTime) (s : Secao) (out : string),
    out <> "" ->
    let secao := numero_secao s in
    let formato := get (formato_saida config) "csv" in
    let bruto := os_path_join (os_path_join out "brutos") (nome_bruto data secao) in
    let processado :=
      os_path_join (os_path_join out "processados")
        ("processado_" ++ nome_bruto data secao) in
    let organizado :=
      os_path_join (os_path_join out formato)
        (padrao_bruto data secao ++ "." ++ formato) in
    (forall w, exists p,
        um_filho w (snd (executar_processamento config bruto out w))
          (cmd_processamento config bruto processado) p) /\
    nome_organizado processado = padrao_bruto data secao /\
    (forall w, exists p,
        um_filho w (snd (executar_organizacao config processado out w))
          (cmd_organizacao config processado organizado formato) p).
Proof.
  intros P config data s out Hout secao formato bruto processado organizado.
  assert (Eb : os_path_basename bruto = nome_bruto data secao).
  { apply basename_do_join.
    - apply (@os_path_join_normal out "b" "rutos" Hout); reflexivity.
    - apply nome_bruto_sem_barra.
    - unfold nome_bruto. destruct (padrao_bruto_inicio data secao) as (c & r & E).
      rewrite E. discriminate. }
  assert (En : nome_organizado processado = padrao_bruto data secao).
  { apply nome_organizado_do_processado. exact Hout. }
  split; [|split].
  - destruct (executar_processamento_resumo config bruto out) as (_ & _ & U).
    rewrite Eb in U. exact U.
  - exact En.
  - destruct (executar_organizacao_resumo config processado Hout) as (_ & _ & U).
    rewrite En in U. exact U.
Qed.

Lemma X7_convencao_de_nomes_witness :
  nome_organizado
    (os_path_join (os_path_join "dados" "processados")
       ("processado_" ++ nome_bruto Exemplo.primeiro_de_marco (numero_secao Secao3)))
  = padrao_bruto Exemplo.primeiro_de_marco (numero_secao Secao3).
Proof.
  apply (@X7_convencao_de_nomes (Exemplo.plataforma Exemplo.tudo_certo) Exemplo.config
           Exemplo.primeiro_de_marco Secao3 "dados").
  discriminate.
Defined.

(* --------------------------------------------------------------------- *)
(** ** A complete run that goes through *)
(* --------------------------------------------------------------------- *)

Section RelatorioFinal.

Context `{Plataforma}.
Variables (data : DateTime) (secao : Z) (out : string).

Lemma gerar_relatorio_conteudo a1 a2 a3 campos w :
    arquivos w out <> None ->
    exists w',
      gerar_relatorio data secao out a1 a2 a3 (JObj campos) w = (Ok tt, w') /\
      processos w' = processos w /\
      removidos w' = removidos w /\
      gravados w' = (gravados w ++ [os_path_join out (nome_do_relatorio data secao)])%list /\
      relatorio_gravado w' out (nome_do_relatorio data secao)
      = Some {| rel_data := strftime_Ymd data;
                rel_secao := secao;
                rel_timestamp := fromtimestamp (relogio w);
                etapa_coleta := {| arquivo := a1; status := "concluido" |};
                etapa_processamento := {| arquivo := a2; status := "concluido" |};
                etapa_organizacao := {| arquivo := a3; status := "concluido" |};
                etapa_indexacao :=
                  {| resultado := JObj campos;
                     status_indexacao :=
                       if verdadeiro (get (procurar_chave "success" campos) (JBool false))
                       then "concluido" else "falha" |} |}.
  Proof.
    intros Hout. unfold gerar_relatorio.
    unfold bind at 1. unfold datetime_now at 1.
    unfold bind at 1. unfold status_da_indexacao, dict_get.
    assert (Hget : match procurar_chave "success" campos with
                   | Some v => v | None => JBool false end
                   = get (procurar_chave "success" campos) (JBool false))
      by reflexivity.
    rewrite Hget. unfold ret at 1.
    unfold bind at 1. unfold gravar_arquivo.
    destruct (arquivos w out) as [l|] eqn:El; [|congruence].
    rewrite logger_ok. eexists. split; [reflexivity|].
    split; [reflexivity|]. split; [reflexivity|]. split; [reflexivity|].
    unfold relatorio_gravado, listar. cbn [snd logger arquivos].
    unfold atualizar. rewrite String.eqb_refl.
    unfold nome_do_relatorio. rewrite find_gravar_entrada. reflexivity.
  Qed.

End RelatorioFinal.

(** X8.  When the first three stages go through and the index stage
    returns a dict, a complete run ends with exit code 0 after exactly four
    children, one per agent in the order collector, processor, organizer,
    search.  The only file the coordinator writes is the report
    [{out}/relatorio_{date}_secao{n}.json]; it records the date, the
    section, the three artifact paths with status [concluido], and the
    index result with status [concluido] or [falha] after its [success]
    field. *)
Theorem X8_execucao_completa :
  forall `{Plataforma} (config : Config) (data : DateTime) (secao : Z) (out : string)
         (w : Mundo) (a1 a2 a3 : string) (w4 : Mundo)
         (campos : list (string * Json)) (w5 : Mundo),
    out <> "" ->
    tres_etapas config data secao out w a1 a2 a3 w4 ->
    executar_indexacao config a3
      (anunciar "Etapa 4: Indexação dos dados para busca" w4) = (Ok (JObj campos), w5) ->
    arquivos w5 out <> None ->
    exists w' c1 p1 c2 p2 c3 p3 c4 p4,
      despachar config Completo data secao out w = (Ok 0, w') /\
      processos w' = (processos w ++ [(c1, p1); (c2, p2); (c3, p3); (c4, p4)])%list /\
      map modulo_do_comando [c1; c2; c3; c4]
      = ["coletor.main"; "processador.main"; "organizador.main"; "busca.main"] /\
      gravados w' = (gravados w ++ [os_path_join out (nome_do_relatorio data secao)])%list /\
      removidos w' = removidos w /\
      relatorio_gravado w' out (nome_do_relatorio data secao)
      = Some {| rel_data := strftime_Ymd data;
                rel_secao := secao;
                rel_timestamp := fromtimestamp (relogio w5);
                etapa_coleta := {| arquivo := a1; status := "concluido" |};
                etapa_processamento := {| arquivo := a2; status := "concluido" |};
                etapa_organizacao := {| arquivo := a3; status := "concluido" |};
                etapa_indexacao :=
                  {| resultado := JObj campos;
                     status_indexacao :=
                       if verdadeiro (get (procurar_chave "success" campos) (JBool false))
                       then "concluido" else "falha" |} |}.
Proof.
  intros P config data secao out w a1 a2 a3 w4 campos w5 Hout
    (w2 & w3 & E1 & E2 & E3) E4 Hdir.
  destruct (executar_coleta_resumo config data secao out) as (_ & _ & U1).
  destruct (U1 (inicio_do_fluxo w)) as (p1 & Hp1 & Hg1 & Hr1 & _ & Ht1 & _).
  rewrite E1 in Hp1, Hg1, Hr1, Ht1. cbn [snd] in Hp1, Hg1, Hr1, Ht1.
  destruct (executar_processamento_resumo config a1 out) as (_ & _ & U2).
  destruct (U2 (anunciar "Etapa 2: Processamento dos dados coletados" w2))
    as (p2 & Hp2 & Hg2 & Hr2 & _ & Ht2 & _).
  rewrite E2 in Hp2, Hg2, Hr2, Ht2. cbn [snd] in Hp2, Hg2, Hr2, Ht2.
  destruct (executar_organizacao_resumo config a2 Hout) as (_ & _ & U3).
  destruct (U3 (anunciar "Etapa 3: Organização dos dados processados" w3))
    as (p3 & Hp3 & Hg3 & Hr3 & _ & Ht3 & _).
  rewrite E3 in Hp3, Hg3, Hr3, Ht3. cbn [snd] in Hp3, Hg3, Hr3, Ht3.
  destruct (executar_indexacao_resumo config a3) as (_ & _ & U4).
  destruct (U4 (anunciar "Etapa 4: Indexação dos dados para busca" w4))
    as (p4 & (Hp4 & Hg4 & Hr4 & _ & Ht4 & _) & _).
  rewrite E4 in Hp4, Hg4, Hr4, Ht4. cbn [snd] in Hp4, Hg4, Hr4, Ht4.
  pose proof (@fluxo_ate_indexacao P config data secao out w a1 w2 a2 w3 a3 w4
                (JObj campos) w5 E1 E2 E3 E4) as Ef.
  destruct (@gerar_relatorio_conteudo data secao out a1 a2 a3 campos
              (anunciar "Fluxo de trabalho completo executado com sucesso" w5) Hdir)
    as (w6 & Eg & Hp6 & Hr6 & Hg6 & Hrel).
  rewrite Eg in Ef.
  exists (anunciar "Operação concluída com sucesso" w6).
  exists (cmd_coleta config data secao (os_path_join out "brutos")), p1.
  exists (cmd_processamento config a1
            (os_path_join (os_path_join out "processados")
               ("processado_" ++ os_path_basename a1))), p2.
  exists (cmd_organizacao config a2
            (os_path_join (os_path_join out (get (formato_saida config) "csv"))
               (nome_organizado a2 ++ "." ++ get (formato_saida config) "csv"))
            (get (formato_saida config) "csv")), p3.
  exists (cmd_indexacao config a3), p4.
  split; [apply despachar_completo_ok; exact Ef|].
  cbn [anunciar snd logger processos gravados removidos relogio] in *.
  unfold anunciar, logger in *.
  cbn [snd processos gravados removidos relogio arquivos] in *.
  split.
  { rewrite Hp6, Hp4, Hp3, Hp2, Hp1. rewrite <- !app_assoc. reflexivity. }
  split; [reflexivity|].
  split.
  { rewrite Hg6, Hg4, Hg3, Hg2, Hg1. reflexivity. }
  split.
  { rewrite Hr6, Hr4, Hr3, Hr2, Hr1. reflexivity. }
  unfold relatorio_gravado in *. cbn [arquivos] in *.
  rewrite Hrel. reflexivity.
Qed.

Lemma X8_execucao_completa_witness :
  let P := Exemplo.plataforma Exemplo.tudo_certo in
  exists w',
    @despachar P Exemplo.config Completo Exemplo.primeiro_de_marco 3 "dados"
      Exemplo2.mundo_com_saida = (Ok 0, w') /\
    gravados w' = ["dados/relatorio_2024-03-01_secao3.json"].
Proof.
  intros P.
  destruct (@X8_execucao_completa P Exemplo.config Exemplo.primeiro_de_marco 3 "dados"
              Exemplo2.mundo_com_saida
              "dados/brutos/2024-03-01_secao3.json"
              "dados/processados/processado_2024-03-01_secao3.json"
              "dados/csv/2024-03-01_secao3.csv"
              (snd (@executar_organizacao P Exemplo.config
                      "dados/processados/processado_2024-03-01_secao3.json" "dados"
                      (anunciar "Etapa 3: Organização dos dados processados"
                         (snd (@executar_processamento P Exemplo.config
                                 "dados/brutos/2024-03-01_secao3.json" "dados"
                                 (anunciar "Etapa 2: Processamento dos dados coletados"
                                    (snd (@executar_coleta P Exemplo.config
                                            Exemplo.primeiro_de_marco 3 "dados"
                                            (inicio_do_fluxo Exemplo2.mundo_com_saida)))))))))
              [("success", JBool true); ("message", JStr "Indexação concluída");
               ("total", JStr "desconhecido")]
              (snd (@executar_indexacao P Exemplo.config "dados/csv/2024-03-01_secao3.csv"
                      (anunciar "Etapa 4: Indexação dos dados para busca"
                         (snd (@executar_organizacao P Exemplo.config
                                 "dados/processados/processado_2024-03-01_secao3.json"
                                 "dados"
                                 (anunciar "Etapa 3: Organização dos dados processados"
                                    (snd (@executar_processamento P Exemplo.config
                                            "dados/brutos/2024-03-01_secao3.json" "dados"
                                            (anunciar
                                               "Etapa 2: Processamento dos dados coletados"
                                               (snd (@executar_coleta P Exemplo.config
                                                       Exemplo.primeiro_de_marco 3 "dados"
                                                       (inicio_do_fluxo
                                                          Exemplo2.mundo_com_saida)))))))))))))
    as (w' & c1 & p1 & c2 & p2 & c3 & p3 & c4 & p4 & Ed & _ & _ & Hg & _).
  - discriminate.
  - eexists _, _. split; [vm_compute; reflexivity|].
    split; vm_compute; reflexivity.
  - vm_compute. reflexivity.
  - eapply algum_nao_nenhum. vm_compute. reflexivity.
  - exists w'. split; [exact Ed|]. rewrite Hg. reflexivity.
Defined.

(* --------------------------------------------------------------------- *)
(** ** The observing steps of a monitoring pass *)
(* --------------------------------------------------------------------- *)

Section Observadores.

Context `{Plataforma}.
Variable config : Config.

Lemma so_loga_ret A (a : A) : so_loga (ret a).
  Proof. intros w. apply so_registro_refl. Qed.

Lemma so_loga_levantar A e : so_loga (@levantar A e).
  Proof. intros w. apply so_registro_refl. Qed.

Lemma so_loga_logger n msg : so_loga (logger n msg).
  Proof. intros w. apply logger_so_registro. Qed.

Lemma so_loga_ler_mundo : so_loga ler_mundo.
  Proof. intros w. apply so_registro_refl. Qed.

Lemma so_loga_datetime_now : so_loga datetime_now.
  Proof. intros w. apply so_registro_refl. Qed.

Lemma so_loga_os_path_exists p : so_loga (os_path_exists p).
  Proof. intros w. apply so_registro_refl. Qed.

Lemma so_loga_os_listdir d : so_loga (os_listdir d).
  Proof.
    intros w. unfold os_listdir. destruct (arquivos w d); apply so_registro_refl.
  Qed.

Lemma so_loga_bind A B (m : M A) (k : A -> M B) :
    so_loga m -> (forall a, so_loga (k a)) -> so_loga (bind m k).
  Proof.
    intros Hm Hk w. unfold bind. specialize (Hm w).
    destruct (m w) as [[a|e] w1]; cbn [snd] in Hm.
    - eapply so_registro_trans; [exact Hm|apply Hk].
    - exact Hm.
  Qed.

Lemma so_loga_tentar A (m : M A) (h : Excecao -> option (M A)) :
    so_loga m -> (forall e k, h e = Some k -> so_loga k) -> so_loga (tentar m h).
  Proof.
    intros Hm Hh w. unfold tentar. specialize (Hm w).
    destruct (m w) as [[a|e] w1]; cbn [snd] in Hm; [exact Hm|].
    destruct (h e) as [k|] eqn:Ek; [|exact Hm].
    eapply so_registro_trans; [exact Hm|apply (Hh e k Ek)].
  Qed.

Lemma so_loga_listar_recentes d horas : so_loga (_listar_arquivos_recentes d horas).
  Proof.
    unfold _listar_arquivos_recentes.
    apply so_loga_bind; [apply so_loga_ler_mundo|]. intros w0.
    apply so_loga_bind; [apply so_loga_os_listdir|]. intros l.
    apply so_loga_ret.
  Qed.

Lemma so_loga_verificar_recentes d rotulo : so_loga (verificar_recentes d rotulo).
  Proof.
    unfold verificar_recentes.
    apply so_loga_bind; [apply so_loga_os_path_exists|]. intros [|].
    - apply so_loga_bind; [apply so_loga_listar_recentes|]. intros [|x l].
      + apply so_loga_ret.
      + apply so_loga_logger.
    - apply so_loga_ret.
  Qed.

Lemma so_loga_verificar_arquivos : so_loga (_verificar_arquivos_recentes config).
  Proof.
    unfold _verificar_arquivos_recentes. apply so_loga_tentar.
    - apply so_loga_bind; [apply so_loga_verificar_recentes|]. intros _.
      apply so_loga_bind; [apply so_loga_verificar_recentes|]. intros _.
      apply so_loga_verificar_recentes.
    - intros e k Ek. injection Ek as <-. apply so_loga_logger.
  Qed.

Lemma verificar_arquivos_retorna w :
    fst (_verificar_arquivos_recentes config w) = Ok tt.
  Proof.
    unfold _verificar_arquivos_recentes, tentar.
    match goal with
    | |- context [match ?m w with _ => _ end] => destruct (m w) as [[[]|e] w1]
    end; reflexivity.
  Qed.

Lemma uma_mensagem_so_loga (topico rotulo : string) :
    so_loga (w <- ler_mundo ;;
             match consumir_mensagem_unica topico w with
             | Some m => logger INFO (rotulo ++ m)
             | None => ret tt
             end).
  Proof.
    apply so_loga_bind; [apply so_loga_ler_mundo|]. intros w0.
    destruct (consumir_mensagem_unica topico w0);
      [apply so_loga_logger|apply so_loga_ret].
  Qed.

Lemma uma_mensagem_retorna (topico rotulo : string) w :
    fst ((w <- ler_mundo ;;
          match consumir_mensagem_unica topico w with
          | Some m => logger INFO (rotulo ++ m)
          | None => ret tt
          end) w) = Ok tt.
  Proof.
    unfold bind, ler_mundo. destruct (consumir_mensagem_unica topico w); reflexivity.
  Qed.

Lemma so_loga_verificar_mensagens : so_loga (_verificar_mensagens config).
  Proof.
    unfold _verificar_mensagens. destruct (negb (usar_mensageria config)).
    - apply so_loga_ret.
    - apply so_loga_bind; [apply so_loga_ler_mundo|]. intros w1.
      apply so_loga_bind.
      { destruct (consumir_mensagem_unica "coleta_concluida" w1);
          [apply so_loga_logger|apply so_loga_ret]. }
      intros _. apply so_loga_bind; [apply so_loga_ler_mundo|]. intros w2.
      apply so_loga_bind.
      { destruct (consumir_mensagem_unica "processamento_concluido" w2);
          [apply so_loga_logger|apply so_loga_ret]. }
      intros _. apply so_loga_bind; [apply so_loga_ler_mundo|]. intros w3.
      destruct (consumir_mensagem_unica "organizacao_concluida" w3);
        [apply so_loga_logger|apply so_loga_ret].
  Qed.

Lemma verificar_mensagens_retorna w :
    fst (_verificar_mensagens config w) = Ok tt.
  Proof.
    unfold _verificar_mensagens. destruct (negb (usar_mensageria config));
      [reflexivity|].
    unfold bind, ler_mundo.
    destruct (consumir_mensagem_unica "coleta_concluida" w); cbn [logger ret];
    match goal with
    | |- context [consumir_mensagem_unica "processamento_concluido" ?w1] =>
        destruct (consumir_mensagem_unica "processamento_concluido" w1)
    end; cbn [logger ret];
    match goal with
    | |- context [consumir_mensagem_unica "organizacao_concluida" ?w1] =>
        destruct (consumir_mensagem_unica "organizacao_concluida" w1)
    end; reflexivity.
  Qed.

Lemma preserva_os_listdir d : preserva (os_listdir d).
  Proof.
    intros w. unfold os_listdir. destruct (arquivos w d); apply rastros_refl.
  Qed.

Lemma preserva_verificar_recentes d rotulo : preserva (verificar_recentes d rotulo).
  Proof.
    unfold verificar_recentes.
    apply preserva_bind; [apply preserva_os_path_exists|]. intros [|].
    - apply preserva_bind.
      + unfold _listar_arquivos_recentes.
        apply preserva_bind; [apply preserva_ler_mundo|]. intros w0.
        apply preserva_bind; [apply preserva_os_listdir|]. intros l.
        apply preserva_ret.
      + intros [|x l]; [apply preserva_ret|apply preserva_logger].
    - apply preserva_ret.
  Qed.

Lemma preserva_verificar_arquivos : preserva (_verificar_arquivos_recentes config).
  Proof.
    unfold _verificar_arquivos_recentes. apply preserva_tentar.
    - apply preserva_bind; [apply preserva_verificar_recentes|]. intros _.
      apply preserva_bind; [apply preserva_verificar_recentes|]. intros _.
      apply preserva_verificar_recentes.
    - intros e k Ek. injection Ek as <-. apply preserva_logger.
  Qed.

Lemma preserva_verificar_mensagens : preserva (_verificar_mensagens config).
  Proof.
    unfold _verificar_mensagens. destruct (negb (usar_mensageria config)).
    - apply preserva_ret.
    - apply preserva_bind; [apply preserva_ler_mundo|]. intros w1.
      apply preserva_bind.
      { destruct (consumir_mensagem_unica "coleta_concluida" w1);
          [apply preserva_logger|apply preserva_ret]. }
      intros _. apply preserva_bind; [apply preserva_ler_mundo|]. intros w2.
      apply preserva_bind.
      { destruct (consumir_mensagem_unica "processamento_concluido" w2);
          [apply preserva_logger|apply preserva_ret]. }
      intros _. apply preserva_bind; [apply preserva_ler_mundo|]. intros w3.
      destruct (consumir_mensagem_unica "organizacao_concluida" w3);
        [apply preserva_logger|apply preserva_ret].
  Qed.

Lemma verificar_mensagens_ok w :
    exists w', _verificar_mensagens config w = (Ok tt, w') /\ so_registro w w'.
  Proof.
    exists (snd (_verificar_mensagens config w)). split.
    - rewrite <- (verificar_mensagens_retorna w).
      destruct (_verificar_mensagens config w); reflexivity.
    - apply so_loga_verificar_mensagens.
  Qed.

Lemma verificar_arquivos_ok w :
    exists w', _verificar_arquivos_recentes config w = (Ok tt, w') /\ so_registro w w'.
  Proof.
    exists (snd (_verificar_arquivos_recentes config w)). split.
    - rewrite <- (verificar_arquivos_retorna w).
      destruct (_verificar_arquivos_recentes config w); reflexivity.
    - apply so_loga_verificar_arquivos.
  Qed.

End Observadores.

(** X9.  The two observing steps of a monitoring pass, the check for
    messages and the check for recent files, never raise and change
    nothing but the log: no file, no child, no write, no removal.  With
    messaging switched off the message check does nothing at all. *)
Theorem X9_observadores_so_registram :
  forall `{Plataforma} (config : Config) (w : Mundo),
    (exists w', _verificar_mensagens config w = (Ok tt, w') /\ so_registro w w') /\
    (usar_mensageria config = false -> _verificar_mensagens config w = (Ok tt, w)) /\
    (exists w', _verificar_arquivos_recentes config w = (Ok tt, w') /\
                so_registro w w').
Proof.
  intros P config w. split; [|split].
  - apply verificar_mensagens_ok.
  - intros Hu. unfold _verificar_mensagens. rewrite Hu. reflexivity.
  - apply verificar_arquivos_ok.
Qed.

Lemma X9_observadores_so_registram_witness :
  @_verificar_mensagens (Exemplo.plataforma Exemplo.tudo_certo) Exemplo.config
    Exemplo.mundo_vazio = (Ok tt, Exemplo.mundo_vazio).
Proof.
  apply (@X9_observadores_so_registram (Exemplo.plataforma Exemplo.tudo_certo)
           Exemplo.config Exemplo.mundo_vazio).
  reflexivity.
Defined.

(* --------------------------------------------------------------------- *)
(** ** Waiting between two passes *)
(* --------------------------------------------------------------------- *)

Section Espera.

Lemma aguardar_geral it n :
    forall i st,
      executando st = true ->
      let j := match parada it with
               | Some k => Nat.min n (k - i)
               | None => n
               end in
      let st' := aguardar it i n st in
      dormidas (mundo st') = (dormidas (mundo st) ++ repeat 1 j)%list /\
      relogio (mundo st') = relogio (mundo st) + Z.of_nat j /\
      executando st' = match parada it with
                       | Some k => Nat.leb n (k - i)
                       | None => true
                       end /\
      arquivos (mundo st') = arquivos (mundo st) /\
      processos (mundo st') = processos (mundo st) /\
      registro (mundo st') = registro (mundo st) /\
      gravados (mundo st') = gravados (mundo st) /\
      removidos (mundo st') = removidos (mundo st).
  Proof.
    induction n as [|n IH]; intros i st Hst.
    - cbn [aguardar]. destruct (parada it); cbn [Nat.min repeat Nat.leb Z.of_nat];
        rewrite app_nil_r, Z.add_0_r; repeat split; assumption.
    - cbn [aguardar]. unfold ler_flag. rewrite Hst.
      destruct (parada it) as [k|] eqn:Ek.
      + destruct (Nat.leb_spec k i) as [Hle|Hgt].
        * replace (k - i)%nat with 0%nat by lia.
          cbn [Nat.min repeat Nat.leb Z.of_nat mundo executando].
          rewrite app_nil_r, Z.add_0_r. repeat split.
        * specialize (IH (S i)
                        {| mundo := snd (time_sleep 1 (mundo st)); executando := true |}
                        eq_refl).
          try rewrite Ek in IH. cbn zeta in IH.
          destruct IH as (Hd & Hr & He & Ha & Hp & Hg & Hgr & Hrm).
          cbn [mundo time_sleep snd dormidas relogio arquivos processos registro
                 gravados removidos] in Hd, Hr, He, Ha, Hp, Hg, Hgr, Hrm.
          replace (k - i)%nat with (S (k - S i)) by lia.
          cbn [Nat.min repeat Nat.leb time_sleep snd].
          rewrite Hd, Hr, He, Ha, Hp, Hg, Hgr, Hrm.
          rewrite <- app_assoc. cbn [app].
          repeat split. lia.
      + specialize (IH (S i)
                      {| mundo := snd (time_sleep 1 (mundo st)); executando := true |}
                      eq_refl).
        try rewrite Ek in IH. cbn zeta in IH.
        destruct IH as (Hd & Hr & He & Ha & Hp & Hg & Hgr & Hrm).
        cbn [mundo time_sleep snd dormidas relogio arquivos processos registro
               gravados removidos] in Hd, Hr, He, Ha, Hp, Hg, Hgr, Hrm.
        cbn [repeat time_sleep snd].
        rewrite Hd, Hr, He, Ha, Hp, Hg, Hgr, Hrm.
        rewrite <- app_assoc. cbn [app].
        repeat split. lia.
  Qed.

End Espera.

(** X10.  After a pass whose steps went through, the monitor waits in
    steps of one second.  Left alone it sleeps [intervalo] times and keeps
    running; a stop request that lands before the [k]-th reading of the
    flag cuts the wait after [k - 1] seconds, with the flag down; an
    interval that is not positive means no wait at all.  The wait changes
    nothing but the clock. *)
Theorem X10_espera_entre_ciclos :
  forall `{Plataforma} (config : Config) (it : Iteracao) (intervalo : Z)
         (st : Estado) (w1 : Mundo),
    executando st = true ->
    passos config it (mundo st) = (Ok tt, w1) ->
    let st' := iteracao config it intervalo st in
    (parada it = None ->
     dormidas (mundo st') = (dormidas w1 ++ repeat 1 (Z.to_nat intervalo))%list /\
     relogio (mundo st') = relogio w1 + Z.max 0 intervalo /\
     executando st' = true) /\
    (forall k, parada it = Some k -> (1 <= k <= Z.to_nat intervalo)%nat ->
     dormidas (mundo st') = (dormidas w1 ++ repeat 1 (k - 1)%nat)%list /\
     relogio (mundo st') = relogio w1 + Z.of_nat (k - 1) /\
     executando st' = false) /\
    (intervalo <= 0 -> dormidas (mundo st') = dormidas w1) /\
    arquivos (mundo st') = arquivos w1 /\
    processos (mundo st') = processos w1 /\
    registro (mundo st') = registro w1 /\
    gravados (mundo st') = gravados w1 /\
    removidos (mundo st') = removidos w1.
Proof.
  intros P config it intervalo st w1 Hst Hpassos st'.
  unfold st', iteracao. rewrite Hpassos.
  destruct (@aguardar_geral it (Z.to_nat intervalo) 1%nat
              {| mundo := w1; executando := executando st |} Hst)
    as (Hd & Hr & He & Ha & Hp & Hg & Hgr & Hrm).
  cbn [mundo] in Hd, Hr, Ha, Hp, Hg, Hgr, Hrm.
  split; [|split; [|split]].
  - intros Hn. rewrite Hn in Hd, Hr, He. rewrite Hd, Hr, He.
    repeat split. lia.
  - intros k Hk [Hk1 Hk2]. rewrite Hk in Hd, Hr, He.
    replace (Nat.min (Z.to_nat intervalo) (k - 1)) with (k - 1)%nat in Hd, Hr by lia.
    rewrite Hd, Hr, He. repeat split.
    apply Nat.leb_gt. lia.
  - intros Hi. rewrite Hd. replace (Z.to_nat intervalo) with 0%nat by lia.
    destruct (parada it); cbn [Nat.min repeat]; apply app_nil_r.
  - repeat split; assumption.
Qed.

Lemma X10_espera_entre_ciclos_witness :
  let P := Exemplo.plataforma Exemplo.tudo_certo in
  let it := {| falha := None; parada := Some 3%nat |} in
  let st := {| mundo := Exemplo.mundo_com_nota; executando := true |} in
  dormidas (mundo (@iteracao P Exemplo.config it 60 st)) = [1; 1] /\
  executando (@iteracao P Exemplo.config it 60 st) = false.
Proof.
  intros P it st.
  destruct (@X10_espera_entre_ciclos P Exemplo.config it 60 st
              (snd (@passos P Exemplo.config it (mundo st))) eq_refl)
    as (_ & Hk & _).
  - vm_compute. reflexivity.
  - destruct (Hk 3%nat eq_refl) as (Hd & _ & He).
    + vm_compute. split; apply le_n || (repeat constructor).
    + split; [rewrite Hd; vm_compute; reflexivity|exact He].
Defined.

(* --------------------------------------------------------------------- *)
(** ** Starting and stopping the monitor *)
(* --------------------------------------------------------------------- *)

Section PartidaEParada.

Context `{Plataforma}.
Variable config : Config.

Lemma loop_rodando roteiro intervalo :
    forall st st',
      _loop_monitoramento config roteiro intervalo st = Rodando st' ->
      executando st' = true.
  Proof.
    induction roteiro as [|it resto IH]; intros st st'; cbn [_loop_monitoramento].
    - destruct (executando st) eqn:E; [|discriminate].
      intros Ex. injection Ex as <-. exact E.
    - destruct (ler_flag it 0 (executando st)); [apply IH|discriminate].
  Qed.

End PartidaEParada.

(** X11.  The guards of [iniciar] and [parar].  On a monitor that is
    running, [iniciar] starts no second loop: it logs a warning and leaves
    the flag up.  On a stopped monitor it either ends with the flag down,
    which takes a stop request, or is still running with the flag up.
    [parar] leaves the flag down and touches nothing but the log, and a
    loop entered with the flag down ends before its first pass. *)
Theorem X11_partida_e_parada :
  forall `{Plataforma} (config : Config) (roteiro : list Iteracao) (intervalo : Z)
         (st : Estado),
    (executando st = true ->
     iniciar config roteiro intervalo st
     = Terminou {| mundo := snd (logger WARNING "Monitoramento já está em execução"
                                   (mundo st));
                   executando := true |}) /\
    (executando st = false ->
     match iniciar config roteiro intervalo st with
     | Terminou st' =>
         executando st' = false /\ exists it, In it roteiro /\ parada it <> None
     | Rodando st' => executando st' = true
     end) /\
    executando (parar st) = false /\
    so_registro (mundo st) (mundo (parar st)) /\
    _loop_monitoramento config roteiro intervalo (parar st) = Terminou (parar st).
Proof.
  intros P config roteiro intervalo st. split; [|split; [|split; [|split]]].
  - intros E. unfold iniciar. rewrite E. reflexivity.
  - intros E. unfold iniciar. rewrite E.
    destruct (_loop_monitoramento config roteiro intervalo _) as [st'|st'] eqn:El.
    + cbn [executando]. split; [reflexivity|].
      destruct (@loop_termina P config roteiro intervalo _ st' El) as [_ [Hf|Hex]];
        [discriminate|exact Hex].
    + exact (@loop_rodando P config roteiro intervalo _ st' El).
  - unfold parar. destruct (negb (executando st)); reflexivity.
  - unfold parar. destruct (negb (executando st)); cbn [mundo];
      apply logger_so_registro.
  - assert (Ep : executando (parar st) = false).
    { unfold parar. destruct (negb (executando st)); reflexivity. }
    destruct (parar st) as [wp ep]. cbn [executando] in Ep. subst ep.
    destruct roteiro as [|it resto]; cbn [_loop_monitoramento executando mundo];
      [reflexivity|].
    unfold ler_flag. destruct (parada it) as [k|]; [|reflexivity].
    destruct (Nat.leb k 0); reflexivity.
Qed.

Lemma X11_partida_e_parada_witness :
  let P := Exemplo.plataforma Exemplo.tudo_certo in
  @iniciar P Exemplo.config Exemplo.roteiro_com_falhas 60
    {| mundo := Exemplo.mundo_vazio; executando := true |}
  = Terminou {| mundo := snd (logger WARNING "Monitoramento já está em execução"
                                Exemplo.mundo_vazio);
                executando := true |}.
Proof.
  intros P.
  apply (@X11_partida_e_parada P Exemplo.config Exemplo.roteiro_com_falhas 60
           {| mundo := Exemplo.mundo_vazio; executando := true |}).
  reflexivity.
Defined.

(* --------------------------------------------------------------------- *)
(** ** The snapshot and the pass as a whole *)
(* --------------------------------------------------------------------- *)

Section CicloInteiro.

Context `{Plataforma}.
Variable config : Config.

Lemma bind_ok A B (m : M A) (k : A -> M B) w a w1 :
    m w = (Ok a, w1) -> bind m k w = k a w1.
  Proof. intros E. unfold bind. rewrite E. reflexivity. Qed.

Lemma salvar_status_sem_diretorio agentes w :
    arquivos w (status_dir config) = None ->
    _salvar_status config agentes w
    = (Ok tt, acusar ("Erro ao salvar status: "
                      ++ erro_enoent (os_path_join (status_dir config)
                                        (nome_do_status w))) w).
  Proof.
    intros Hn. unfold _salvar_status.
    unfold tentar at 1, bind at 1, datetime_now at 1.
    unfold bind at 1, ler_mundo.
    unfold bind at 1, datetime_now.
    unfold bind at 1, gravar_arquivo. rewrite Hn. reflexivity.
  Qed.

Lemma salvar_status_casos agentes w :
    exists w',
      _salvar_status config agentes w = (Ok tt, w') /\
      processos w' = processos w /\ dormidas w' = dormidas w /\
      relogio w' = relogio w /\
      (arquivos w (status_dir config) = None ->
       w' = acusar ("Erro ao salvar status: "
                    ++ erro_enoent (os_path_join (status_dir config)
                                      (nome_do_status w))) w) /\
      (arquivos w (status_dir config) <> None ->
       gravados w'
       = (gravados w ++ [os_path_join (status_dir config) (nome_do_status w)])%list /\
       registro w' = registro w).
  Proof.
    destruct (arquivos w (status_dir config)) as [l|] eqn:El.
    - rewrite (@salvar_status_eq _ config agentes w l El).
      set (l1 := gravar_entrada (nome_do_status w) (relogio w)
                   (DocStatus (status_do_ciclo agentes w)) l).
      set (w1 := {| arquivos := atualizar (arquivos w) (status_dir config) l1 |}).
      assert (Hw1 : arquivos w1 (status_dir config) = Some l1).
      { cbn [arquivos w1]. unfold atualizar. now rewrite String.eqb_refl. }
      rewrite (@limpar_eq _ (status_dir config) 10 w1 l1 Hw1).
      destruct (@remover_todos_efeito (status_dir config) (excedentes 10 l1) w1 l1 Hw1)
        as (w' & rs & E & _ & _ & Hreg & Hp & Hd & Hg & Ht & _).
      exists w'. split; [exact E|].
      split; [exact Hp|]. split; [exact Hd|]. split; [exact Ht|].
      split; [discriminate|]. intros _. split; [exact Hg|exact Hreg].
    - rewrite (@salvar_status_sem_diretorio agentes w El).
      eexists. split; [reflexivity|].
      split; [reflexivity|]. split; [reflexivity|]. split; [reflexivity|].
      split; [reflexivity|]. intros Hx. contradiction.
  Qed.

End CicloInteiro.

(** X12.  [_salvar_status] never raises, runs no child and does not sleep.
    With the status directory present, and no sub-directory in it under
    the name of the snapshot, it opens exactly one file for writing, the
    snapshot named after the clock, and logs nothing.  With the directory
    missing, opening the snapshot raises; the step writes and removes
    nothing and only logs [Erro ao salvar status:] with the text of that
    exception. *)
Theorem X12_snapshot_nunca_levanta :
  forall `{Plataforma} (config : Config) (agentes : list (string * string)) (w : Mundo),
    exists w',
      _salvar_status config agentes w = (Ok tt, w') /\
      processos w' = processos w /\ dormidas w' = dormidas w /\
      (arquivos w (status_dir config) = None ->
       exists e,
         gravar_arquivo (status_dir config) (nome_do_status w)
           (DocStatus (status_do_ciclo agentes w)) w = (Levantou e, w) /\
         w' = acusar ("Erro ao salvar status: " ++ str_exc e) w) /\
      (forall l,
          arquivos w (status_dir config) = Some l ->
          (forall x, In x l -> nome x = nome_do_status w -> eh_arquivo x = true) ->
          gravados w'
          = (gravados w ++ [os_path_join (status_dir config) (nome_do_status w)])%list /\
          registro w' = registro w).
Proof.
  intros P config agentes w.
  destruct (salvar_status_casos config agentes w)
    as (w' & E & Hp & Hd & _ & Hn & Hs).
  exists w'. split; [exact E|]. split; [exact Hp|]. split; [exact Hd|]. split.
  - intros Hnone. eexists. split.
    + unfold gravar_arquivo. rewrite Hnone. reflexivity.
    + exact (Hn Hnone).
  - intros l Hl _. apply Hs. rewrite Hl. discriminate.
Qed.

Lemma X12_snapshot_nunca_levanta_witness :
  let P := Exemplo.plataforma Exemplo.tudo_certo in
  @_salvar_status P Exemplo.config [] Exemplo.mundo_vazio
  = (Ok tt,
     acusar ("Erro ao salvar status: [Errno 2] No such file or directory: "
             ++ "'dados/status/status_20240302_000000.json'")
       Exemplo.mundo_vazio).
Proof.
  intros P.
  destruct (@X12_snapshot_nunca_levanta P Exemplo.config [] Exemplo.mundo_vazio)
    as (w' & E & _ & _ & Hn & _).
  rewrite E. destruct (Hn eq_refl) as (e & Ee & Ew).
  rewrite Ew. vm_compute in Ee. injection Ee as <-. reflexivity.
Defined.

(** X13.  A monitoring pass that meets no outside failure never raises:
    each of its steps swallows its own errors.  It runs exactly the four
    probes, does not sleep, logs the status of the agents, and opens at
    most one file for writing, the snapshot of the cycle in the status
    directory (none when that directory is missing after the probes). *)
Theorem X13_ciclo_sem_falha_externa :
  forall `{Plataforma} (config : Config) (it : Iteracao) (w : Mundo),
    falha it = None ->
    exists w' p1 p2 p3 p4,
      passos config it w = (Ok tt, w') /\
      processos w'
      = (processos w ++ [(cmd_sonda "coletor.main", p1);
                         (cmd_sonda "processador.main", p2);
                         (cmd_sonda "organizador.main", p3);
                         (cmd_sonda "busca.main", p4)])%list /\
      dormidas w' = dormidas w /\
      In (INFO, "Status dos agentes: "
                ++ str_status [("coletor", disponibilidade p1);
                               ("processador", disponibilidade p2);
                               ("organizador", disponibilidade p3);
                               ("busca", disponibilidade p4)])
         (registro w') /\
      (gravados w' = gravados w \/
       exists agora,
         gravados w'
         = (gravados w
            ++ [os_path_join (status_dir config)
                  ("status_" ++ strftime_compacto agora ++ ".json")])%list).
Proof.
  intros P config it w Hf.
  assert (Hpf : forall k w0, ponto_de_falha it k w0 = (Ok tt, w0)).
  { intros k w0. unfold ponto_de_falha. rewrite Hf. reflexivity. }
  unfold passos.
  rewrite (@bind_ok _ _ _ _ _ _ _ (Hpf 0%nat w)).
  destruct (verificar_status_resumo w)
    as (p1 & p2 & p3 & p4 & w1 & E1 & Hp1 & Hreg1 & Hg1 & Hr1 & Hd1 & Ht1).
  rewrite (@bind_ok _ _ _ _ _ _ _ E1).
  rewrite (@bind_ok _ _ _ _ _ _ _ (logger_ok _ _ _)).
  set (sa := [("coletor", disponibilidade p1); ("processador", disponibilidade p2);
              ("organizador", disponibilidade p3); ("busca", disponibilidade p4)]).
  set (w2 := snd (logger INFO ("Status dos agentes: " ++ str_status sa) w1)).
  rewrite (@bind_ok _ _ _ _ _ _ _ (Hpf 1%nat w2)).
  destruct (verificar_mensagens_ok config w2) as (w3 & E3 & S3).
  rewrite (@bind_ok _ _ _ _ _ _ _ E3).
  rewrite (@bind_ok _ _ _ _ _ _ _ (Hpf 2%nat w3)).
  destruct (verificar_arquivos_ok config w3) as (w4 & E4 & S4).
  rewrite (@bind_ok _ _ _ _ _ _ _ E4).
  rewrite (@bind_ok _ _ _ _ _ _ _ (Hpf 3%nat w4)).
  destruct (salvar_status_casos config sa w4)
    as (w5 & E5 & Hp5 & Hd5 & Ht5 & Hnone & Hsome).
  rewrite (@bind_ok _ _ _ _ _ _ _ E5). rewrite Hpf.
  destruct S3 as (Ha3 & Hp3 & Hd3 & Hg3 & Hr3 & Ht3).
  destruct S4 as (Ha4 & Hp4 & Hd4 & Hg4 & Hr4 & Ht4).
  assert (Hreg2 : In (INFO, "Status dos agentes: " ++ str_status sa) (registro w2)).
  { unfold w2. cbn [logger snd registro]. apply in_or_app. right. left. reflexivity. }
  exists w5, p1, p2, p3, p4. split; [reflexivity|].
  split. { rewrite Hp5, Hp4, Hp3. unfold w2. cbn [logger snd processos]. exact Hp1. }
  split. { rewrite Hd5, Hd4, Hd3. unfold w2. cbn [logger snd dormidas]. exact Hd1. }
  assert (Hgw : gravados w4 = gravados w).
  { rewrite Hg4, Hg3. unfold w2. cbn [logger snd gravados]. exact Hg1. }
  assert (Hreg4 : In (INFO, "Status dos agentes: " ++ str_status sa) (registro w4)).
  { pose proof (preserva_verificar_mensagens config w2) as R3. rewrite E3 in R3.
    pose proof (preserva_verificar_arquivos config w3) as R4. rewrite E4 in R4.
    cbn [snd] in R3, R4.
    eapply registro_cresce; [exact R4|].
    eapply registro_cresce; [exact R3|exact Hreg2]. }
  destruct (arquivos w4 (status_dir config)) as [l|] eqn:El.
  - destruct (Hsome ltac:(discriminate)) as [Hg5 Hreg5]. split.
    + rewrite Hreg5. exact Hreg4.
    + right. exists (fromtimestamp (relogio w4)). rewrite Hg5, Hgw. reflexivity.
  - rewrite (Hnone eq_refl). split.
    + unfold acusar. cbn [logger snd registro]. apply in_or_app. left.
      exact Hreg4.
    + left. unfold acusar. cbn [logger snd gravados]. exact Hgw.
Qed.

Lemma X13_ciclo_sem_falha_externa_witness :
  let P := Exemplo.plataforma Exemplo.tudo_certo in
  exists w',
    @passos P Exemplo.config {| falha := None; parada := None |} Exemplo.mundo_com_nota
    = (Ok tt, w') /\
    dormidas w' = [].
Proof.
  intros P.
  destruct (@X13_ciclo_sem_falha_externa P Exemplo.config
              {| falha := None; parada := None |} Exemplo.mundo_com_nota eq_refl)
    as (w' & p1 & p2 & p3 & p4 & E & _ & Hd & _).
  exists w'. split; [exact E|exact Hd].
Defined.

(* --------------------------------------------------------------------- *)
(** ** Searching *)
(* --------------------------------------------------------------------- *)

Section Busca.

Context `{Plataforma}.
Variable config : Config.
Variable tmp_dir : string.
Variable tmp_nome : Mundo -> string.
Variable json_load : Conteudo -> Json + Excecao.

Lemma tem_nome_removido n l :
    tem_nome n (filter (fun e => negb (String.eqb (nome e) n)) l) = false.
  Proof.
    induction l as [|e l IH]; [reflexivity|].
    cbn [filter]. destruct (String.eqb (nome e) n) eqn:E; cbn [negb]; [exact IH|].
    cbn [tem_nome existsb]. rewrite E. exact IH.
  Qed.

Lemma remover_temporario_efeito n w :
    exists w',
      remover_temporario tmp_dir n w = (Ok tt, w') /\
      tem_nome n (listar (arquivos w') tmp_dir) = false /\
      (forall d, d <> tmp_dir -> arquivos w' d = arquivos w d) /\
      registro w' = registro w /\ processos w' = processos w /\
      dormidas w' = dormidas w /\ gravados w' = gravados w /\
      relogio w' = relogio w /\
      removidos w'
      = if tem_nome n (listar (arquivos w) tmp_dir)
        then (removidos w ++ [os_path_join tmp_dir n])%list
        else removidos w.
  Proof.
    unfold remover_temporario, tentar, os_remove.
    destruct (tem_nome n (listar (arquivos w) tmp_dir)) eqn:Et.
    - eexists. split; [reflexivity|].
      cbn [arquivos registro processos dormidas gravados relogio removidos].
      split.
      { unfold listar, atualizar. rewrite String.eqb_refl. apply tem_nome_removido. }
      split.
      { intros d Hd. unfold atualizar.
        destruct (String.eqb_spec d tmp_dir); [contradiction|reflexivity]. }
      repeat split.
    - eexists. split; [reflexivity|]. split; [exact Et|]. repeat split.
  Qed.

Lemma carregar_resultados_efeito n w :
    exists v w',
      carregar_resultados tmp_dir json_load n w = (Ok v, w') /\
      so_registro w w' /\
      v = match resultado_lido json_load (arquivos w) tmp_dir n with
          | inl (JObj campos) => JObj campos
          | inl _ => busca_falhou "get"
          | inr e => busca_falhou (str_exc e)
          end.
  Proof.
    unfold carregar_resultados, tentar, bind at 1, carregar_json, resultado_lido.
    destruct (find _ _) as [e|].
    - destruct (json_load (conteudo e)) as [v|ex].
      + destruct v; cbn [dict_get]; unfold bind, levantar, ret; cbn [fst snd];
          rewrite logger_ok; cbn [fst snd];
          (eexists _, _; split; [reflexivity|]; split;
           [apply logger_so_registro|reflexivity]).
      + unfold bind, ret. rewrite logger_ok. cbn [fst snd].
        eexists _, _. split; [reflexivity|].
        split; [apply logger_so_registro|reflexivity].
    - unfold bind, ret. rewrite logger_ok. cbn [fst snd].
      eexists _, _. split; [reflexivity|].
      split; [apply logger_so_registro|reflexivity].
  Qed.

Lemma busca_apos_o_filho n w4 :
    exists v w6,
      por_fim (carregar_resultados tmp_dir json_load n) (remover_temporario tmp_dir n) w4
      = (Ok v, w6) /\
      v = match resultado_lido json_load (arquivos w4) tmp_dir n with
          | inl (JObj campos) => JObj campos
          | inl _ => busca_falhou "get"
          | inr e => busca_falhou (str_exc e)
          end /\
      tem_nome n (listar (arquivos w6) tmp_dir) = false /\
      (forall d, d <> tmp_dir -> arquivos w6 d = arquivos w4 d) /\
      processos w6 = processos w4 /\ dormidas w6 = dormidas w4 /\
      gravados w6 = gravados w4 /\
      removidos w6
      = if tem_nome n (listar (arquivos w4) tmp_dir)
        then (removidos w4 ++ [os_path_join tmp_dir n])%list
        else removidos w4.
  Proof.
    destruct (carregar_resultados_efeito n w4) as (v & w5 & E5 & S5 & Hv).
    destruct (remover_temporario_efeito n w5)
      as (w6 & E6 & Ht & Ho & _ & Hp & Hd & Hg & _ & Hr).
    destruct S5 as (Ha5 & Hp5 & Hd5 & Hg5 & Hr5 & _).
    exists v, w6. unfold por_fim. rewrite E5, E6.
    split; [reflexivity|]. split; [exact Hv|]. split; [exact Ht|].
    split. { intros d Hdd. rewrite (Ho d Hdd), Ha5. reflexivity. }
    split; [congruence|]. split; [congruence|]. split; [congruence|].
    rewrite Hr, Ha5, Hr5. reflexivity.
  Qed.

Lemma executar_busca_eq query filtros max_resultados w l :
    arquivos w tmp_dir = Some l ->
    let nome_tmp := nome_temporario tmp_nome query w in
    let cmd := cmd_busca config query filtros max_resultados
                 (os_path_join tmp_dir nome_tmp) in
    let w2 := antes_da_busca config tmp_dir tmp_nome query filtros max_resultados w in
    let p := fst (filho cmd w2) in
    let w3 := {| arquivos := snd (filho cmd w2); registro := registro w2;
                 processos := (processos w2 ++ [(cmd, p)])%list;
                 dormidas := dormidas w2; gravados := gravados w2;
                 removidos := removidos w2; relogio := relogio w2 |} in
    executar_busca config tmp_dir tmp_nome json_load query filtros max_resultados w
    = if returncode p =? 0
      then por_fim (carregar_resultados tmp_dir json_load nome_tmp)
             (remover_temporario tmp_dir nome_tmp)
             (snd (logger DEBUG ("Saída do Agente de Busca: " ++ stdout p) w3))
      else (Ok (busca_falhou (str_CalledProcessError cmd (returncode p))),
            snd (logger ERROR ("Saída de erro: " ++ stderr p)
                   (snd (logger ERROR ("Erro ao executar Agente de Busca: "
                                       ++ str_CalledProcessError cmd (returncode p))
                           w3)))).
  Proof.
    intros Hl nome_tmp cmd w2 p w3.
    unfold executar_busca.
    unfold bind at 1. rewrite logger_ok.
    unfold bind at 1, ler_mundo.
    fold (anunciar ("Executando Agente de Busca para consulta: " ++ query) w).
    fold (nome_temporario tmp_nome query w). fold nome_tmp.
    unfold bind at 1.
    assert (Eg : gravar_arquivo tmp_dir nome_tmp (Opaco "")
                   (anunciar ("Executando Agente de Busca para consulta: " ++ query) w)
                 = (Ok tt,
                    snd (gravar_arquivo tmp_dir nome_tmp (Opaco "")
                           (anunciar ("Executando Agente de Busca para consulta: "
                                      ++ query) w)))).
    { unfold gravar_arquivo, anunciar, logger. cbn [snd arquivos]. rewrite Hl.
      reflexivity. }
    rewrite Eg. unfold bind at 1. rewrite logger_ok.
    fold cmd.
    change (snd (logger DEBUG ("Executando comando: " ++ join " " cmd)
                   (snd (gravar_arquivo tmp_dir nome_tmp (Opaco "")
                           (anunciar ("Executando Agente de Busca para consulta: "
                                      ++ query) w)))))
      with w2.
    unfold tentar at 1, bind at 1, subprocess_run.
    subst p w3. destruct (filho cmd w2) as [p0 fs] eqn:Ef.
    cbn [fst snd].
    destruct (returncode p0 =? 0) eqn:Erc.
    - unfold bind at 1. rewrite logger_ok. cbn [fst snd].
      match goal with
      | |- context [por_fim ?a ?b ?c] =>
          destruct (busca_apos_o_filho nome_tmp c) as (v & w6 & E6 & _)
      end.
      rewrite E6. reflexivity.
    - unfold bind, logger, ret. cbn [fst snd]. reflexivity.
  Qed.

Lemma antes_da_busca_rastros query filtros max_resultados w l :
    arquivos w tmp_dir = Some l ->
    let w2 := antes_da_busca config tmp_dir tmp_nome query filtros max_resultados w in
    processos w2 = processos w /\ dormidas w2 = dormidas w /\
    removidos w2 = removidos w /\
    gravados w2
    = (gravados w ++ [os_path_join tmp_dir (nome_temporario tmp_nome query w)])%list.
  Proof.
    intros Hl. unfold antes_da_busca, gravar_arquivo, anunciar, logger.
    cbn [snd arquivos]. rewrite Hl. cbn [snd processos dormidas removidos gravados].
    repeat split.
  Qed.

Lemma executar_busca_resumo query filtros max_resultados w :
    arquivos w tmp_dir <> None ->
    let nome_tmp := nome_temporario tmp_nome query w in
    let arquivo_resultados := os_path_join tmp_dir nome_tmp in
    let cmd := cmd_busca config query filtros max_resultados arquivo_resultados in
    let w2 := antes_da_busca config tmp_dir tmp_nome query filtros max_resultados w in
    let p := fst (filho cmd w2) in
    let fs := snd (filho cmd w2) in
    let r := executar_busca config tmp_dir tmp_nome json_load query filtros
               max_resultados w in
    processos (snd r) = (processos w ++ [(cmd, p)])%list /\
    gravados (snd r) = (gravados w ++ [arquivo_resultados])%list /\
    dormidas (snd r) = dormidas w /\
    (returncode p <> 0 ->
     fst r = Ok (busca_falhou (str_CalledProcessError cmd (returncode p))) /\
     removidos (snd r) = removidos w /\
     arquivos (snd r) = fs) /\
    (returncode p = 0 ->
     fst r = Ok (match resultado_lido json_load fs tmp_dir nome_tmp with
                 | inl (JObj campos) => JObj campos
                 | inl _ => busca_falhou "get"
                 | inr e => busca_falhou (str_exc e)
                 end) /\
     tem_nome nome_tmp (listar (arquivos (snd r)) tmp_dir) = false /\
     (forall d, d <> tmp_dir -> arquivos (snd r) d = fs d) /\
     removidos (snd r)
     = if tem_nome nome_tmp (listar fs tmp_dir)
       then (removidos w ++ [arquivo_resultados])%list
       else removidos w).
  Proof.
    intros Hdir nome_tmp arquivo_resultados cmd w2 p fs r.
    destruct (arquivos w tmp_dir) as [l|] eqn:Hl; [|contradiction].
    destruct (@antes_da_busca_rastros query filtros max_resultados w l Hl)
      as (Hp2 & Hd2 & Hr2 & Hg2).
    fold w2 in Hp2, Hd2, Hr2, Hg2. fold nome_tmp in Hg2. fold arquivo_resultados in Hg2.
    unfold r. rewrite (@executar_busca_eq query filtros max_resultados w l Hl).
    cbn zeta. fold nome_tmp. fold arquivo_resultados. fold cmd. fold w2. fold p. fold fs.
    destruct (returncode p =? 0) eqn:Erc.
    - match goal with
      | |- context [por_fim ?a ?b ?c] =>
          destruct (busca_apos_o_filho nome_tmp c)
            as (v & w6 & E6 & Hv & Ht & Ho & Hp6 & Hd6 & Hg6 & Hr6)
      end.
      rewrite E6. cbn [fst snd].
      cbn [logger snd arquivos processos dormidas gravados removidos] in *.
      rewrite Hp6, Hg6, Hd6, Hp2, Hg2, Hd2.
      split; [reflexivity|]. split; [reflexivity|]. split; [reflexivity|].
      split.
      { intros Hne. apply Z.eqb_eq in Erc. contradiction. }
      intros _. split; [rewrite Hv; reflexivity|]. split; [exact Ht|].
      split; [exact Ho|]. rewrite Hr6, Hr2. reflexivity.
    - cbn [fst snd logger arquivos processos dormidas gravados removidos].
      rewrite Hp2, Hg2, Hd2, Hr2.
      split; [reflexivity|]. split; [reflexivity|]. split; [reflexivity|].
      split.
      { intros _. repeat split. }
      intros Hz. apply Z.eqb_neq in Erc. contradiction.
  Qed.

End Busca.

(** X14.  With a usable temporary directory, when the child of
    [executar_busca] runs to its end and returns a code other than zero,
    that child is the search module, told to write to the temporary file
    the coordinator has just created, and the call returns the dict with
    [success] false, the text of the process error, [total] 0 and no hits.
    The temporary file is not cleaned up: the coordinator removes nothing
    and leaves the file system as the child left it. *)
Theorem X14_busca_que_falha :
  forall `{Plataforma} (config : Config) (tmp_dir : string) (tmp_nome : Mundo -> string)
         (json_load : Conteudo -> Json + Excecao)
         (query : string) (filtros : Filtros) (max_resultados : Z) (w : Mundo)
         (cmd : list string) (p : CompletedProcess),
    arquivos w tmp_dir <> None ->
    let arquivo_resultados := os_path_join tmp_dir (nome_temporario tmp_nome query w) in
    let w2 := antes_da_busca config tmp_dir tmp_nome query filtros max_resultados w in
    let r := executar_busca config tmp_dir tmp_nome json_load query filtros
               max_resultados w in
    processos (snd r) = (processos w ++ [(cmd, p)])%list ->
    returncode p <> 0 ->
    cmd = cmd_busca config query filtros max_resultados arquivo_resultados /\
    modulo_do_comando cmd = "busca.main" /\
    fst r = Ok (busca_falhou (str_CalledProcessError cmd (returncode p))) /\
    gravados (snd r) = (gravados w ++ [arquivo_resultados])%list /\
    removidos (snd r) = removidos w /\
    arquivos (snd r) = snd (filho cmd w2).
Proof.
  intros P config tmp_dir tmp_nome json_load query filtros max_resultados w cmd p Hdir
    arquivo_resultados w2 r Hproc Hrc.
  destruct (@executar_busca_resumo P config tmp_dir tmp_nome json_load query filtros
              max_resultados w Hdir) as (Hp & Hg & _ & Hfalha & _).
  fold arquivo_resultados in Hp, Hg, Hfalha. fold w2 in Hp, Hfalha. fold r in Hp, Hg, Hfalha.
  rewrite Hproc in Hp. apply app_inv_head in Hp. injection Hp as Hc Hpp.
  subst cmd. subst p. destruct (Hfalha Hrc) as (E & Hr & Ha).
  split; [reflexivity|]. split; [reflexivity|].
  split; [exact E|]. split; [exact Hg|]. split; [exact Hr|exact Ha].
Qed.

Lemma X14_busca_que_falha_witness :
  let P := Exemplo.plataforma Exemplo2.busca_falha in
  let r := @executar_busca P Exemplo.config "/tmp" (fun _ => "tmpab12cd.json")
             Exemplo2.json_load_nada "portaria" Exemplo2.sem_filtros 100
             Exemplo2.mundo_com_dados in
  fst r = Ok (busca_falhou "exit status 1") /\
  removidos (snd r) = [] /\
  map nome (listar (arquivos (snd r)) "/tmp") = ["tmpab12cd.json"].
Proof.
  intros P r.
  destruct (@X14_busca_que_falha P Exemplo.config "/tmp" (fun _ => "tmpab12cd.json")
              Exemplo2.json_load_nada "portaria" Exemplo2.sem_filtros 100
              Exemplo2.mundo_com_dados
              (@cmd_busca P Exemplo.config "portaria" Exemplo2.sem_filtros 100
                 "/tmp/tmpab12cd.json")
              (Exemplo.proc 1 "" "indice ausente"))
    as (_ & _ & E & _ & Hr & Ha).
  - discriminate.
  - vm_compute. reflexivity.
  - vm_compute. discriminate.
  - split; [exact E|]. split; [exact Hr|]. unfold r. rewrite Ha.
    vm_compute. reflexivity.
Defined.

(** X15.  When the child of [executar_busca] returns 0, the call returns
    what the temporary file holds if that is a JSON object, and the dict
    with [success] false otherwise (no file, [json.load] raising, or a
    value that is not an object); in every case the temporary file is gone
    afterwards, and it is the only file removed. *)
Theorem X15_busca_que_responde :
  forall `{Plataforma} (config : Config) (tmp_dir : string) (tmp_nome : Mundo -> string)
         (json_load : Conteudo -> Json + Excecao)
         (query : string) (filtros : Filtros) (max_resultados : Z) (w : Mundo),
    arquivos w tmp_dir <> None ->
    let nome_tmp := nome_temporario tmp_nome query w in
    let arquivo_resultados := os_path_join tmp_dir nome_tmp in
    let cmd := cmd_busca config query filtros max_resultados arquivo_resultados in
    let w2 := antes_da_busca config tmp_dir tmp_nome query filtros max_resultados w in
    let fs := snd (filho cmd w2) in
    let r := executar_busca config tmp_dir tmp_nome json_load query filtros
               max_resultados w in
    returncode (fst (filho cmd w2)) = 0 ->
    (forall campos,
        resultado_lido json_load fs tmp_dir nome_tmp = inl (JObj campos) ->
        fst r = Ok (JObj campos)) /\
    (forall e,
        resultado_lido json_load fs tmp_dir nome_tmp = inr e ->
        fst r = Ok (busca_falhou (str_exc e))) /\
    (forall v,
        resultado_lido json_load fs tmp_dir nome_tmp = inl v ->
        (forall campos, v <> JObj campos) ->
        exists erro, fst r = Ok (busca_falhou erro)) /\
    tem_nome nome_tmp (listar (arquivos (snd r)) tmp_dir) = false /\
    (forall d, d <> tmp_dir -> arquivos (snd r) d = fs d) /\
    (removidos (snd r) = removidos w \/
     removidos (snd r) = (removidos w ++ [arquivo_resultados])%list).
Proof.
  intros P config tmp_dir tmp_nome json_load query filtros max_resultados w Hdir
    nome_tmp arquivo_resultados cmd w2 fs r Hrc.
  destruct (@executar_busca_resumo P config tmp_dir tmp_nome json_load query filtros
              max_resultados w Hdir) as (_ & _ & _ & _ & Hok).
  destruct (Hok Hrc) as (E & Ht & Ho & Hr).
  subst r fs w2 cmd arquivo_resultados nome_tmp.
  split; [|split; [|split; [|split; [|split]]]].
  - intros campos Hl. rewrite E, Hl. reflexivity.
  - intros e Hl. rewrite E, Hl. reflexivity.
  - intros v Hl Hv. rewrite E, Hl.
    destruct v; try (eexists; reflexivity). exfalso. exact (Hv campos eq_refl).
  - exact Ht.
  - exact Ho.
  - rewrite Hr.
    match goal with
    | |- context [if ?b then _ else _] => destruct b
    end; [right|left]; reflexivity.
Qed.

Lemma X15_busca_que_responde_witness :
  let P := Exemplo.plataforma Exemplo.tudo_certo in
  let r := @executar_busca P Exemplo.config "/tmp" (fun _ => "tmpab12cd.json")
             Exemplo2.json_load_nada "portaria" Exemplo2.sem_filtros 100
             Exemplo2.mundo_com_dados in
  fst r = Ok (busca_falhou "Expecting value") /\
  listar (arquivos (snd r)) "/tmp" = [].
Proof.
  intros P r.
  destruct (@X15_busca_que_responde P Exemplo.config "/tmp" (fun _ => "tmpab12cd.json")
              Exemplo2.json_load_nada "portaria" Exemplo2.sem_filtros 100
              Exemplo2.mundo_com_dados ltac:(discriminate) eq_refl)
    as (_ & He & _ & _ & _ & _).
  split.
  - apply (He (OutraExcecao "Expecting value")). vm_compute. reflexivity.
  - vm_compute. reflexivity.
Defined.

(* --------------------------------------------------------------------- *)
(** ** The activity report of the monitor *)
(* --------------------------------------------------------------------- *)

Section RelatorioDeAtividades.

Context `{Plataforma}.
Variable config : Config.

Lemma listar_recentes_eq d horas w :
    _listar_arquivos_recentes d horas w
    = match arquivos w d with
      | Some l => (Ok (recentes (relogio w - horas * 3600) l), w)
      | None => (Levantou (FileNotFoundError (erro_enoent d)), w)
      end.
  Proof.
    unfold _listar_arquivos_recentes, bind, ler_mundo, os_listdir, recentes, ret.
    destruct (arquivos w d); reflexivity.
  Qed.

  (** What [gerar_relatorio] gives when exception [e] is raised in [w]. *)
Lemma relatorio_eq periodo_dias w :
    let dados := get (dados_dir config) "../dados" in
    let agora := fromtimestamp (relogio w) in
    let limite := relogio w - periodo_dias * 24 * 3600 in
    let erro e := (Ok (Atividades.ErroRelatorio (str_exc e)),
                   acusar ("Erro ao gerar relatório: " ++ str_exc e) w) in
    Atividades.gerar_relatorio config periodo_dias w
    = match Atividades.timedelta_dias periodo_dias w with
      | (Levantou e, _) => erro e
      | (Ok dias, _) =>
          match Atividades.subtrair_dias agora dias w with
          | (Levantou e, _) => erro e
          | (Ok data_limite, _) =>
              match os_listdir (os_path_join dados "brutos") w with
              | (Levantou e, _) => erro e
              | (Ok lb, _) =>
                  match os_listdir (os_path_join dados "processados") w with
                  | (Levantou e, _) => erro e
                  | (Ok lp, _) =>
                      match os_listdir (os_path_join dados "csv") w with
                      | (Levantou e, _) => erro e
                      | (Ok lc, _) =>
                          match verificar_status_agentes w with
                          | (Ok st, w') =>
                              (Ok (Atividades.Atividade data_limite agora
                                     (List.length (recentes limite lb))
                                     (List.length (recentes limite lp))
                                     (List.length (recentes limite lc)) st), w')
                          | (Levantou e, w') =>
                              (Ok (Atividades.ErroRelatorio (str_exc e)),
                               acusar ("Erro ao gerar relatório: " ++ str_exc e) w')
                          end
                      end
                  end
              end
          end
      end.
  Proof.
    intros dados agora limite erro.
    unfold Atividades.gerar_relatorio, tentar.
    fold dados.
    unfold bind at 1, datetime_now at 1. fold agora.
    unfold bind at 1.
    assert (Htd : snd (Atividades.timedelta_dias periodo_dias w) = w).
    { unfold Atividades.timedelta_dias. destruct (_ <=? _); reflexivity. }
    destruct (Atividades.timedelta_dias periodo_dias w) as [[dias|e] w0];
      cbn [snd] in Htd; subst w0; [|reflexivity].
    unfold bind at 1.
    assert (Hsb : snd (Atividades.subtrair_dias agora dias w) = w).
    { unfold Atividades.subtrair_dias. destruct (_ && _); reflexivity. }
    destruct (Atividades.subtrair_dias agora dias w) as [[data_limite|e] w0];
      cbn [snd] in Hsb; subst w0; [|reflexivity].
    unfold bind at 1, datetime_now at 1.
    unfold bind at 1. rewrite listar_recentes_eq. unfold os_listdir.
    destruct (arquivos w (os_path_join dados "brutos")) as [lb|]; [|reflexivity].
    unfold bind at 1. rewrite listar_recentes_eq.
    destruct (arquivos w (os_path_join dados "processados")) as [lp|]; [|reflexivity].
    unfold bind at 1. rewrite listar_recentes_eq.
    destruct (arquivos w (os_path_join dados "csv")) as [lc|]; [|reflexivity].
    unfold bind at 1.
    destruct (verificar_status_agentes w) as [[st|e] w']; reflexivity.
  Qed.

Lemma periodo_valido_eq agora periodo_dias w :
    periodo_valido agora periodo_dias ->
    Atividades.timedelta_dias periodo_dias w = (Ok periodo_dias, w) /\
    Atividades.subtrair_dias agora periodo_dias w
    = (Ok (menos_dias agora periodo_dias), w).
  Proof.
    intros [Ha [Hl Hu]].
    unfold Atividades.timedelta_dias, Atividades.subtrair_dias.
    apply Z.leb_le in Ha, Hl, Hu. rewrite Ha, Hl, Hu. split; reflexivity.
  Qed.

Lemma periodo_invalido_eq agora periodo_dias w :
    ~ periodo_valido agora periodo_dias ->
    (exists e, Atividades.timedelta_dias periodo_dias w = (Levantou e, w)) \/
    (Atividades.timedelta_dias periodo_dias w = (Ok periodo_dias, w) /\
     exists e, Atividades.subtrair_dias agora periodo_dias w = (Levantou e, w)).
  Proof.
    intros Hn.
    unfold Atividades.timedelta_dias, Atividades.subtrair_dias.
    destruct (Z.leb_spec (Z.abs periodo_dias) 999999999) as [Ha|Ha].
    - right. split; [reflexivity|].
      destruct (Z.leb_spec 1 (toordinal agora - periodo_dias)) as [Hl|Hl].
      + destruct (Z.leb_spec (toordinal agora - periodo_dias) 3652059) as [Hu|Hu].
        * exfalso. apply Hn. split; [exact Ha|split; assumption].
        * eexists. reflexivity.
      + eexists. reflexivity.
    - left. eexists. reflexivity.
  Qed.

End RelatorioDeAtividades.

(** X16.  [Monitor.gerar_relatorio] never raises.  For a period that
    [timedelta] takes and that stays within the years 1 to 9999: when the
    raw, the processed and the CSV directory all exist it probes the four
    agents and reports, for each directory, the number of regular files
    modified within the last [periodo_dias] days, with the period and the
    status of the agents; when one of them is missing, listing the first
    missing one raises, and the method returns the dict with the single
    key [erro] holding the text of that exception, logs it and probes no
    agent.  For any other period it returns such a dict, too, and probes
    no agent. *)
Theorem X16_relatorio_de_atividades :
  forall `{Plataforma} (config : Config) (periodo_dias : Z) (w : Mundo),
    let dados := get (dados_dir config) "../dados" in
    let brutos := os_path_join dados "brutos" in
    let processados := os_path_join dados "processados" in
    let csv := os_path_join dados "csv" in
    let agora := fromtimestamp (relogio w) in
    let limite := relogio w - periodo_dias * 24 * 3600 in
    let r := Atividades.gerar_relatorio config periodo_dias w in
    (exists v, fst r = Ok v) /\
    (periodo_valido agora periodo_dias ->
     forall lb lp lc,
        arquivos w brutos = Some lb ->
        arquivos w processados = Some lp ->
        arquivos w csv = Some lc ->
        exists p1 p2 p3 p4,
          fst r = Ok (Atividades.Atividade (menos_dias agora periodo_dias) agora
                        (List.length (recentes limite lb))
                        (List.length (recentes limite lp))
                        (List.length (recentes limite lc))
                        [("coletor", disponibilidade p1);
                         ("processador", disponibilidade p2);
                         ("organizador", disponibilidade p3);
                         ("busca", disponibilidade p4)]) /\
          processos (snd r)
          = (processos w ++ [(cmd_sonda "coletor.main", p1);
                             (cmd_sonda "processador.main", p2);
                             (cmd_sonda "organizador.main", p3);
                             (cmd_sonda "busca.main", p4)])%list /\
          registro (snd r) = registro w) /\
    (periodo_valido agora periodo_dias ->
     forall d,
        (d = brutos /\ arquivos w brutos = None) \/
        (d = processados /\ arquivos w brutos <> None /\
         arquivos w processados = None) \/
        (d = csv /\ arquivos w brutos <> None /\ arquivos w processados <> None /\
         arquivos w csv = None) ->
        exists e,
          os_listdir d w = (Levantou e, w) /\
          r = (Ok (Atividades.ErroRelatorio (str_exc e)),
               acusar ("Erro ao gerar relatório: " ++ str_exc e) w)) /\
    (~ periodo_valido agora periodo_dias ->
     exists e,
       r = (Ok (Atividades.ErroRelatorio (str_exc e)),
            acusar ("Erro ao gerar relatório: " ++ str_exc e) w)).
Proof.
  intros P config periodo_dias w dados brutos processados csv agora limite r.
  assert (Er := relatorio_eq config periodo_dias w). cbn zeta in Er.
  fold dados in Er. fold brutos in Er. fold processados in Er. fold csv in Er.
  fold agora in Er. fold limite in Er. fold r in Er.
  destruct (verificar_status_resumo w)
    as (p1 & p2 & p3 & p4 & w1 & E1 & Hp1 & Hreg1 & _).
  rewrite E1 in Er. unfold os_listdir in Er.
  split; [|split; [|split]].
  - rewrite Er.
    destruct (Atividades.timedelta_dias periodo_dias w) as [[dias|e] w0];
      [|eexists; reflexivity].
    destruct (Atividades.subtrair_dias agora dias w) as [[dl|e] w0'];
      [|eexists; reflexivity].
    destruct (arquivos w brutos); [|eexists; reflexivity].
    destruct (arquivos w processados); [|eexists; reflexivity].
    destruct (arquivos w csv); eexists; reflexivity.
  - intros Hv lb lp lc Hb Hp Hc.
    destruct (@periodo_valido_eq agora periodo_dias w Hv) as [Etd Esb].
    rewrite Etd, Esb, Hb, Hp, Hc in Er. rewrite Er. cbn [fst snd].
    exists p1, p2, p3, p4. split; [reflexivity|]. split; [exact Hp1|exact Hreg1].
  - intros Hv d Hd.
    destruct (@periodo_valido_eq agora periodo_dias w Hv) as [Etd Esb].
    rewrite Etd, Esb in Er. unfold os_listdir.
    destruct Hd as [[-> Hb]|[[-> [Hb Hp]]|[-> [Hb [Hp Hc]]]]].
    + rewrite Hb in Er |- *. eexists. split; [reflexivity|exact Er].
    + destruct (arquivos w brutos); [|contradiction].
      rewrite Hp in Er |- *. eexists. split; [reflexivity|exact Er].
    + destruct (arquivos w brutos); [|contradiction].
      destruct (arquivos w processados); [|contradiction].
      rewrite Hc in Er |- *. eexists. split; [reflexivity|exact Er].
  - intros Hn.
    destruct (@periodo_invalido_eq agora periodo_dias w Hn)
      as [[e Etd]|[Etd [e Esb]]].
    + rewrite Etd in Er. exists e. exact Er.
    + rewrite Etd, Esb in Er. exists e. exact Er.
Qed.

Lemma X16_relatorio_de_atividades_witness :
  let P := Exemplo.plataforma Exemplo.tudo_certo in
  (exists st,
      fst (@Atividades.gerar_relatorio P Exemplo.config 7 Exemplo2.mundo_com_dados)
      = Ok (Atividades.Atividade
              (menos_dias (fromtimestamp 1709337600) 7) (fromtimestamp 1709337600)
              1 0 0 st)) /\
  @Atividades.gerar_relatorio P Exemplo.config 7 Exemplo.mundo_vazio
  = (Ok (Atividades.ErroRelatorio
           "[Errno 2] No such file or directory: 'dados/brutos'"),
     acusar ("Erro ao gerar relatório: "
             ++ "[Errno 2] No such file or directory: 'dados/brutos'")
       Exemplo.mundo_vazio) /\
  (exists e,
      fst (@Atividades.gerar_relatorio P Exemplo.config 800000
             Exemplo2.mundo_com_dados)
      = Ok (Atividades.ErroRelatorio (str_exc e))).
Proof.
  intros P. split; [|split].
  - destruct (@X16_relatorio_de_atividades P Exemplo.config 7 Exemplo2.mundo_com_dados)
      as (_ & Hok & _).
    destruct (Hok ltac:(vm_compute; repeat split; discriminate)
                [Exemplo.arq "2024-03-01_secao3.json" 1709337000] [] []
                eq_refl eq_refl eq_refl) as (p1 & p2 & p3 & p4 & E & _).
    eexists. exact E.
  - destruct (@X16_relatorio_de_atividades P Exemplo.config 7 Exemplo.mundo_vazio)
      as (_ & _ & Hfalta & _).
    destruct (Hfalta ltac:(vm_compute; repeat split; discriminate) "dados/brutos")
      as (e & Ee & Er).
    + left. split; reflexivity.
    + rewrite Er. vm_compute in Ee. injection Ee as <-. reflexivity.
  - destruct (@X16_relatorio_de_atividades P Exemplo.config 800000
                Exemplo2.mundo_com_dados) as (_ & _ & _ & Hinv).
    destruct Hinv as (e & Er).
    + intros [_ [Hl _]]. vm_compute in Hl. apply Hl. reflexivity.
    + exists e. rewrite Er. reflexivity.
Defined.

(* --------------------------------------------------------------------- *)
(** ** The configuration object *)
(* --------------------------------------------------------------------- *)

Section Configuracoes.

Lemma procurar_dict_set_mesma k v d : procurar_chave k (dict_set k v d) = Some v.
  Proof.
    induction d as [|[k0 v0] r IH]; cbn [dict_set procurar_chave].
    - rewrite String.eqb_refl. reflexivity.
    - destruct (String.eqb k0 k) eqn:E; cbn [procurar_chave]; rewrite E;
        [reflexivity|exact IH].
  Qed.

Lemma procurar_dict_set_outra k k' v d :
    k' <> k -> procurar_chave k' (dict_set k v d) = procurar_chave k' d.
  Proof.
    intros Hk. induction d as [|[k0 v0] r IH]; cbn [dict_set procurar_chave].
    - destruct (String.eqb_spec k k'); [congruence|reflexivity].
    - destruct (String.eqb_spec k0 k) as [->|Hn]; cbn [procurar_chave].
      + destruct (String.eqb_spec k k'); [congruence|reflexivity].
      + destruct (String.eqb k0 k'); [reflexivity|exact IH].
  Qed.

Lemma dict_set_presente k v d :
    procurar_chave k d <> None -> map fst (dict_set k v d) = map fst d.
  Proof.
    induction d as [|[k0 v0] r IH]; cbn [dict_set procurar_chave map fst].
    - intros Hx. contradiction.
    - destruct (String.eqb k0 k) eqn:E; cbn [map fst]; [reflexivity|].
      intros Hx. rewrite (IH Hx). reflexivity.
  Qed.

Lemma dict_set_ausente k v d :
    procurar_chave k d = None -> dict_set k v d = (d ++ [(k, v)])%list.
  Proof.
    induction d as [|[k0 v0] r IH]; cbn [dict_set procurar_chave app];
      [reflexivity|].
    destruct (String.eqb k0 k); [discriminate|].
    intros Hx. rewrite (IH Hx). reflexivity.
  Qed.

Lemma procurar_ausente k (campos : list (string * Json)) :
    ~ In k (map fst campos) -> procurar_chave k campos = None.
  Proof.
    induction campos as [|[k0 v0] r IH]; [reflexivity|].
    cbn [map fst In procurar_chave]. intros Hn.
    destruct (String.eqb_spec k0 k) as [->|Hk].
    - exfalso. apply Hn. left. reflexivity.
    - apply IH. intros Hi. apply Hn. right. exact Hi.
  Qed.

Lemma procurar_dict_update campos :
    NoDup (map fst campos) ->
    forall d k,
      procurar_chave k (dict_update d campos)
      = match procurar_chave k campos with
        | Some v => Some v
        | None => procurar_chave k d
        end.
  Proof.
    unfold dict_update.
    induction campos as [|[k0 v0] r IH]; intros Hnd d k; [reflexivity|].
    cbn [map fst] in Hnd. inversion Hnd as [|? ? Hnotin Hnd']. subst.
    cbn [fold_left fst snd procurar_chave].
    rewrite (IH Hnd').
    destruct (String.eqb_spec k0 k) as [->|Hk].
    - rewrite (@procurar_ausente k r Hnotin). apply procurar_dict_set_mesma.
    - destruct (procurar_chave k r); [reflexivity|].
      apply procurar_dict_set_outra. congruence.
  Qed.

Context `{Plataforma}.
Variable json_load : Conteudo -> Json + Excecao.
Variable update_de_sequencia : Dict -> Json -> Dict * option Excecao.

Lemma carregar_json_de_eq p w :
    carregar_json_de json_load p w
    = match config_lida json_load (arquivos w) p with
      | inl v => (Ok v, w)
      | inr e => (Levantou e, w)
      end.
  Proof.
    unfold carregar_json_de, config_lida. destruct (os_path_split p) as [d n].
    destruct (find _ _) as [e|]; [|reflexivity].
    destruct (json_load (conteudo e)); reflexivity.
  Qed.

Lemma carga_falhou_eq d config_file e w :
    carga_falhou d config_file e w
    = (Ok (d, false),
       anunciar "Usando configurações padrão"
         (snd (logger WARNING ("Erro ao carregar configurações de " ++ config_file
                               ++ ": " ++ str_exc e) w))).
  Proof. reflexivity. Qed.

Lemma carregar_arquivo_eq d config_file w :
    carregar_arquivo json_load update_de_sequencia d config_file w
    = match config_lida json_load (arquivos w) config_file with
      | inl v =>
          match atualizar_com update_de_sequencia d v with
          | (d', None) =>
              (Ok (d', true),
               anunciar ("Configurações carregadas de " ++ config_file) w)
          | (d', Some e) => carga_falhou d' config_file e w
          end
      | inr e => carga_falhou d config_file e w
      end.
  Proof.
    unfold carregar_arquivo. rewrite carregar_json_de_eq.
    destruct (config_lida json_load (arquivos w) config_file) as [v|e];
      [|reflexivity].
    destruct (atualizar_com update_de_sequencia d v) as [d' [e|]]; reflexivity.
  Qed.

End Configuracoes.

(** X17.  [Config.set] followed by [Config.get] of the same key returns
    the value set, whatever the default; the other keys read as before.
    Setting a key that is present keeps the keys and their order, setting
    a key that is absent adds it after the others. *)
Theorem X17_config_set_e_get :
  forall (d : Dict) (chave outra : string) (valor padrao : Json),
    config_get (config_set d chave valor) chave padrao = valor /\
    (outra <> chave ->
     config_get (config_set d chave valor) outra padrao = config_get d outra padrao) /\
    (procurar_chave chave d <> None ->
     map fst (config_set d chave valor) = map fst d) /\
    (procurar_chave chave d = None ->
     config_set d chave valor = (d ++ [(chave, valor)])%list).
Proof.
  intros d chave outra valor padrao. unfold config_get, config_set.
  split; [|split; [|split]].
  - rewrite procurar_dict_set_mesma. reflexivity.
  - intros Hk. rewrite (@procurar_dict_set_outra chave outra valor d Hk). reflexivity.
  - apply dict_set_presente.
  - apply dict_set_ausente.
Qed.

Lemma X17_config_set_e_get_witness :
  config_get (config_set Exemplo2.padroes "formato_saida" (JStr "json"))
    "separador_csv" JNull
  = config_get Exemplo2.padroes "separador_csv" JNull.
Proof.
  apply (@X17_config_set_e_get Exemplo2.padroes "formato_saida" "separador_csv"
           (JStr "json") JNull).
  discriminate.
Defined.

(** X18.  [Config.carregar_arquivo] never raises and touches nothing but
    the log.  A file that holds a JSON object is merged over the current
    values: afterwards a key reads as the file gives it, and as before
    when the file does not mention it; the call returns [True] after one
    record.  A file that is missing or that [json.load] refuses, and a
    file that holds [null], a boolean or a number, leave the configuration
    as it was; the call returns [False] after a warning and the record
    that the defaults are in use. *)
Theorem X18_carga_da_configuracao :
  forall `{Plataforma} (json_load : Conteudo -> Json + Excecao)
         (update_de_sequencia : Dict -> Json -> Dict * option Excecao)
         (d : Dict) (config_file : string) (w : Mundo),
    let r := carregar_arquivo json_load update_de_sequencia d config_file w in
    (exists v, fst r = Ok v) /\
    so_registro w (snd r) /\
    (forall campos,
        config_lida json_load (arquivos w) config_file = inl (JObj campos) ->
        NoDup (map fst campos) ->
        exists d',
          r = (Ok (d', true),
               anunciar ("Configurações carregadas de " ++ config_file) w) /\
          forall chave padrao,
            config_get d' chave padrao
            = match procurar_chave chave campos with
              | Some v => v
              | None => config_get d chave padrao
              end) /\
    (forall e,
        config_lida json_load (arquivos w) config_file = inr e ->
        fst r = Ok (d, false) /\
        registro (snd r) = (registro w ++ avisos_de_carga config_file e)%list) /\
    (forall v,
        config_lida json_load (arquivos w) config_file = inl v ->
        v = JNull \/ (exists b, v = JBool b) \/ (exists n, v = JNum n) ->
        fst r = Ok (d, false)).
Proof.
  intros P json_load update_de_sequencia d config_file w r. unfold r.
  rewrite carregar_arquivo_eq.
  split; [|split; [|split; [|split]]].
  - destruct (config_lida _ _ _) as [v|e]; [|eexists; reflexivity].
    destruct (atualizar_com update_de_sequencia d v) as [d' [e|]];
      eexists; reflexivity.
  - destruct (config_lida _ _ _) as [v|e].
    + destruct (atualizar_com update_de_sequencia d v) as [d' [e|]].
      * rewrite carga_falhou_eq. cbn [snd]. unfold anunciar.
        eapply so_registro_trans; apply logger_so_registro.
      * cbn [snd]. unfold anunciar. apply logger_so_registro.
    + rewrite carga_falhou_eq. cbn [snd]. unfold anunciar.
      eapply so_registro_trans; apply logger_so_registro.
  - intros campos Hl Hnd. rewrite Hl. cbn [atualizar_com].
    eexists. split; [reflexivity|].
    intros chave padrao. unfold config_get.
    rewrite (@procurar_dict_update campos Hnd).
    destruct (procurar_chave chave campos); reflexivity.
  - intros e Hl. rewrite Hl. rewrite carga_falhou_eq. split; [reflexivity|].
    unfold anunciar, logger, avisos_de_carga. cbn [snd registro].
    rewrite <- app_assoc. reflexivity.
  - intros v Hl [->|[[b ->]|[n ->]]]; rewrite Hl; reflexivity.
Qed.

Lemma X18_carga_da_configuracao_witness :
  let P := Exemplo.plataforma Exemplo.tudo_certo in
  exists d',
    fst (@carregar_arquivo P Exemplo2.json_load_formato (fun d _ => (d, None))
           Exemplo2.padroes "etc/config.json" Exemplo2.mundo_com_config)
    = Ok (d', true) /\
    config_get d' "formato_saida" JNull = JStr "json" /\
    config_get d' "separador_csv" JNull = JStr ",".
Proof.
  intros P.
  destruct (@X18_carga_da_configuracao P Exemplo2.json_load_formato
              (fun d _ => (d, None)) Exemplo2.padroes
              "etc/config.json" Exemplo2.mundo_com_config)
    as (_ & _ & Hok & _).
  destruct (Hok [("formato_saida", JStr "json")]) as (d' & E & Hget).
  - vm_compute. reflexivity.
  - repeat constructor. intros [].
  - exists d'. split; [rewrite E; reflexivity|]. split; rewrite Hget; reflexivity.
Defined.

(* --------------------------------------------------------------------- *)
(** ** Resuming at the organize stage *)
(* --------------------------------------------------------------------- *)

Section RetomadaDaOrganizacao.

Context `{Plataforma}.
Variable config : Config.

Lemma executar_modo_organizacao data secao out w :
    executar_modo config Organizacao data secao out w
    = retomar (os_path_join out "processados") (padrao_da_busca data secao)
        ("Nenhum arquivo processado encontrado para " ++ strftime_Ymd data
         ++ ", Seção " ++ str_Z secao)
        (fun arquivo_processado =>
           executar_organizacao config arquivo_processado out)
        (fun saida => "Organização concluída. Arquivo gerado: " ++ saida)
        (anunciar "Executando apenas a etapa de organização" w).
  Proof.
    cbn [executar_modo]. unfold bind at 1. rewrite logger_ok. reflexivity.
  Qed.

Lemma retomar_com_entrada (A : Type) d padrao msg (etapa_ : string -> M A)
      concluido w x :
    encontrar_arquivo_mais_recente d padrao w = (Ok (Some x), w) ->
    retomar d padrao msg etapa_ concluido w
    = match etapa_ x w with
      | (Ok s, w') => (Ok None, anunciar (concluido s) w')
      | (Levantou e, w') => (Levantou e, w')
      end.
  Proof.
    intros E. unfold retomar, bind at 1. rewrite E. unfold bind at 1.
    destruct (etapa_ x w) as [[s|e] w']; [|reflexivity].
    unfold bind. rewrite logger_ok. reflexivity.
  Qed.

Lemma despachar_concluido modo data secao out w w' :
    executar_modo config modo data secao out w = (Ok None, w') ->
    despachar config modo data secao out w
    = (Ok 0, anunciar "Operação concluída com sucesso" w').
  Proof.
    intros E. unfold despachar, tentar, bind at 1. rewrite E.
    unfold bind. rewrite logger_ok. reflexivity.
  Qed.

End RetomadaDaOrganizacao.

(** X19.  In the mode [organizacao], with an output directory whose path
    holds no wildcard character, when the processed directory lists
    the file the process stage writes by convention,
    [processado_{date}_secao{n}.json], [main] resumes: it runs exactly one
    child, the organizer, on the path of an entry of that directory whose
    name contains [processado_{date}_secao{n}], and returns 0, or 1 when
    the stage raises, as it does when the child returns a code other than
    zero. *)
Theorem X19_retomada_da_organizacao :
  forall `{Plataforma} (config : Config) (args : Args) (roteiro : list Iteracao)
         (w : Mundo) (data : DateTime),
    modo_de_pipeline args ->
    arg_modo args = Organizacao ->
    diretorio_de_saida config args <> "" ->
    has_magic (diretorio_de_saida config args) = false ->
    data_alvo args w = Some data ->
    let out := diretorio_de_saida config args in
    let secao := resolver_secao args in
    let dir := os_path_join out "processados" in
    let formato := get (formato_saida config) "csv" in
    (exists e, In e (listar (arquivos w) dir) /\
               nome e = "processado_" ++ nome_bruto data secao) ->
    exists c w' x p,
      main config args roteiro w = (Retornou c, w') /\
      (exists e, In e (listar (arquivos w) dir) /\
                 candidato (padrao_da_busca data secao) e /\
                 x = os_path_join dir (nome e)) /\
      processos w'
      = (processos w
         ++ [(cmd_organizacao config x
                (os_path_join (os_path_join out formato)
                   (nome_organizado x ++ "." ++ formato)) formato, p)])%list /\
      (c = 0 \/ c = 1) /\
      (returncode p <> 0 -> c = 1).
Proof.
  intros P config args roteiro w data Hmodo Horg Hout _ Hdata out secao dir formato
    (e0 & Hin0 & Hn0).
  destruct (@main_despacha P config args roteiro w data Hmodo Hout Hdata)
    as (w1 & (Ha & Hp & _ & Hg & _) & Emain).
  rewrite Emain, Horg. fold out secao.
  assert (Hd : diretorio_normal dir).
  { apply os_path_join_normal; [exact Hout|reflexivity|reflexivity]. }
  assert (Hs : padrao_simples (padrao_da_busca data secao) = true).
  { apply padrao_da_busca_simples. }
  set (w2 := anunciar "Executando apenas a etapa de organização" w1).
  assert (Hl : listar (arquivos w2) dir = listar (arquivos w) dir).
  { unfold listar. cbn [w2 anunciar logger snd arquivos]. rewrite Ha.
    rewrite os_makedirs_outros; [reflexivity|].
    apply os_path_join_outro; [exact Hout|reflexivity]. }
  assert (Hc0 : candidato (padrao_da_busca data secao) e0).
  { split.
    - rewrite Hn0. reflexivity.
    - exists "", ".json". rewrite Hn0. reflexivity. }
  rewrite <- Hl in Hin0.
  destruct (@encontrar_algum dir (padrao_da_busca data secao) w2 e0 Hd Hs Hin0 Hc0)
    as [x Ex].
  destruct (@encontrar_achado dir (padrao_da_busca data secao) w2 x Hd Hs
              (f_equal fst Ex)) as (e1 & Hin1 & Hc1 & Hx).
  rewrite Hl in Hin1.
  pose proof (@retomar_com_entrada string dir (padrao_da_busca data secao)
                ("Nenhum arquivo processado encontrado para " ++ strftime_Ymd data
                 ++ ", Seção " ++ str_Z secao)
                (fun arquivo_processado =>
                   executar_organizacao config arquivo_processado out)
                (fun saida => "Organização concluída. Arquivo gerado: " ++ saida)
                w2 x Ex) as Er.
  cbv beta in Er.
  destruct (executar_organizacao_resumo config x Hout) as (_ & Hfatal & U).
  destruct (U w2) as (p & Hp3 & _).
  specialize (Hfatal w2 _ p Hp3).
  assert (Hpw : processos w2 = processos w).
  { cbn [w2 anunciar logger snd processos]. rewrite Hp.
    apply os_makedirs_processos. }
  destruct (executar_organizacao config x out w2) as [[s|ex] w3] eqn:Eorg.
  - fold out in Hp3, Hfatal. rewrite Eorg in Hp3, Hfatal.
    cbn [snd fst] in Hp3, Hfatal.
    rewrite (@despachar_concluido P config Organizacao data secao out w1 _
               (eq_trans (executar_modo_organizacao config data secao out w1) Er)).
    eexists 0, _, x, p. split; [reflexivity|].
    split; [exists e1; split; [exact Hin1|]; split; [exact Hc1|exact Hx]|].
    split.
    { cbn [anunciar logger snd processos]. rewrite Hp3, Hpw. reflexivity. }
    split; [left; reflexivity|].
    intros Hrc. destruct (Hfatal Hrc) as [Hx1 _]. discriminate Hx1.
  - fold out in Hp3, Hfatal. rewrite Eorg in Hp3, Hfatal.
    cbn [snd fst] in Hp3, Hfatal.
    rewrite (@despachar_excecao P config data secao out Organizacao w1 ex w3
               (eq_trans (executar_modo_organizacao config data secao out w1) Er)).
    eexists 1, _, x, p. split; [reflexivity|].
    split; [exists e1; split; [exact Hin1|]; split; [exact Hc1|exact Hx]|].
    split.
    { cbn [acusar logger snd processos]. rewrite Hp3, Hpw. reflexivity. }
    split; [right; reflexivity|]. intros _. reflexivity.
Qed.

Lemma X19_retomada_da_organizacao_witness :
  let P := Exemplo.plataforma Exemplo.tudo_certo in
  exists c w' x p,
    @main P Exemplo.config (Exemplo.args (Some "01-03-2024") Organizacao) []
      Exemplo.mundo_apos_run = (Retornou c, w') /\
    processos w'
    = (processos Exemplo.mundo_apos_run
       ++ [(@cmd_organizacao P Exemplo.config x
              (os_path_join (os_path_join "dados" "csv") (nome_organizado x ++ ".csv"))
              "csv", p)])%list.
Proof.
  intros P.
  destruct (@X19_retomada_da_organizacao P Exemplo.config
              (Exemplo.args (Some "01-03-2024") Organizacao) []
              Exemplo.mundo_apos_run Exemplo.primeiro_de_marco
              (conj eq_refl eq_refl) eq_refl ltac:(discriminate) eq_refl eq_refl)
    as (c & w' & x & p & E & _ & Hp & _).
  - exists {| nome := "processado_2024-03-01_secao3.json"; eh_arquivo := true;
              mtime := 1709337600; conteudo := Opaco "" |}.
    split; vm_compute; [left; reflexivity|reflexivity].
  - exists c, w', x, p. split; [exact E|exact Hp].
Defined.
